(** * Actomyosin contraction in soft pillar rings: the model layer, verified

    Shallow embeddings of [models.py], [work_and_power.py],
    [parameter_loader.py], [auxiliaries.py] and of the start of
    [calculate_contraction_dynamics.py].

    Numbers.  The numeric code is embedded twice.  The first embedding takes
    Python floats as the real numbers [R] (exact arithmetic: no rounding, no
    overflow, no underflow) and Python ints as [Z]; a division whose divisor
    is zero has no value there and is [Raise ZeroDivisionError], as Python's
    own division of ints and floats does.  It states what the formulas of
    the code compute where every denominator is nonzero.  The second
    embedding, [Binary64], is for the places where the arithmetic of the
    interpreter decides the outcome: it computes in IEEE 754 binary64 and
    keeps apart Python ints, Python floats and [numpy.float64] scalars,
    whose division by zero raises nothing: it returns [inf] or [nan] and
    issues a [RuntimeWarning].

    Effects.  Exceptions are threaded through a small error monad
    ([Py.result]); [for] loops over [range] are monadic folds over the list
    of indices; the loader, which prints, threads its standard output; the
    binary64 computations thread the warnings of numpy. *)

From Stdlib Require Import Reals Lra Lia ZArith List String Ascii Bool.
From Stdlib Require Import SpecFloat.
Import ListNotations.

(* ================================================================== *)
(** * Python values, exceptions and loops *)

Module Py.

(** The exceptions the embedded code can raise. *)
Inductive exn : Type :=
| ZeroDivisionError
| IndexError
| KeyError (key : string)
| ValueError
| TypeError
| SystemExit (code : Z).

Inductive result (A : Type) : Type :=
| Ok (a : A)
| Raise (e : exn).

Arguments Ok {A} a.
Arguments Raise {A} e.

Definition bind {A B : Type} (x : result A) (f : A -> result B) : result B :=
  match x with
  | Ok a => f a
  | Raise e => Raise e
  end.

(** A number stored in a parameter list or dict: a float or an int. *)
Inductive num : Type :=
| PyFloat (x : R)
| PyInt (n : Z).

Definition to_R (v : num) : R :=
  match v with
  | PyFloat x => x
  | PyInt n => IZR n
  end.

(** [x / y] on Python ints and floats, in exact arithmetic.  Where an
    operand is a [numpy.float64] and the divisor is zero the division does
    not raise: see [Binary64.binary]. *)
Definition truediv (x y : R) : result R :=
  if Req_dec_T y 0 then Raise ZeroDivisionError else Ok (x / y)%R.

(** [range(lo, hi)] *)
Definition range (lo hi : Z) : list Z :=
  map (fun k => (lo + Z.of_nat k)%Z) (seq 0 (Z.to_nat (hi - lo))).

(** The bound of a [range] must be an int. *)
Definition index (v : num) : result Z :=
  match v with
  | PyInt n => Ok n
  | PyFloat _ => Raise TypeError
  end.

(** [for a in l: s = f(s, a)] *)
Fixpoint foldM {S A : Type} (f : S -> A -> result S) (l : list A) (s : S)
  : result S :=
  match l with
  | [] => Ok s
  | a :: l' => bind (f s a) (foldM f l')
  end.

(** [l[j]], negative indices counting from the end. *)
Definition getitem {A : Type} (l : list A) (j : Z) : result A :=
  let k := if (j <? 0)%Z then (Z.of_nat (List.length l) + j)%Z else j in
  if (k <? 0)%Z then Raise IndexError
  else match nth_error l (Z.to_nat k) with
       | Some a => Ok a
       | None => Raise IndexError
       end.

(** [d[key]] on a dict, kept as the list of its items. *)
Fixpoint dict_getitem {V : Type} (d : list (string * V)) (key : string)
  : result V :=
  match d with
  | [] => Raise (KeyError key)
  | (k, v) :: d' => if String.eqb k key then Ok v else dict_getitem d' key
  end.

End Py.

Import Py.

Notation "x <- e ;; k" := (Py.bind e (fun x => k))
  (at level 61, e at next level, right associativity).

Open Scope string_scope.
Open Scope list_scope.
Open Scope R_scope.

(** The sum of a list of reals. *)
Definition Rsum (l : list R) : R := fold_right Rplus 0 l.

(* ================================================================== *)
(** * parameter_loader.py *)

Module parameter_loader.

Definition full_model_parameter_names : list string :=
  ["x_catch"; "x_slip"; "k_off^catch"; "k_off^slip"; "k_on"; "k_on_fil";
   "a/kBT"; "N_h"; "N_max"; "h*eta_am^eff"; "xi*rho_a(t=0)^2";
   "rho_a^max/rho_a(t=0)"; "R0"].

Definition density_model_parameter_names : list string :=
  ["h*eta_am^eff"; "xi*NM*rho_a(t=0)^2"; "rho_a^max/rho_a(t=0)"; "R0"].

(** Whitespace as [str.split()] sees it, on characters below 256. *)
Definition is_space (c : ascii) : bool :=
  let n := nat_of_ascii c in
  ((9 <=? n) && (n <=? 13) || (28 <=? n) && (n <=? 32)
   || (n =? 133) || (n =? 160))%nat.

Fixpoint split_from (s word : string) : list string :=
  match s with
  | EmptyString => if String.eqb word "" then [] else [word]
  | String c s' =>
      if is_space c
      then (if String.eqb word "" then split_from s' ""
            else word :: split_from s' "")
      else split_from s' (word ++ String c "")%string
  end.

(** [line.split()] *)
Definition split (line : string) : list string := split_from line "".

(** [names.index(x)]: the first position of [x], or nothing ([ValueError]). *)
Fixpoint list_index (names : list string) (x : string) : option nat :=
  match names with
  | [] => None
  | n :: names' =>
      if String.eqb n x then Some O
      else match list_index names' x with
           | Some k => Some (S k)
           | None => None
           end
  end.

(** [l[idx] = v] *)
Fixpoint list_set {A : Type} (l : list A) (idx : nat) (v : A) : list A :=
  match l, idx with
  | [], _ => []
  | _ :: l', O => v :: l'
  | a :: l', S k => a :: list_set l' k v
  end.

(** The two lists the loader fills and what it has printed so far. *)
Record state : Type := mkState {
  parameters : list num;
  parameters_found : list Z;
  stdout : list string
}.

Definition print (st : state) (msg : string) : state :=
  {| parameters := parameters st;
     parameters_found := parameters_found st;
     stdout := stdout st ++ [msg] |}.

Definition warning (name model_type : string) : string :=
  ("WARNING: Parameter " ++ name
   ++ " cannot be interpreted for the model type '" ++ model_type ++ "'!")%string.

Definition error_incomplete (model_type : string) : string :=
  ("ERROR: Not all necessary parameters for the model type '" ++ model_type
   ++ "' were defined in the given file!")%string.

Definition error_model_type : string :=
  "ERROR: the parameter <model_type> has to be given one of the three values: 'full model' or 'density model'.".

Section Loader.

(** Python's [float] and [int] on a string; nothing stands for their
    [ValueError]. *)
Variable float_of_string : string -> option R.
Variable int_of_string : string -> option Z.

(** The body of the loop over the lines of the file.  Only [ValueError]
    is caught; an [IndexError] leaves the function. *)
Definition read_line (parameter_names : list string) (model_type : string)
           (st : state) (line : string) : state * result unit :=
  let line_split := split line in
  match getitem line_split 0 with
  | Raise e => (st, Raise e)
  | Ok name =>
      match list_index parameter_names name with
      | None => (print st (warning name model_type), Ok tt)
      | Some idx =>
          let st1 := {| parameters := parameters st;
                        parameters_found :=
                          list_set (parameters_found st) idx 1%Z;
                        stdout := stdout st |} in
          match getitem line_split 2 with
          | Raise e => (st1, Raise e)
          | Ok value =>
              let parsed :=
                if String.eqb name "N_h" || String.eqb name "N_max"
                then option_map PyInt (int_of_string value)
                else option_map PyFloat (float_of_string value) in
              match parsed with
              | Some v =>
                  ({| parameters := list_set (parameters st1) idx v;
                      parameters_found := parameters_found st1;
                      stdout := stdout st1 |}, Ok tt)
              | None => (print st1 (warning name model_type), Ok tt)
              end
          end
      end
  end.

(** [for line in f.readlines(): ...] *)
Fixpoint read_lines (parameter_names : list string) (model_type : string)
         (st : state) (lines : list string) : state * result unit :=
  match lines with
  | [] => (st, Ok tt)
  | line :: lines' =>
      match read_line parameter_names model_type st line with
      | (st', Ok _) => read_lines parameter_names model_type st' lines'
      | (st', Raise e) => (st', Raise e)
      end
  end.

(** [load_parameters]; the file is given by its lines.  Returns what was
    printed and the list of values or the exception. *)
Definition load_parameters (model_type : string) (parameter_file : list string)
  : list string * result (list num) :=
  let names :=
    if String.eqb model_type "full model"
    then Some full_model_parameter_names
    else if String.eqb model_type "density model"
         then Some density_model_parameter_names
         else None in
  match names with
  | None => ([error_model_type], Raise (SystemExit 1))
  | Some parameter_names =>
      let st0 := {| parameters := repeat (PyFloat 0) (List.length parameter_names);
                    parameters_found := repeat 0%Z (List.length parameter_names);
                    stdout := [] |} in
      match read_lines parameter_names model_type st0 parameter_file with
      | (st, Raise e) => (stdout st, Raise e)
      | (st, Ok _) =>
          if existsb (Z.eqb 0) (parameters_found st)
          then (stdout st ++ [error_incomplete model_type],
                Raise (SystemExit 1))
          else (stdout st, Ok (parameters st))
      end
  end.

End Loader.

End parameter_loader.

(* ================================================================== *)
(** * models.py: FullModel *)

Module FullModel.

Record t : Type := mk {
  x_catch : R;
  x_slip : R;
  k_off0_catch : R;
  k_off0_slip : R;
  k_on : R;
  k_on_fil : R;
  a_per_kBT : R;
  Nh : num;
  Nmax : num;
  h_eta : R;
  xi_rho_a2 : R;
  rho_max_per_rho : R;
  R0 : R;
  k_p : R;
  parameter_dict : list (string * num);
  A0 : R;
  tau : R
}.

(** The body of [FullModel.__init__] once [load_parameters] has returned
    [ps]: the thirteen values are unpacked, the dict is built, [A0] and [tau]
    are derived. *)
Definition of_parameters (ps : list num) (pillar_stiffness : R)
  : result t :=
  match ps with
  | [v1; v2; v3; v4; v5; v6; v7; v8; v9; v10; v11; v12; v13] =>
      let h := to_R v10 in
      let r0 := to_R v13 in
      t <- truediv (6 / 5 * PI * h) pillar_stiffness ;;
      Ok {| x_catch := to_R v1; x_slip := to_R v2;
            k_off0_catch := to_R v3; k_off0_slip := to_R v4;
            k_on := to_R v5; k_on_fil := to_R v6; a_per_kBT := to_R v7;
            Nh := v8; Nmax := v9; h_eta := h; xi_rho_a2 := to_R v11;
            rho_max_per_rho := to_R v12; R0 := r0; k_p := pillar_stiffness;
            parameter_dict :=
              [("x_catch", v1); ("x_slip", v2); ("k_off0_catch", v3);
               ("k_off0_slip", v4); ("k_on", v5); ("k_on_fil", v6);
               ("a_per_kBT", v7); ("Nh", v8); ("Nmax", v9); ("h_eta", v10);
               ("xi_rho_a2", v11); ("rho_max_per_rho", v12); ("R0", v13);
               ("k_p", PyFloat pillar_stiffness)];
            A0 := PI * r0 ^ 2;
            tau := t |}
  | _ => Raise ValueError
  end.

Section Methods.

Variable self : t.

(** [__k_off]: the off-rate of one myosin head under [force]. *)
Definition k_off (force : R) : R :=
  k_off0_catch self * exp (- a_per_kBT self * force * x_catch self)
  + k_off0_slip self * exp (a_per_kBT self * force * x_slip self).

(** One pass of the loops [nom = nom * ((Nh - i) * k_on) / ((i + 1) *
    k_off(total_force / (i + 1)))]. *)
Definition prod_step (nh : R) (total_force : R) (acc : R) (i : Z)
  : result R :=
  f <- truediv total_force (IZR (i + 1)) ;;
  truediv (acc * ((nh - IZR i) * k_on self)) (IZR (i + 1) * k_off f).

(** [__calc_prob_dist]: the distribution of the number of bound heads. *)
Definition calc_prob_dist (total_force : R) : result (list R) :=
  n_h <- index (Nh self) ;;
  let nh := to_R (Nh self) in
  foldM (fun pns n =>
           nom <- foldM (prod_step nh total_force) (range 0 n) 1 ;;
           denom <- foldM (fun denom k =>
                             prod <- foldM (prod_step nh total_force)
                                           (range 0 k) 1 ;;
                             Ok (denom + prod))
                          (range 1 (n_h + 1)) 1 ;;
           p <- truediv nom denom ;;
           Ok (pns ++ [p]))
        (range 0 (n_h + 1)) [].

(** [k_off_fil]: the off-rate of a whole filament, in exact arithmetic: the
    value of the formula where every denominator is nonzero.  The divisions
    of the code are numpy's and raise nothing when a denominator is zero;
    what the function returns then is told by
    [Binary64.FullModel.k_off_fil]. *)
Definition k_off_fil (total_force : R) : result R :=
  pns <- calc_prob_dist total_force ;;
  n_h <- index (Nh self) ;;
  T_off_av <-
    foldM (fun T_off_av NB_init =>
             T_off <-
               foldM (fun T_off NB =>
                        s <- foldM (fun s j => pj <- getitem pns j ;;
                                               Ok (s + pj))
                                   (range NB (n_h + 1)) 0 ;;
                        f <- truediv total_force (IZR NB) ;;
                        pNB <- getitem pns NB ;;
                        q <- truediv 1 (IZR NB * k_off f * pNB) ;;
                        Ok (T_off + q * s))
                     (range 1 (NB_init + 1)) 0 ;;
             pinit <- getitem pns NB_init ;;
             Ok (T_off_av + pinit * T_off))
          (range 1 (n_h + 1)) 0 ;;
  truediv 1 T_off_av.

(** [rhs]: the right-hand side of the two differential equations. *)
Definition rhs (t : R) (y : list R) : result (list R) :=
  force <- getitem y 0 ;;
  N <- getitem y 1 ;;
  d <- truediv force (k_p self) ;;
  let area := PI * (R0 self - d) ^ 2 in
  q1 <- truediv (- A0 self) area ;;
  q2 <- truediv (A0 self) area ;;
  let density_factor := q1 * (q2 - rho_max_per_rho self) in
  a <- truediv (- force) (tau self) ;;
  b <- truediv (xi_rho_a2 self * N * density_factor) (tau self) ;;
  let force_prime := a + b in
  kf <- k_off_fil force ;;
  let N_prime := k_on_fil self * (to_R (Nmax self) - N) - kf * N in
  Ok [force_prime; N_prime].

(** [velocity]: the deflection velocity of the pillar tip. *)
Definition velocity (t force N : R) : result R :=
  d <- truediv force (k_p self) ;;
  let area := PI * (R0 self - d) ^ 2 in
  q1 <- truediv (- A0 self) area ;;
  q2 <- truediv (A0 self) area ;;
  let density_factor := q1 * (q2 - rho_max_per_rho self) in
  a <- truediv (- force) (tau self) ;;
  b <- truediv (xi_rho_a2 self * N * density_factor) (tau self) ;;
  truediv (a + b) (k_p self).

(** [get_parameter]: a lookup in the dict; the object is handed back as
    the call leaves it. *)
Definition get_parameter (parameter_name : string)
  : t * result num :=
  (self, dict_getitem (parameter_dict self) parameter_name).

End Methods.

(** [FullModel(parameter_file, pillar_stiffness)]: load, then build. *)
Definition init (float_of_string : string -> option R)
           (int_of_string : string -> option Z)
           (parameter_file : list string) (pillar_stiffness : R)
  : list string * result t :=
  let (out, loaded) :=
    parameter_loader.load_parameters float_of_string int_of_string
      "full model" parameter_file in
  (out, ps <- loaded ;; of_parameters ps pillar_stiffness).

End FullModel.

(* ================================================================== *)
(** * models.py: DensityModel *)

Module DensityModel.

Record t : Type := mk {
  h_eta : R;
  xi_N_rho_a2 : R;
  rho_max_per_rho : R;
  R0 : R;
  k_p : R;
  parameter_dict : list (string * num);
  A0 : R;
  tau : R
}.

(** The body of [DensityModel.__init__] once [load_parameters] has
    returned [ps]. *)
Definition of_parameters (ps : list num) (pillar_stiffness : R)
  : result t :=
  match ps with
  | [v1; v2; v3; v4] =>
      let h := to_R v1 in
      let r0 := to_R v4 in
      t <- truediv (6 / 5 * PI * h) pillar_stiffness ;;
      Ok {| h_eta := h; xi_N_rho_a2 := to_R v2; rho_max_per_rho := to_R v3;
            R0 := r0; k_p := pillar_stiffness;
            parameter_dict :=
              [("h_eta", v1); ("xi_N_rho_a2", v2); ("rho_max_per_rho", v3);
               ("R0", v4); ("k_p", PyFloat pillar_stiffness)];
            A0 := PI * r0 ^ 2;
            tau := t |}
  | _ => Raise ValueError
  end.

Definition init (float_of_string : string -> option R)
           (int_of_string : string -> option Z)
           (parameter_file : list string) (pillar_stiffness : R)
  : list string * result t :=
  let (out, loaded) :=
    parameter_loader.load_parameters float_of_string int_of_string
      "density model" parameter_file in
  (out, ps <- loaded ;; of_parameters ps pillar_stiffness).

Section Methods.

Variable self : t.

(** [rhs]: the right-hand side of the single differential equation. *)
Definition rhs (t : R) (y : list R) : result (list R) :=
  force <- getitem y 0 ;;
  d <- truediv force (k_p self) ;;
  let area := PI * (R0 self - d) ^ 2 in
  q1 <- truediv (- A0 self) area ;;
  q2 <- truediv (A0 self) area ;;
  let density_factor := q1 * (q2 - rho_max_per_rho self) in
  a <- truediv (- force) (tau self) ;;
  b <- truediv (xi_N_rho_a2 self * density_factor) (tau self) ;;
  let force_prime := a + b in
  Ok [force_prime].

(** [velocity]: the deflection velocity of the pillar tip. *)
Definition velocity (t force : R) : result R :=
  d <- truediv force (k_p self) ;;
  let area := PI * (R0 self - d) ^ 2 in
  q1 <- truediv (- A0 self) area ;;
  q2 <- truediv (A0 self) area ;;
  let density_factor := q1 * (q2 - rho_max_per_rho self) in
  a <- truediv (- force) (tau self) ;;
  b <- truediv (xi_N_rho_a2 self * density_factor) (tau self) ;;
  truediv (a + b) (k_p self).

Definition get_parameter (parameter_name : string)
  : t * result num :=
  (self, dict_getitem (parameter_dict self) parameter_name).

End Methods.

End DensityModel.

(* ================================================================== *)
(** * work_and_power.py *)

(** "A model object that implements the get_parameter function". *)
Class Model (M : Type) : Type :=
  { get_parameter : M -> string -> M * result num }.

#[export] Instance FullModel_Model : Model FullModel.t :=
  {| get_parameter := FullModel.get_parameter |}.

#[export] Instance DensityModel_Model : Model DensityModel.t :=
  {| get_parameter := DensityModel.get_parameter |}.

Module work_and_power.

(** The product of two one-dimensional numpy arrays: elementwise, an array
    of length one being stretched to the length of the other. *)
Definition np_mul (a b : list R) : result (list R) :=
  if (List.length a =? List.length b)%nat
  then Ok (map (fun ab => fst ab * snd ab) (combine a b))
  else match a, b with
       | [x], _ => Ok (map (fun y => x * y) b)
       | _, [y] => Ok (map (fun x => x * y) a)
       | _, _ => Raise ValueError
       end.

Section Powers.

Context {M : Type} `{Model M}.

(** [transmitted_power]: [5. * 2. * k_p * displacements * velocities] *)
Definition transmitted_power (displacements velocities : list R)
           (model : M) : result (list R) :=
  k_p <- snd (get_parameter model "k_p") ;;
  np_mul (map (fun d => 5 * 2 * to_R k_p * d) displacements) velocities.

(** [dissipated_power]: [5. * gamma * 4. * velocities ** 2] *)
Definition dissipated_power (velocities : list R) (model : M)
  : result (list R) :=
  h_eta <- snd (get_parameter model "h_eta") ;;
  let gamma := 6 / 5 * PI * to_R h_eta in
  Ok (map (fun v => 5 * gamma * 4 * v ^ 2) velocities).

(** [work_elastic]; [time_prev] is set once, before the loop. *)
Definition work_elastic (t displacements velocities : list R) (model : M)
  : result R :=
  let work := 0 in
  powers <- transmitted_power displacements velocities model ;;
  let time_prev := 0 in
  Ok (fold_left (fun work tp => work + (fst tp - time_prev) * snd tp)
                (combine t powers) work).

(** [work_diss]; the same loop over the dissipated powers. *)
Definition work_diss (t velocities : list R) (model : M) : result R :=
  let work := 0 in
  powers <- dissipated_power velocities model ;;
  let time_prev := 0 in
  Ok (fold_left (fun work tp => work + (fst tp - time_prev) * snd tp)
                (combine t powers) work).

End Powers.

End work_and_power.

(** What the specification asks of the cumulative work: each power weighted
    by the width of the interval that ends at its time point, the first
    interval starting at [t_prev]. *)
Fixpoint interval_weighted_sum (t_prev : R) (times powers : list R) : R :=
  match times, powers with
  | t :: times', p :: powers' =>
      (t - t_prev) * p + interval_weighted_sum t times' powers'
  | _, _ => 0
  end.

(** The unnormalised steady-state weight of [n] bound heads: the product the
    inner loops of [__calc_prob_dist] accumulate. *)
Definition weight (self : FullModel.t) (total_force : R) (n : Z) : R :=
  fold_left (fun acc i =>
               acc * ((to_R (FullModel.Nh self) - IZR i) * FullModel.k_on self)
               / (IZR (i + 1)
                  * FullModel.k_off self (total_force / IZR (i + 1))))
            (range 0 n) 1.

(** The normalisation: one plus the weights of [1 .. n_h] bound heads. *)
Definition partition_sum (self : FullModel.t) (total_force : R) (n_h : Z) : R :=
  1 + Rsum (map (weight self total_force) (range 1 (n_h + 1))).

(** The steady-state probability that [n] of the [n_h] heads are bound. *)
Definition bound_probability (self : FullModel.t) (total_force : R) (n_h n : Z)
  : R :=
  weight self total_force n / partition_sum self total_force n_h.

(** The names under which the two model classes store their parameters. *)
Definition full_model_dict_keys : list string :=
  ["x_catch"; "x_slip"; "k_off0_catch"; "k_off0_slip"; "k_on"; "k_on_fil";
   "a_per_kBT"; "Nh"; "Nmax"; "h_eta"; "xi_rho_a2"; "rho_max_per_rho"; "R0";
   "k_p"].

Definition density_model_dict_keys : list string :=
  ["h_eta"; "xi_N_rho_a2"; "rho_max_per_rho"; "R0"; "k_p"].

(** ** Sample inputs *)

(** A full-model parameter list: unit lengths and rates except for the two
    base off-rates, the number of heads and the effective viscosity. *)
Definition sample_full_parameters (k0_catch k0_slip : R) (n_h : Z) (h : R)
  : list num :=
  [PyFloat 1; PyFloat 1; PyFloat k0_catch; PyFloat k0_slip; PyFloat 1;
   PyFloat 1; PyFloat 1; PyInt n_h; PyInt 10; PyFloat h; PyFloat 1;
   PyFloat 2; PyFloat 10].

(** The object [FullModel] builds from it for a pillar stiffness of 35. *)
Definition sample_full (k0_catch k0_slip : R) (n_h : Z) (h : R) : FullModel.t :=
  {| FullModel.x_catch := 1; FullModel.x_slip := 1;
     FullModel.k_off0_catch := k0_catch; FullModel.k_off0_slip := k0_slip;
     FullModel.k_on := 1; FullModel.k_on_fil := 1; FullModel.a_per_kBT := 1;
     FullModel.Nh := PyInt n_h; FullModel.Nmax := PyInt 10;
     FullModel.h_eta := h; FullModel.xi_rho_a2 := 1;
     FullModel.rho_max_per_rho := 2; FullModel.R0 := 10; FullModel.k_p := 35;
     FullModel.parameter_dict :=
       combine full_model_dict_keys
               (sample_full_parameters k0_catch k0_slip n_h h ++ [PyFloat 35]);
     FullModel.A0 := PI * 10 ^ 2;
     FullModel.tau := 6 / 5 * PI * h / 35 |}.

Definition sample_density_parameters (h : R) : list num :=
  [PyFloat h; PyFloat 1; PyFloat 2; PyFloat 10].

(** The object [DensityModel] builds from it for a pillar stiffness of 35. *)
Definition sample_density (h : R) : DensityModel.t :=
  {| DensityModel.h_eta := h; DensityModel.xi_N_rho_a2 := 1;
     DensityModel.rho_max_per_rho := 2; DensityModel.R0 := 10;
     DensityModel.k_p := 35;
     DensityModel.parameter_dict :=
       combine density_model_dict_keys
               (sample_density_parameters h ++ [PyFloat 35]);
     DensityModel.A0 := PI * 10 ^ 2;
     DensityModel.tau := 6 / 5 * PI * h / 35 |}.

(** Whether some line of the file starts with the parameter name [key]. *)
Definition file_defines (parameter_file : list string) (key : string) : bool :=
  existsb (fun line => match parameter_loader.split line with
                       | name :: _ => String.eqb name key
                       | [] => false
                       end)
          parameter_file.

(** Unsigned decimal numerals, read the way [int] and [float] read them;
    enough for the sample files below. *)
Definition digit_of (c : ascii) : option Z :=
  let n := nat_of_ascii c in
  if ((48 <=? n) && (n <=? 57))%nat then Some (Z.of_nat (n - 48)) else None.

Fixpoint digits_value (s : string) (acc : Z) : option Z :=
  match s with
  | EmptyString => Some acc
  | String c s' =>
      match digit_of c with
      | Some d => digits_value s' (10 * acc + d)%Z
      | None => None
      end
  end.

Definition sample_int_of_string (s : string) : option Z :=
  if String.eqb s "" then None else digits_value s 0.

Definition sample_float_of_string (s : string) : option R :=
  option_map IZR (sample_int_of_string s).

(** A parameter file of the full model without its last line, [R0]. *)
Definition sample_file_without_R0 : list string :=
  ["x_catch = 1"; "x_slip = 1"; "k_off^catch = 1"; "k_off^slip = 1";
   "k_on = 1"; "k_on_fil = 1"; "a/kBT = 1"; "N_h = 3"; "N_max = 10";
   "h*eta_am^eff = 1"; "xi*rho_a(t=0)^2 = 1"; "rho_a^max/rho_a(t=0) = 2"].

Definition sample_file : list string :=
  sample_file_without_R0 ++ ["R0 = 10"].

(** A complete parameter file of the density model. *)
Definition sample_density_file : list string :=
  ["h*eta_am^eff = 1"; "xi*NM*rho_a(t=0)^2 = 1"; "rho_a^max/rho_a(t=0) = 2";
   "R0 = 10"].

(** The parameter names [load_parameters] expects for a model type, or
    nothing for a model type it refuses. *)
Definition schema (model_type : string) : option (list string) :=
  if String.eqb model_type "full model"
  then Some parameter_loader.full_model_parameter_names
  else if String.eqb model_type "density model"
       then Some parameter_loader.density_model_parameter_names
       else None.

(** Whether the loader's loop gets through [line] without [IndexError]: the
    line has a first token, and a third one when the first is a parameter
    name. *)
Definition line_readable (parameter_names : list string) (line : string)
  : bool :=
  match parameter_loader.split line with
  | [] => false
  | name :: rest =>
      match parameter_loader.list_index parameter_names name with
      | Some _ => (2 <=? List.length rest)%nat
      | None => true
      end
  end.

(** What the loader reads from the token [value] on a line that starts with
    [name]: an int for [N_h] and [N_max], a float otherwise. *)
Definition parsed_value (float_of_string : string -> option R)
           (int_of_string : string -> option Z) (name value : string)
  : option num :=
  if String.eqb name "N_h" || String.eqb name "N_max"
  then option_map PyInt (int_of_string value)
  else option_map PyFloat (float_of_string value).

(** [sub] is [l] with some of its elements left out, order kept. *)
Inductive subsequence {A : Type} : list A -> list A -> Prop :=
| subsequence_nil : subsequence [] []
| subsequence_skip (a : A) (sub l : list A) :
    subsequence sub l -> subsequence sub (a :: l)
| subsequence_keep (a : A) (sub l : list A) :
    subsequence sub l -> subsequence (a :: sub) (a :: l).

(* ================================================================== *)
(** * auxiliaries.py *)

Module auxiliaries.

(** [l[j] = v], negative indices counting from the end. *)
Definition setitem {A : Type} (l : list A) (j : Z) (v : A) : result (list A) :=
  let k := if (j <? 0)%Z then (Z.of_nat (List.length l) + j)%Z else j in
  if ((k <? 0) || (Z.of_nat (List.length l) <=? k))%Z then Raise IndexError
  else Ok (parameter_loader.list_set l (Z.to_nat k) v).

(** One pass of the loop of [discretize_curve]; the state is the two lists
    built so far and [idx]. *)
Definition discretize_step (step_size : R) (st : list R * list R * Z)
           (point : R * R) : list R * list R * Z :=
  let '(discretized_time_points, discretized_displacements, idx) := st in
  let (time_point, disp) := point in
  if Rge_dec time_point (IZR idx * step_size)
  then (discretized_time_points ++ [time_point],
        discretized_displacements ++ [disp], (idx + 1)%Z)
  else st.

(** [discretize_curve] *)
Definition discretize_curve (time_points displacements : list R)
           (step_size : R) : list R * list R :=
  fst (fold_left (discretize_step step_size)
                 (combine time_points displacements) ([], [], 0%Z)).

(** [velos_numerical]; a slot of [velos] not yet written holds [None]. *)
Definition velos_numerical (times displacements : list R)
  : result (list (option R)) :=
  let num_of_time_points := Z.of_nat (List.length times) in
  let velos : list (option R) := repeat None (List.length times) in
  t1 <- getitem times 1 ;;
  t0 <- getitem times 0 ;;
  let dt := (t1 - t0) * 60 in
  d1 <- getitem displacements 1 ;;
  d0 <- getitem displacements 0 ;;
  v0 <- truediv (d1 - d0) dt ;;
  velos <- setitem velos 0 (Some v0) ;;
  velos <- foldM (fun velos idx =>
                    d_next <- getitem displacements (idx + 1) ;;
                    d_prev <- getitem displacements (idx - 1) ;;
                    v <- truediv (d_next - d_prev) (2 * dt) ;;
                    setitem velos idx (Some v))
                 (range 1 (num_of_time_points - 1)) velos ;;
  d_last <- getitem displacements (-1) ;;
  d_before <- getitem displacements (-2) ;;
  v_last <- truediv (d_last - d_before) dt ;;
  setitem velos (-1) (Some v_last).

End auxiliaries.

(* ================================================================== *)
(** * calculate_contraction_dynamics.py *)

Module calculate_contraction_dynamics.

(** The model object: an instance of one of the two classes. *)
Inductive model : Type :=
| Full (m : FullModel.t)
| Density (m : DensityModel.t).

(** [f_init = 7] *)
Definition f_init : R := 7.

Section Setup.

Variable float_of_string : string -> option R.
Variable int_of_string : string -> option Z.

(** [calculate_contraction_dynamics] up to the call of the solver: the
    model object and the initial conditions [ic] handed to [solve_ivp],
    with what was printed on the way. *)
Definition initial_conditions (model_type : string)
           (parameter_file : list string) (pillar_stiffness : R)
  : list string * result (model * list R) :=
  if String.eqb model_type "full model"
  then
    let (out, built) :=
      FullModel.init float_of_string int_of_string parameter_file
                     pillar_stiffness in
    (out,
     m <- built ;;
     k_on_fil <- snd (FullModel.get_parameter m "k_on_fil") ;;
     Nmax <- snd (FullModel.get_parameter m "Nmax") ;;
     kf <- FullModel.k_off_fil m f_init ;;
     q <- truediv (to_R k_on_fil) (kf + to_R k_on_fil) ;;
     Ok (Full m, [f_init; q * to_R Nmax]))
  else if String.eqb model_type "density model"
       then
         let (out, built) :=
           DensityModel.init float_of_string int_of_string parameter_file
                             pillar_stiffness in
         (out, m <- built ;; Ok (Density m, [0]))
       else ([parameter_loader.error_model_type], Raise (SystemExit 1)).

End Setup.

End calculate_contraction_dynamics.

(** A complete parameter file of a full model whose filaments have a single
    head that unbinds through the catch path only. *)
Definition sample_single_head_file : list string :=
  ["x_catch = 1"; "x_slip = 1"; "k_off^catch = 1"; "k_off^slip = 0";
   "k_on = 1"; "k_on_fil = 1"; "a/kBT = 1"; "N_h = 1"; "N_max = 10";
   "h*eta_am^eff = 1"; "xi*rho_a(t=0)^2 = 1"; "rho_a^max/rho_a(t=0) = 2";
   "R0 = 10"].

(* ================================================================== *)
(** * models.py and auxiliaries.py in binary64 *)

(** The embedding above computes in exact reals, where a quotient either
    exists or the division has failed.  The interpreter has more cases.
    Python's own [/] raises [ZeroDivisionError] on a zero divisor; the
    division of a [numpy.float64] returns [inf] or [nan], issues a
    [RuntimeWarning] and goes on; a product can underflow to zero.  This
    second embedding keeps the three kinds of numbers of the program (Python
    ints, Python floats, [numpy.float64] scalars) over IEEE 754 binary64,
    with the exceptions of Python's arithmetic and the warnings of
    numpy's. *)

Module Binary64.

(** A C double: [spec_float] at precision 53 and maximal exponent 1024,
    rounding to nearest, ties to even. *)
Definition binary64 : Type := spec_float.
Definition prec : Z := 53.
Definition emax : Z := 1024.

Inductive binop : Type := Add | Sub | Mul | Div.

Definition arith (op : binop) (x y : binary64) : binary64 :=
  match op with
  | Add => SFadd prec emax x y
  | Sub => SFsub prec emax x y
  | Mul => SFmul prec emax x y
  | Div => SFdiv prec emax x y
  end.

Definition is_nan (x : binary64) : bool :=
  match x with S754_nan => true | _ => false end.

Definition is_inf (x : binary64) : bool :=
  match x with S754_infinity _ => true | _ => false end.

Definition is_zero (x : binary64) : bool :=
  match x with S754_zero _ => true | _ => false end.

Definition is_finite (x : binary64) : bool :=
  match x with S754_zero _ | S754_finite _ _ _ => true | _ => false end.

(** The sign bit of a number; nan counts as unsigned. *)
Definition sign (x : binary64) : bool :=
  match x with
  | S754_zero s | S754_infinity s | S754_finite s _ _ => s
  | S754_nan => false
  end.

(** The double nearest to an integer. *)
Definition of_Z (n : Z) : binary64 := binary_normalize prec emax n 0 false.

(** An integer as an unrounded mantissa, for exact quotients. *)
Definition unrounded (n : Z) : binary64 :=
  match n with
  | Z0 => S754_zero false
  | Zpos p => S754_finite false p 0
  | Zneg p => S754_finite true p 0
  end.

(** The double nearest to [m * 10 ^ e]: what [float] reads from a decimal
    numeral and what a literal such as [1e-200] denotes. *)
Definition decimal (m e : Z) : binary64 :=
  if (0 <=? e)%Z then of_Z (m * 10 ^ e)
  else SFdiv prec emax (unrounded m) (unrounded (10 ^ (- e))).

(** [math.pi] *)
Definition pi : binary64 := S754_finite false 7074237752028440 (-51).

(** ** Exceptions and warnings *)

Inductive exn : Type :=
| ZeroDivisionError
| OverflowError
| IndexError
| TypeError.

(** What numpy reports under its default error state: division by zero,
    overflow and invalid operations warn, underflow is ignored.  A
    computation lists every warning numpy issues; which of them are
    displayed is up to the warnings filter of the interpreter. *)
Inductive RuntimeWarning : Type :=
| divide_by_zero
| overflow
| invalid_value.

Inductive result (A : Type) : Type :=
| Ok (a : A)
| Raise (e : exn).

Arguments Ok {A} a.
Arguments Raise {A} e.

(** A computation: the warnings issued, in order, and the value or the
    exception that ended it. *)
Definition comp (A : Type) : Type := (list RuntimeWarning * result A)%type.

Definition ret {A : Type} (a : A) : comp A := ([], Ok a).

Definition raise {A : Type} (e : exn) : comp A := ([], Raise e).

Definition bind {A B : Type} (c : comp A) (f : A -> comp B) : comp B :=
  match c with
  | (w, Ok a) => let (w', r) := f a in (w ++ w', r)
  | (w, Raise e) => (w, Raise e)
  end.

Notation "x <~ e ;; k" := (bind e (fun x => k))
  (at level 61, e at next level, right associativity).

(** [for a in l: s = f(s, a)] *)
Fixpoint foldM {St A : Type} (f : St -> A -> comp St) (l : list A) (s : St)
  : comp St :=
  match l with
  | [] => ret s
  | a :: l' => bind (f s a) (foldM f l')
  end.

(** [l[j]] *)
Definition getitem {A : Type} (l : list A) (j : Z) : comp A :=
  match Py.getitem l j with
  | Py.Ok a => ret a
  | Py.Raise _ => raise IndexError
  end.

(** [l[j] = v] *)
Definition setitem {A : Type} (l : list A) (j : Z) (v : A)
  : comp (list A) :=
  match auxiliaries.setitem l j v with
  | Py.Ok l' => ret l'
  | Py.Raise _ => raise IndexError
  end.

(** ** Numbers *)

(** A number of the program: a Python int, a Python float or a
    [numpy.float64]. *)
Inductive scalar : Type :=
| Int (n : Z)
| Float (x : binary64)
| Float64 (x : binary64).

Definition is_float64 (a : scalar) : bool :=
  match a with Float64 _ => true | _ => false end.

(** [a == 0] *)
Definition zero (a : scalar) : bool :=
  match a with
  | Int n => (n =? 0)%Z
  | Float x | Float64 x => is_zero x
  end.

(** Whether an int rounds to a double: its magnitude is below the midpoint
    between the largest double and [2 ^ 1024]. *)
Definition fits (n : Z) : bool := (Z.abs n <? 2 ^ 1024 - 2 ^ 970)%Z.

(** The operand as a double.  An int is rounded; one that does not fit
    raises [OverflowError]. *)
Definition float_of (a : scalar) : comp binary64 :=
  match a with
  | Int n => if fits n then ret (of_Z n) else raise OverflowError
  | Float x | Float64 x => ret x
  end.

(** The numbers [float_of] converts, and what it converts them to. *)
Definition convertible (a : scalar) : bool :=
  match a with
  | Int n => fits n
  | Float _ | Float64 _ => true
  end.

Definition value (a : scalar) : binary64 :=
  match a with
  | Int n => of_Z n
  | Float x | Float64 x => x
  end.

Definition is_int (a : scalar) : bool :=
  match a with Int _ => true | _ => false end.

Definition is_float (a : scalar) : bool :=
  match a with Float _ => true | _ => false end.

(** [a] is no negative number: an int [>= 0], or a float that is nan or has
    a clear sign bit ([+0.], a positive number, [+inf]). *)
Definition unsigned (a : scalar) : bool :=
  match a with
  | Int n => (0 <=? n)%Z
  | Float x | Float64 x => negb (sign x)
  end.

(** The floating-point exceptions of [x op y] that numpy turns into
    warnings. *)
Definition flags (op : binop) (x y : binary64) : list RuntimeWarning :=
  let r := arith op x y in
  if is_nan r then
    if is_nan x || is_nan y then [] else [invalid_value]
  else if is_inf r && is_finite x && is_finite y then
    match op with
    | Div => if is_zero y then [divide_by_zero] else [overflow]
    | _ => [overflow]
    end
  else [].

(** [m op n] on Python ints: exact, and [/] is the true quotient rounded
    once. *)
Definition int_op (op : binop) (m n : Z) : comp scalar :=
  match op with
  | Add => ret (Int (m + n))
  | Sub => ret (Int (m - n))
  | Mul => ret (Int (m * n))
  | Div =>
      if (n =? 0)%Z then raise ZeroDivisionError
      else let q := SFdiv prec emax (unrounded m) (unrounded n) in
           if is_inf q then raise OverflowError else ret (Float q)
  end.

(** [a op b].  With a [numpy.float64] on either side the operation is
    numpy's: it is carried out whatever the operands, the result is a
    [numpy.float64], and the exceptions of the arithmetic are warnings.
    Otherwise it is Python's: on floats only [/] can fail, on a zero
    divisor. *)
Definition binary (op : binop) (a b : scalar) : comp scalar :=
  match a, b with
  | Int m, Int n => int_op op m n
  | _, _ =>
      x <~ float_of a ;;
      y <~ float_of b ;;
      if is_float64 a || is_float64 b
      then (flags op x y, Ok (Float64 (arith op x y)))
      else match op with
           | Div => if zero b then raise ZeroDivisionError
                    else ret (Float (arith Div x y))
           | _ => ret (Float (arith op x y))
           end
  end.

(** [-a] *)
Definition neg (a : scalar) : scalar :=
  match a with
  | Int n => Int (- n)
  | Float x => Float (SFopp x)
  | Float64 x => Float64 (SFopp x)
  end.

(** [a ** 2].  On floats this is libm's [pow(x, 2.)], taken as the
    correctly rounded square; Python turns its overflow into
    [OverflowError], numpy into a warning. *)
Definition square (a : scalar) : comp scalar :=
  match a with
  | Int n => ret (Int (n * n))
  | Float x =>
      let r := arith Mul x x in
      if is_finite x && is_inf r then raise OverflowError else ret (Float r)
  | Float64 x =>
      let r := arith Mul x x in
      (if is_finite x && is_inf r then [overflow] else [], Ok (Float64 r))
  end.

(** [np.exp(a)] on a scalar, [exp] being libm's exponential on doubles:
    the result is a [numpy.float64]. *)
Definition np_exp (exp : binary64 -> binary64) (a : scalar) : comp scalar :=
  x <~ float_of a ;;
  let r := exp x in
  (if is_finite x && is_inf r then [overflow] else [], Ok (Float64 r)).

(** The bound of a [range] must be an int. *)
Definition index (a : scalar) : comp Z :=
  match a with
  | Int n => ret n
  | _ => raise TypeError
  end.

(** ** models.py: FullModel *)

Module FullModel.

(** The attributes of an object.  [load_parameters] reads every value but
    [N_h] and [N_max] with [float], so these are Python floats; [Nh] and
    [Nmax] are ints, or the float [0.] of a value that could not be read;
    [k_p] is whatever was passed as the pillar stiffness. *)
Record t : Type := mk {
  x_catch : binary64;
  x_slip : binary64;
  k_off0_catch : binary64;
  k_off0_slip : binary64;
  k_on : binary64;
  k_on_fil : binary64;
  a_per_kBT : binary64;
  Nh : scalar;
  Nmax : scalar;
  h_eta : binary64;
  xi_rho_a2 : binary64;
  rho_max_per_rho : binary64;
  R0 : binary64;
  k_p : scalar;
  A0 : scalar;
  tau : scalar
}.

(** [__init__] once the thirteen values are loaded: [A0] and [tau]. *)
Definition init (x_catch x_slip k_off0_catch k_off0_slip k_on k_on_fil
                   a_per_kBT : binary64) (Nh Nmax : scalar)
           (h_eta xi_rho_a2 rho_max_per_rho R0 : binary64)
           (pillar_stiffness : scalar) : comp t :=
  sq <~ square (Float R0) ;;
  a0 <~ binary Mul (Float pi) sq ;;
  c1 <~ binary Div (Float (of_Z 6)) (Float (of_Z 5)) ;;
  c2 <~ binary Mul c1 (Float pi) ;;
  c3 <~ binary Mul c2 (Float h_eta) ;;
  tau <~ binary Div c3 pillar_stiffness ;;
  ret {| x_catch := x_catch; x_slip := x_slip;
         k_off0_catch := k_off0_catch; k_off0_slip := k_off0_slip;
         k_on := k_on; k_on_fil := k_on_fil; a_per_kBT := a_per_kBT;
         Nh := Nh; Nmax := Nmax; h_eta := h_eta; xi_rho_a2 := xi_rho_a2;
         rho_max_per_rho := rho_max_per_rho; R0 := R0;
         k_p := pillar_stiffness; A0 := a0; tau := tau |}.

Section Methods.

Variable exp : binary64 -> binary64.
Variable self : t.

(** [__k_off] *)
Definition k_off (force : scalar) : comp scalar :=
  c1 <~ binary Mul (neg (Float (a_per_kBT self))) force ;;
  c2 <~ binary Mul c1 (Float (x_catch self)) ;;
  e1 <~ np_exp exp c2 ;;
  catch <~ binary Mul (Float (k_off0_catch self)) e1 ;;
  s1 <~ binary Mul (Float (a_per_kBT self)) force ;;
  s2 <~ binary Mul s1 (Float (x_slip self)) ;;
  e2 <~ np_exp exp s2 ;;
  slip <~ binary Mul (Float (k_off0_slip self)) e2 ;;
  binary Add catch slip.

(** One pass of the loops [nom = nom * ((Nh - i) * k_on) / ((i + 1) *
    k_off(total_force / (i + 1)))]. *)
Definition prod_step (n_h : Z) (total_force : scalar) (acc : scalar) (i : Z)
  : comp scalar :=
  a <~ binary Mul (Int (n_h - i)) (Float (k_on self)) ;;
  num <~ binary Mul acc a ;;
  f <~ binary Div total_force (Int (i + 1)) ;;
  k <~ k_off f ;;
  den <~ binary Mul (Int (i + 1)) k ;;
  binary Div num den.

(** [__calc_prob_dist] *)
Definition calc_prob_dist (total_force : scalar) : comp (list scalar) :=
  n_h <~ index (Nh self) ;;
  foldM (fun pns n =>
           nom <~ foldM (prod_step n_h total_force) (range 0 n) (Int 1) ;;
           denom <~ foldM (fun denom k =>
                             prod <~ foldM (prod_step n_h total_force)
                                           (range 0 k) (Int 1) ;;
                             binary Add denom prod)
                          (range 1 (n_h + 1)) (Int 1) ;;
           p <~ binary Div nom denom ;;
           ret (pns ++ [p]))
        (range 0 (n_h + 1)) [].

(** [k_off_fil] *)
Definition k_off_fil (total_force : scalar) : comp scalar :=
  pns <~ calc_prob_dist total_force ;;
  n_h <~ index (Nh self) ;;
  T_off_av <~
    foldM (fun T_off_av NB_init =>
             T_off <~
               foldM (fun T_off NB =>
                        s <~ foldM (fun s j => pj <~ getitem pns j ;;
                                               binary Add s pj)
                                   (range NB (n_h + 1)) (Int 0) ;;
                        f <~ binary Div total_force (Int NB) ;;
                        k <~ k_off f ;;
                        d1 <~ binary Mul (Int NB) k ;;
                        pNB <~ getitem pns NB ;;
                        d2 <~ binary Mul d1 pNB ;;
                        q <~ binary Div (Int 1) d2 ;;
                        qs <~ binary Mul q s ;;
                        binary Add T_off qs)
                     (range 1 (NB_init + 1)) (Int 0) ;;
             pinit <~ getitem pns NB_init ;;
             w <~ binary Mul pinit T_off ;;
             binary Add T_off_av w)
          (range 1 (n_h + 1)) (Int 0) ;;
  binary Div (Int 1) T_off_av.

(** [area = pi * (self.R0 - force / self.k_p) ** 2], the first line of
    [rhs] and of [velocity]. *)
Definition area (force : scalar) : comp scalar :=
  d <~ binary Div force (k_p self) ;;
  r <~ binary Sub (Float (R0 self)) d ;;
  sq <~ square r ;;
  binary Mul (Float pi) sq.

(** [-force / self.tau + self.xi_rho_a2 * N * density_factor / self.tau],
    with [density_factor] computed from [area] on the line before. *)
Definition force_rate (force N area : scalar) : comp scalar :=
  q1 <~ binary Div (neg (A0 self)) area ;;
  q2 <~ binary Div (A0 self) area ;;
  q3 <~ binary Sub q2 (Float (rho_max_per_rho self)) ;;
  density_factor <~ binary Mul q1 q3 ;;
  a <~ binary Div (neg force) (tau self) ;;
  b1 <~ binary Mul (Float (xi_rho_a2 self)) N ;;
  b2 <~ binary Mul b1 density_factor ;;
  b <~ binary Div b2 (tau self) ;;
  binary Add a b.

(** [rhs] *)
Definition rhs (t : scalar) (y : list scalar) : comp (list scalar) :=
  force <~ getitem y 0 ;;
  N <~ getitem y 1 ;;
  ar <~ area force ;;
  force_prime <~ force_rate force N ar ;;
  n1 <~ binary Sub (Nmax self) N ;;
  n2 <~ binary Mul (Float (k_on_fil self)) n1 ;;
  kf <~ k_off_fil force ;;
  n3 <~ binary Mul kf N ;;
  N_prime <~ binary Sub n2 n3 ;;
  ret [force_prime; N_prime].

(** [velocity] *)
Definition velocity (t force N : scalar) : comp scalar :=
  ar <~ area force ;;
  force_prime <~ force_rate force N ar ;;
  binary Div force_prime (k_p self).

End Methods.

End FullModel.

(** ** models.py: DensityModel *)

Module DensityModel.

Record t : Type := mk {
  h_eta : binary64;
  xi_N_rho_a2 : binary64;
  rho_max_per_rho : binary64;
  R0 : binary64;
  k_p : scalar;
  A0 : scalar;
  tau : scalar
}.

Definition init (h_eta xi_N_rho_a2 rho_max_per_rho R0 : binary64)
           (pillar_stiffness : scalar) : comp t :=
  sq <~ square (Float R0) ;;
  a0 <~ binary Mul (Float pi) sq ;;
  c1 <~ binary Div (Float (of_Z 6)) (Float (of_Z 5)) ;;
  c2 <~ binary Mul c1 (Float pi) ;;
  c3 <~ binary Mul c2 (Float h_eta) ;;
  tau <~ binary Div c3 pillar_stiffness ;;
  ret {| h_eta := h_eta; xi_N_rho_a2 := xi_N_rho_a2;
         rho_max_per_rho := rho_max_per_rho; R0 := R0;
         k_p := pillar_stiffness; A0 := a0; tau := tau |}.

Section Methods.

Variable self : t.

Definition area (force : scalar) : comp scalar :=
  d <~ binary Div force (k_p self) ;;
  r <~ binary Sub (Float (R0 self)) d ;;
  sq <~ square r ;;
  binary Mul (Float pi) sq.

(** [-force/self.tau + self.xi_N_rho_a2 * density_factor / self.tau] *)
Definition force_rate (force area : scalar) : comp scalar :=
  q1 <~ binary Div (neg (A0 self)) area ;;
  q2 <~ binary Div (A0 self) area ;;
  q3 <~ binary Sub q2 (Float (rho_max_per_rho self)) ;;
  density_factor <~ binary Mul q1 q3 ;;
  a <~ binary Div (neg force) (tau self) ;;
  b1 <~ binary Mul (Float (xi_N_rho_a2 self)) density_factor ;;
  b <~ binary Div b1 (tau self) ;;
  binary Add a b.

(** [rhs] *)
Definition rhs (t : scalar) (y : list scalar) : comp (list scalar) :=
  force <~ getitem y 0 ;;
  ar <~ area force ;;
  force_prime <~ force_rate force ar ;;
  ret [force_prime].

(** [velocity] *)
Definition velocity (t force : scalar) : comp scalar :=
  ar <~ area force ;;
  force_prime <~ force_rate force ar ;;
  binary Div force_prime (k_p self).

End Methods.

End DensityModel.

(** ** auxiliaries.py: velos_numerical *)

Definition velos_numerical (times displacements : list scalar)
  : comp (list (option scalar)) :=
  let num_of_time_points := Z.of_nat (List.length times) in
  let velos := repeat None (List.length times) in
  t1 <~ getitem times 1 ;;
  t0 <~ getitem times 0 ;;
  dt0 <~ binary Sub t1 t0 ;;
  dt <~ binary Mul dt0 (Int 60) ;;
  d1 <~ getitem displacements 1 ;;
  d0 <~ getitem displacements 0 ;;
  dd <~ binary Sub d1 d0 ;;
  v0 <~ binary Div dd dt ;;
  velos <~ setitem velos 0 (Some v0) ;;
  velos <~
    foldM (fun velos idx =>
             dn <~ getitem displacements (idx + 1) ;;
             dp <~ getitem displacements (idx - 1) ;;
             dd <~ binary Sub dn dp ;;
             dt2 <~ binary Mul (Float (of_Z 2)) dt ;;
             v <~ binary Div dd dt2 ;;
             setitem velos idx (Some v))
          (range 1 (num_of_time_points - 1)) velos ;;
  d_last <~ getitem displacements (-1) ;;
  d_before <~ getitem displacements (-2) ;;
  dd <~ binary Sub d_last d_before ;;
  v_last <~ binary Div dd dt ;;
  setitem velos (-1) (Some v_last).

(** ** Sample inputs *)

(** libm's [exp] where the samples below evaluate it: [exp(0.) = exp(-0.)
    = 1.], and [exp(7.)] and [exp(-7.)] rounded to the nearest double.  They
    pass it no other argument. *)
Definition sample_exp (x : binary64) : binary64 :=
  if is_zero x then of_Z 1
  else if SFeqb x (of_Z 7) then S754_finite false 4823043636387242 (-42)
  else if SFeqb x (of_Z (-7)) then S754_finite false 8410626622007695 (-63)
  else S754_nan.

(** The object [FullModel] builds for a pillar stiffness of [35.] from
    unit lengths and rates, [Nmax = 10], [rho_max_per_rho = 2.] and
    [R0 = 10.], with the given [k_on], base off-rates and number of
    heads. *)
Definition sample_full (k_on k_off0_catch k_off0_slip : binary64) (n_h : Z)
  : FullModel.t :=
  {| FullModel.x_catch := of_Z 1; FullModel.x_slip := of_Z 1;
     FullModel.k_off0_catch := k_off0_catch;
     FullModel.k_off0_slip := k_off0_slip;
     FullModel.k_on := k_on; FullModel.k_on_fil := of_Z 1;
     FullModel.a_per_kBT := of_Z 1;
     FullModel.Nh := Int n_h; FullModel.Nmax := Int 10;
     FullModel.h_eta := of_Z 1; FullModel.xi_rho_a2 := of_Z 1;
     FullModel.rho_max_per_rho := of_Z 2; FullModel.R0 := of_Z 10;
     FullModel.k_p := Float (of_Z 35);
     FullModel.A0 := Float (arith Mul pi (arith Mul (of_Z 10) (of_Z 10)));
     FullModel.tau :=
       Float (arith Div
                (arith Mul (arith Mul (arith Div (of_Z 6) (of_Z 5)) pi)
                       (of_Z 1))
                (of_Z 35)) |}.

(** The object [DensityModel] builds for a pillar stiffness of [35.] from
    [xi_N_rho_a2 = 1.], [rho_max_per_rho = 2.], [R0 = 10.] and the given
    [h_eta]. *)
Definition sample_density (h_eta : binary64) : DensityModel.t :=
  {| DensityModel.h_eta := h_eta; DensityModel.xi_N_rho_a2 := of_Z 1;
     DensityModel.rho_max_per_rho := of_Z 2; DensityModel.R0 := of_Z 10;
     DensityModel.k_p := Float (of_Z 35);
     DensityModel.A0 := Float (arith Mul pi (arith Mul (of_Z 10) (of_Z 10)));
     DensityModel.tau :=
       Float (arith Div
                (arith Mul (arith Mul (arith Div (of_Z 6) (of_Z 5)) pi)
                       h_eta)
                (of_Z 35)) |}.

End Binary64.

(* ================================================================== *)
(** * Ranges and loops *)

Lemma range_empty (lo hi : Z) : (hi <= lo)%Z -> range lo hi = [].
Proof.
  intros H. unfold range.
  replace (Z.to_nat (hi - lo)) with O by lia. reflexivity.
Qed.

Lemma range_snoc (lo hi : Z) :
  (lo <= hi)%Z -> range lo (hi + 1) = range lo hi ++ [hi].
Proof.
  intros H. unfold range.
  replace (Z.to_nat (hi + 1 - lo)) with (Z.to_nat (hi - lo) + 1)%nat by lia.
  rewrite seq_app, map_app. simpl. repeat f_equal. lia.
Qed.

Lemma map_seq_shift {A : Type} (f g : nat -> A) (m : nat) :
  forall a b, (forall k, f (a + k)%nat = g (b + k)%nat) ->
              map f (seq a m) = map g (seq b m).
Proof.
  induction m as [|m IH]; intros a b Hfg; simpl; [reflexivity|].
  f_equal.
  - specialize (Hfg O). now rewrite !Nat.add_0_r in Hfg.
  - apply IH. intros k. specialize (Hfg (S k)).
    now rewrite !Nat.add_succ_r in Hfg.
Qed.

Lemma range_cons (lo hi : Z) :
  (lo < hi)%Z -> range lo hi = lo :: range (lo + 1) hi.
Proof.
  intros H. unfold range.
  replace (Z.to_nat (hi - lo)) with (S (Z.to_nat (hi - (lo + 1)))) by lia.
  simpl. f_equal; [lia|].
  apply map_seq_shift. intros k. lia.
Qed.

Lemma range_split (lo i hi : Z) :
  (lo <= i <= hi)%Z -> range lo hi = range lo i ++ range i hi.
Proof.
  intros H. unfold range.
  replace (Z.to_nat (hi - lo))
    with (Z.to_nat (i - lo) + Z.to_nat (hi - i))%nat by lia.
  rewrite seq_app, map_app. f_equal.
  apply map_seq_shift. intros k. lia.
Qed.

Lemma range_length (lo hi : Z) : List.length (range lo hi) = Z.to_nat (hi - lo).
Proof. unfold range. now rewrite length_map, length_seq. Qed.

Lemma in_range (lo hi i : Z) : In i (range lo hi) <-> (lo <= i < hi)%Z.
Proof.
  unfold range. rewrite in_map_iff. split.
  - intros (k & <- & Hk). apply in_seq in Hk. lia.
  - intros Hi. exists (Z.to_nat (i - lo)). split; [lia|].
    apply in_seq. lia.
Qed.

Lemma foldM_app {St A : Type} (f : St -> A -> result St) (l1 l2 : list A) (s : St) :
  foldM f (l1 ++ l2) s = Py.bind (foldM f l1 s) (foldM f l2).
Proof.
  revert s. induction l1 as [|a l1 IH]; intros s; simpl; [reflexivity|].
  destruct (f s a); simpl; auto.
Qed.

(** The loop rule: an invariant that every pass re-establishes holds when
    the loop is left, and the loop is left normally. *)
Lemma foldM_range_invariant {St : Type} (f : St -> Z -> result St)
      (Inv : Z -> St -> Prop) (lo hi : Z) (s : St) :
  (lo <= hi)%Z ->
  Inv lo s ->
  (forall i x, (lo <= i < hi)%Z -> Inv i x ->
               exists x', f x i = Ok x' /\ Inv (i + 1)%Z x') ->
  exists s', foldM f (range lo hi) s = Ok s' /\ Inv hi s'.
Proof.
  intros Hle H0 Hstep.
  assert (G : forall n, (lo + Z.of_nat n <= hi)%Z ->
            exists s', foldM f (range lo (lo + Z.of_nat n)) s = Ok s'
                       /\ Inv (lo + Z.of_nat n)%Z s').
  { induction n as [|n IH]; intros Hn.
    - replace (lo + Z.of_nat 0)%Z with lo by lia.
      rewrite range_empty by lia. exists s. split; [reflexivity|exact H0].
    - destruct IH as (s1 & E1 & I1); [lia|].
      replace (lo + Z.of_nat (S n))%Z with (lo + Z.of_nat n + 1)%Z by lia.
      rewrite range_snoc by lia. rewrite foldM_app, E1. simpl.
      destruct (Hstep (lo + Z.of_nat n)%Z s1) as (s2 & E2 & I2); [lia|exact I1|].
      rewrite E2. simpl. eauto. }
  specialize (G (Z.to_nat (hi - lo))).
  replace (lo + Z.of_nat (Z.to_nat (hi - lo)))%Z with hi in G by lia.
  apply G. lia.
Qed.

(** A loop that was left normally ran every pass normally. *)
Lemma foldM_range_Ok_inv {St : Type} (f : St -> Z -> result St)
      (lo hi i : Z) (s s' : St) :
  foldM f (range lo hi) s = Ok s' ->
  (lo <= i < hi)%Z ->
  exists x x', f x i = Ok x'.
Proof.
  intros E Hi.
  assert (Hsplit : range lo hi = range lo i ++ i :: range (i + 1) hi).
  { rewrite (range_split lo i hi) by lia. now rewrite (range_cons i hi) by lia. }
  rewrite Hsplit, foldM_app in E.
  destruct (foldM f (range lo i) s) as [x|e]; simpl in E; [|discriminate].
  destruct (f x i) as [x'|e] eqn:Ex; simpl in E; [|discriminate].
  eauto.
Qed.

(** Every exception that leaves a loop was raised by one of its passes. *)
Lemma foldM_Raise_inv {St A : Type} (f : St -> A -> result St) (l : list A)
      (s : St) (e : exn) :
  foldM f l s = Raise e ->
  exists x a, In a l /\ f x a = Raise e.
Proof.
  revert s. induction l as [|a l IH]; intros s E; simpl in E; [discriminate|].
  destruct (f s a) as [x|e'] eqn:Ea; simpl in E.
  - destruct (IH _ E) as (x' & a' & Hin & E'). exists x', a'. split; [now right|exact E'].
  - inversion E; subst. exists s, a. split; [now left|exact Ea].
Qed.

(** The partial form of the loop rule: what the invariant gives when the
    loop is known to have been left normally. *)
Lemma foldM_range_Ok_invariant {St : Type} (f : St -> Z -> result St)
      (Inv : Z -> St -> Prop) (lo hi : Z) (s s' : St) :
  (lo <= hi)%Z ->
  Inv lo s ->
  (forall i x x', (lo <= i < hi)%Z -> Inv i x -> f x i = Ok x' ->
                  Inv (i + 1)%Z x') ->
  foldM f (range lo hi) s = Ok s' ->
  Inv hi s'.
Proof.
  intros Hle H0 Hstep.
  assert (G : forall n s', (lo + Z.of_nat n <= hi)%Z ->
            foldM f (range lo (lo + Z.of_nat n)) s = Ok s' ->
            Inv (lo + Z.of_nat n)%Z s').
  { induction n as [|n IH]; intros r Hn E.
    - replace (lo + Z.of_nat 0)%Z with lo in * by lia.
      rewrite range_empty in E by lia. simpl in E. now inversion E; subst.
    - replace (lo + Z.of_nat (S n))%Z with (lo + Z.of_nat n + 1)%Z in * by lia.
      rewrite range_snoc in E by lia. rewrite foldM_app in E.
      destruct (foldM f (range lo (lo + Z.of_nat n)) s) as [x|e] eqn:Ex;
        simpl in E; [|discriminate].
      destruct (f x (lo + Z.of_nat n)%Z) as [x'|e] eqn:Ex'; simpl in E;
        [|discriminate].
      inversion E; subst.
      apply (Hstep (lo + Z.of_nat n)%Z x); [lia| |exact Ex'].
      apply IH; [lia|reflexivity]. }
  intros E. specialize (G (Z.to_nat (hi - lo)) s').
  replace (lo + Z.of_nat (Z.to_nat (hi - lo)))%Z with hi in G by lia.
  apply G; [lia|exact E].
Qed.

Lemma bind_Ok_inv {A B : Type} (r : result A) (k : A -> result B) (b : B) :
  Py.bind r k = Ok b -> exists a, r = Ok a /\ k a = Ok b.
Proof. destruct r as [a|e]; simpl; intros E; [eauto|discriminate]. Qed.

Lemma getitem_in_range {A : Type} (l : list A) (j : Z) :
  (0 <= j < Z.of_nat (List.length l))%Z -> exists a, getitem l j = Ok a.
Proof.
  intros Hj. unfold getitem.
  destruct (j <? 0)%Z eqn:Ej; [lia|]. rewrite Ej.
  destruct (nth_error l (Z.to_nat j)) as [a|] eqn:En; [eauto|].
  apply nth_error_None in En. lia.
Qed.

Lemma truediv_Ok (x y : R) : y <> 0 -> truediv x y = Ok (x / y).
Proof. intros H. unfold truediv. destruct (Req_dec_T y 0); [contradiction|reflexivity]. Qed.

Lemma truediv_zero (x : R) : truediv x 0 = Raise ZeroDivisionError.
Proof. unfold truediv. destruct (Req_dec_T 0 0); [reflexivity|contradiction]. Qed.

Lemma truediv_Ok_inv (x y q : R) : truediv x y = Ok q -> y <> 0 /\ q = x / y.
Proof.
  unfold truediv. destruct (Req_dec_T y 0); intros E; inversion E. auto.
Qed.

Lemma truediv_Raise_inv (x y : R) (e : exn) :
  truediv x y = Raise e -> y = 0 /\ e = ZeroDivisionError.
Proof.
  unfold truediv. destruct (Req_dec_T y 0); intros E; inversion E. auto.
Qed.

Lemma getitem_map_range {A : Type} (g : Z -> A) (hi j : Z) :
  (0 <= j < hi)%Z -> getitem (map g (range 0 hi)) j = Ok (g j).
Proof.
  intros Hj. unfold getitem.
  destruct (j <? 0)%Z eqn:Ej; [lia|]. rewrite Ej.
  unfold range. rewrite map_map.
  rewrite nth_error_map, nth_error_seq.
  destruct (Nat.ltb_spec (Z.to_nat j) (Z.to_nat (hi - 0))); [|lia].
  simpl. do 2 f_equal. lia.
Qed.

Lemma Rsum_app (l1 l2 : list R) : Rsum (l1 ++ l2) = Rsum l1 + Rsum l2.
Proof. induction l1; simpl; lra. Qed.

Lemma Rsum_map_snoc {A : Type} (g : A -> R) (l : list A) (a : A) :
  Rsum (map g (l ++ [a])) = Rsum (map g l) + g a.
Proof. rewrite map_app, Rsum_app. simpl. lra. Qed.

Lemma Rsum_map_div (A : Type) (g : A -> R) (z : R) (l : list A) :
  Rsum (map (fun a => g a / z) l) = Rsum (map g l) / z.
Proof. induction l as [|a l IH]; simpl; [lra|]. rewrite IH. lra. Qed.

(* ================================================================== *)
(** * The kinetics of a filament with valid rate constants *)

Section Kinetics.

Variable self : FullModel.t.
Variable total_force : R.
Variable n_h : Z.

Hypothesis HNh : FullModel.Nh self = PyInt n_h.
Hypothesis Hkon : 0 < FullModel.k_on self.
Hypothesis Hcatch : 0 <= FullModel.k_off0_catch self.
Hypothesis Hslip : 0 <= FullModel.k_off0_slip self.
Hypothesis Hrates : 0 < FullModel.k_off0_catch self + FullModel.k_off0_slip self.

Local Abbreviation W := (weight self total_force).
Local Abbreviation Zp := (partition_sum self total_force n_h).
Local Abbreviation prob := (bound_probability self total_force n_h).

Lemma k_off_pos (f : R) : 0 < FullModel.k_off self f.
Proof.
  unfold FullModel.k_off.
  set (e1 := exp _). set (e2 := exp _).
  assert (H1 : 0 < e1) by apply exp_pos.
  assert (H2 : 0 < e2) by apply exp_pos.
  destruct Hcatch as [Hc|Hc].
  - assert (0 < FullModel.k_off0_catch self * e1) by (apply Rmult_lt_0_compat; lra).
    assert (0 <= FullModel.k_off0_slip self * e2) by (apply Rmult_le_pos; lra).
    lra.
  - rewrite <- Hc in *.
    assert (0 < FullModel.k_off0_slip self * e2) by (apply Rmult_lt_0_compat; lra).
    lra.
Qed.

Lemma IZR_succ_pos (i : Z) : (0 <= i)%Z -> 0 < IZR (i + 1).
Proof. intros H. apply IZR_lt. lia. Qed.

Lemma weight_0 : W 0%Z = 1.
Proof. reflexivity. Qed.

Lemma weight_succ (n : Z) :
  (0 <= n)%Z ->
  W (n + 1)%Z
  = W n * ((IZR n_h - IZR n) * FullModel.k_on self)
    / (IZR (n + 1) * FullModel.k_off self (total_force / IZR (n + 1))).
Proof.
  intros Hn. unfold weight.
  rewrite range_snoc by lia. rewrite fold_left_app. simpl.
  rewrite HNh. reflexivity.
Qed.

(** The loops over [i] and [j]: no division fails, the product is the
    weight, and it is positive up to [n_h] heads. *)
Lemma prod_loop (n : Z) :
  (0 <= n <= n_h)%Z ->
  foldM (FullModel.prod_step self (to_R (FullModel.Nh self)) total_force)
        (range 0 n) 1 = Ok (W n) /\ 0 < W n.
Proof.
  intros Hn.
  destruct (foldM_range_invariant
              (FullModel.prod_step self (to_R (FullModel.Nh self)) total_force)
              (fun i acc => acc = W i /\ 0 < acc) 0 n 1) as (x & E & -> & Hx).
  - lia.
  - rewrite weight_0. split; [reflexivity|lra].
  - intros i acc Hi [-> Hpos].
    assert (Hi1 : 0 < IZR (i + 1)) by (apply IZR_succ_pos; lia).
    pose proof (k_off_pos (total_force / IZR (i + 1))) as Hk.
    assert (Hd : 0 < IZR (i + 1) * FullModel.k_off self (total_force / IZR (i + 1)))
      by (apply Rmult_lt_0_compat; assumption).
    assert (Hnum : 0 < (IZR n_h - IZR i) * FullModel.k_on self).
    { apply Rmult_lt_0_compat; [|assumption].
      assert (IZR i < IZR n_h) by (apply IZR_lt; lia). lra. }
    unfold FullModel.prod_step.
    rewrite truediv_Ok by lra. simpl.
    rewrite truediv_Ok by lra. rewrite HNh. simpl.
    eexists. split; [reflexivity|].
    rewrite weight_succ by lia. split; [reflexivity|].
    apply Rdiv_lt_0_compat; [|assumption].
    apply Rmult_lt_0_compat; assumption.
  - split; assumption.
Qed.

Lemma Rsum_weights_nonneg (k : Z) :
  (1 <= k <= n_h + 1)%Z -> 0 <= Rsum (map W (range 1 k)).
Proof.
  intros Hk.
  assert (G : forall m, (1 + Z.of_nat m <= n_h + 1)%Z ->
                        0 <= Rsum (map W (range 1 (1 + Z.of_nat m)))).
  { induction m as [|m IH]; intros Hm.
    - rewrite range_empty by lia. simpl. lra.
    - replace (1 + Z.of_nat (S m))%Z with (1 + Z.of_nat m + 1)%Z by lia.
      rewrite range_snoc by lia. rewrite Rsum_map_snoc.
      specialize (IH ltac:(lia)).
      destruct (prod_loop (1 + Z.of_nat m)) as [_ Hp]; [lia|]. lra. }
  specialize (G (Z.to_nat (k - 1))).
  replace (1 + Z.of_nat (Z.to_nat (k - 1)))%Z with k in G by lia.
  apply G. lia.
Qed.

Lemma partition_sum_pos : (0 <= n_h)%Z -> 1 <= Zp.
Proof.
  intros H. unfold partition_sum.
  pose proof (Rsum_weights_nonneg (n_h + 1)%Z ltac:(lia)). lra.
Qed.

(** The loop over [k] that accumulates [denom]. *)
Lemma denom_loop :
  (0 <= n_h)%Z ->
  foldM (fun denom k =>
           prod <- foldM (FullModel.prod_step self (to_R (FullModel.Nh self))
                                              total_force)
                         (range 0 k) 1 ;;
           Ok (denom + prod))
        (range 1 (n_h + 1)) 1 = Ok Zp.
Proof.
  intros Hn.
  destruct (foldM_range_invariant
              (fun denom k =>
                 prod <- foldM (FullModel.prod_step self
                                  (to_R (FullModel.Nh self)) total_force)
                               (range 0 k) 1 ;;
                 Ok (denom + prod))
              (fun k denom => denom = 1 + Rsum (map W (range 1 k)))
              1 (n_h + 1) 1) as (x & E & ->).
  - lia.
  - rewrite range_empty by lia. simpl. lra.
  - intros k denom Hk ->.
    destruct (prod_loop k) as [Ek _]; [lia|].
    rewrite Ek. simpl. eexists. split; [reflexivity|].
    rewrite range_snoc by lia. rewrite Rsum_map_snoc. lra.
  - exact E.
Qed.

Lemma prob_pos (n : Z) : (0 <= n <= n_h)%Z -> 0 < prob n.
Proof.
  intros Hn. unfold bound_probability.
  destruct (prod_loop n) as [_ Hw]; [lia|].
  pose proof (partition_sum_pos ltac:(lia)).
  apply Rdiv_lt_0_compat; lra.
Qed.

(** [__calc_prob_dist] returns the list of the probabilities
    [prob 0 .. prob n_h]. *)
Lemma calc_prob_dist_Ok :
  (0 <= n_h)%Z ->
  FullModel.calc_prob_dist self total_force
  = Ok (map prob (range 0 (n_h + 1))).
Proof.
  intros Hn. unfold FullModel.calc_prob_dist. rewrite HNh at 1. simpl.
  pose proof (partition_sum_pos Hn) as HZ.
  match goal with
  | |- foldM ?f _ _ = _ =>
      destruct (foldM_range_invariant f
                  (fun n pns => pns = map prob (range 0 n))
                  0 (n_h + 1) []) as (x & E & ->)
  end.
  - lia.
  - reflexivity.
  - intros n pns Hr ->.
    destruct (prod_loop n) as [En _]; [lia|].
    rewrite En. simpl. rewrite (denom_loop Hn). simpl.
    rewrite truediv_Ok by lra. simpl.
    eexists. split; [reflexivity|].
    rewrite range_snoc by lia. rewrite map_app. reflexivity.
  - exact E.
Qed.

Lemma Rsum_probs : (0 <= n_h)%Z -> Rsum (map prob (range 0 (n_h + 1))) = 1.
Proof.
  intros Hn. unfold bound_probability.
  rewrite (Rsum_map_div Z W Zp).
  rewrite (range_cons 0 (n_h + 1)) by lia. simpl.
  pose proof (partition_sum_pos Hn) as HZ.
  unfold partition_sum in *.
  replace (0 + 1)%Z with 1%Z by lia.
  rewrite weight_0. field. lra.
Qed.

(** [k_off_fil] divides by positive numbers only and returns a positive
    rate. *)
Lemma k_off_fil_pos :
  (1 <= n_h)%Z ->
  exists k, FullModel.k_off_fil self total_force = Ok k /\ 0 < k.
Proof.
  intros Hn. unfold FullModel.k_off_fil.
  rewrite calc_prob_dist_Ok by lia. simpl. rewrite HNh. simpl.
  set (pns := map prob (range 0 (n_h + 1))).
  assert (Hget : forall j, (0 <= j <= n_h)%Z -> getitem pns j = Ok (prob j)).
  { intros j Hj. apply getitem_map_range. lia. }
  match goal with
  | |- context [foldM ?f (range 1 (n_h + 1)) 0] =>
      destruct (foldM_range_invariant f
                  (fun i x => 0 <= x /\ ((1 < i)%Z -> 0 < x))
                  1 (n_h + 1) 0) as (Tav & Eav & _ & Hav)
  end.
  - lia.
  - split; [lra|lia].
  - intros NB_init Tav Hinit [Hav0 _]. cbv beta.
    match goal with
    | |- context [foldM ?f (range 1 (NB_init + 1)) 0] =>
        destruct (foldM_range_invariant f
                    (fun i x => 0 <= x /\ ((1 < i)%Z -> 0 < x))
                    1 (NB_init + 1) 0) as (T & ET & _ & HT)
    end.
    + lia.
    + split; [lra|lia].
    + intros NB T HNB [HT0 _]. cbv beta.
      match goal with
      | |- context [foldM ?f (range NB (n_h + 1)) 0] =>
          destruct (foldM_range_invariant f
                      (fun i x => 0 <= x /\ ((NB < i)%Z -> 0 < x))
                      NB (n_h + 1) 0) as (s & Es & _ & Hs)
      end.
      * lia.
      * split; [lra|lia].
      * intros j s Hj [Hs0 _]. cbv beta.
        rewrite Hget by lia. simpl.
        pose proof (prob_pos j ltac:(lia)).
        eexists. split; [reflexivity|]. split; intros; lra.
      * rewrite Es. simpl.
        assert (HNBpos : 0 < IZR NB) by (apply IZR_lt; lia).
        rewrite truediv_Ok by lra. simpl.
        rewrite Hget by lia. simpl.
        pose proof (prob_pos NB ltac:(lia)) as Hp.
        pose proof (k_off_pos (total_force / IZR NB)) as Hk.
        assert (Hden : 0 < IZR NB * FullModel.k_off self (total_force / IZR NB)
                           * prob NB)
          by (apply Rmult_lt_0_compat; [apply Rmult_lt_0_compat|]; assumption).
        rewrite truediv_Ok by lra. simpl.
        eexists. split; [reflexivity|].
        assert (Hq : 0 < 1 / (IZR NB * FullModel.k_off self (total_force / IZR NB)
                              * prob NB))
          by (apply Rdiv_lt_0_compat; lra).
        specialize (Hs ltac:(lia)).
        assert (0 < 1 / (IZR NB * FullModel.k_off self (total_force / IZR NB)
                         * prob NB) * s)
          by (apply Rmult_lt_0_compat; assumption).
        split; intros; lra.
    + rewrite ET. simpl. rewrite Hget by lia. simpl.
      eexists. split; [reflexivity|].
      pose proof (prob_pos NB_init ltac:(lia)) as Hp.
      specialize (HT ltac:(lia)).
      assert (0 < prob NB_init * T) by (apply Rmult_lt_0_compat; assumption).
      split; intros; lra.
  - rewrite Eav. simpl.
    specialize (Hav ltac:(lia)).
    rewrite truediv_Ok by lra.
    eexists. split; [reflexivity|].
    apply Rdiv_lt_0_compat; lra.
Qed.

End Kinetics.

(** ** A filament with a single head *)

(** With one head the nested sums collapse: the mean detachment time is
    [P1 / k_off], weighted by the probability [P1 = k_on / (k_on + k_off)]
    that the head is bound. *)
Lemma single_head_off_rate (self : FullModel.t) (F : R) :
  FullModel.Nh self = PyInt 1 ->
  0 < FullModel.k_on self ->
  0 < FullModel.k_off self F ->
  FullModel.k_off_fil self F
  = Ok (FullModel.k_off self F * (FullModel.k_on self + FullModel.k_off self F)
        / FullModel.k_on self).
Proof.
  intros HNh Hon Hk.
  unfold FullModel.k_off_fil, FullModel.calc_prob_dist.
  rewrite HNh. cbn [index Py.bind to_R].
  change (range 0 (1 + 1)) with [0%Z; 1%Z].
  change (range 1 (1 + 1)) with [1%Z].
  cbn [foldM Py.bind].
  change (range 0 0) with (@nil Z).
  change (range 0 1) with [0%Z].
  cbn [foldM Py.bind].
  unfold FullModel.prod_step.
  change (IZR (0 + 1)) with 1.
  rewrite (truediv_Ok F 1) by lra. cbn [Py.bind].
  replace (F / 1) with F by field.
  set (k := FullModel.k_off self F) in *.
  set (a := FullModel.k_on self) in *.
  assert (Hw : 0 < 1 * ((1 - 0) * a) / (1 * k)).
  { apply Rdiv_lt_0_compat; lra. }
  rewrite (truediv_Ok _ (1 * k)) by lra. cbn [Py.bind].
  rewrite (truediv_Ok 1) by lra. cbn [Py.bind].
  rewrite truediv_Ok by lra. cbn [Py.bind app].
  change (range 1 (1 + 1)) with [1%Z].
  cbn [foldM Py.bind].
  change (range 1 (1 + 1)) with [1%Z].
  cbn [foldM Py.bind].
  assert (Hg : forall x y : R, getitem [x; y] 1 = Ok y) by reflexivity.
  rewrite !Hg. cbn [Py.bind].
  change (IZR 1) with 1.
  rewrite (truediv_Ok F 1) by lra. cbn [Py.bind].
  replace (F / 1) with F by field. fold k.
  set (p1 := 1 * ((1 - 0) * a) / (1 * k) / (1 + 1 * ((1 - 0) * a) / (1 * k))).
  assert (Hp1 : p1 = a / (a + k)).
  { unfold p1. field. lra. }
  assert (Hp1pos : 0 < p1).
  { rewrite Hp1. apply Rdiv_lt_0_compat; lra. }
  assert (Hden : 0 < 1 * k * p1).
  { apply Rmult_lt_0_compat; lra. }
  rewrite truediv_Ok by lra. cbn [Py.bind].
  assert (HT : 0 < 0 + p1 * (0 + 1 / (1 * k * p1) * (0 + p1))).
  { replace (0 + p1 * (0 + 1 / (1 * k * p1) * (0 + p1))) with (p1 / k) by (field; lra).
    apply Rdiv_lt_0_compat; lra. }
  rewrite truediv_Ok by lra.
  f_equal. rewrite Hp1. field. lra.
Qed.

Lemma sample_k_off_at_rest (k0_catch k0_slip : R) (n_h : Z) (h : R) :
  FullModel.k_off (sample_full k0_catch k0_slip n_h h) 0 = k0_catch + k0_slip.
Proof.
  unfold FullModel.k_off. simpl.
  replace (- (1) * 0 * 1) with 0 by ring.
  replace (1 * 0 * 1) with 0 by ring.
  rewrite exp_0. ring.
Qed.

(* ================================================================== *)
(** * The bound-head distribution and the filament off-rate *)



(** In exact real arithmetic, where nothing underflows: for every total
    force and every full model with [k_on > 0], at least one head, and base
    off-rates that are non-negative and not both zero, the formula of
    [k_off_fil] has a value and it is strictly positive.  For the value the
    interpreter computes see [Binary64.FullModel.k_off_fil]. *)
Lemma k_off_fil_exact_positive
        (self : FullModel.t) (total_force : R) (n_h : Z) :
  0 <= total_force ->
  FullModel.Nh self = PyInt n_h ->
  (1 <= n_h)%Z ->
  0 < FullModel.k_on self ->
  0 <= FullModel.k_off0_catch self ->
  0 <= FullModel.k_off0_slip self ->
  ~ (FullModel.k_off0_catch self = 0 /\ FullModel.k_off0_slip self = 0) ->
  exists k, FullModel.k_off_fil self total_force = Ok k /\ 0 < k.
Proof.
  intros _ HNh Hn Hon Hc Hs Hnz.
  apply k_off_fil_pos with (n_h := n_h); try assumption.
  destruct Hc as [Hc|Hc]; [lra|].
  destruct Hs as [Hs|Hs]; [lra|].
  exfalso. apply Hnz. split; congruence.
Qed.

Lemma sample_k_off_fil_exact_positive :
  exists k, FullModel.k_off_fil (sample_full 1 0 3 1) 7 = Ok k /\ 0 < k.
Proof.
  apply (k_off_fil_exact_positive (sample_full 1 0 3 1) 7 3);
    simpl; try reflexivity; try lia; try lra.
Qed.




(* ================================================================== *)
(** * Construction, the right-hand sides and the velocities *)

Lemma full_of_parameters_inv (ps : list num) (kp : R) (self : FullModel.t) :
  FullModel.of_parameters ps kp = Ok self ->
  kp <> 0
  /\ FullModel.k_p self = kp
  /\ FullModel.tau self = 6 / 5 * PI * FullModel.h_eta self / kp
  /\ FullModel.A0 self = PI * FullModel.R0 self ^ 2
  /\ FullModel.parameter_dict self
     = combine full_model_dict_keys (ps ++ [PyFloat kp])
  /\ List.length ps = 13%nat.
Proof.
  unfold FullModel.of_parameters.
  do 14 (destruct ps as [|? ps]; try discriminate).
  intros E. apply bind_Ok_inv in E. destruct E as (t & Et & E).
  apply truediv_Ok_inv in Et. destruct Et as [Hkp ->].
  inversion E; subst; clear E. simpl. repeat split; auto.
Qed.

Lemma density_of_parameters_inv (ps : list num) (kp : R) (self : DensityModel.t) :
  DensityModel.of_parameters ps kp = Ok self ->
  kp <> 0
  /\ DensityModel.k_p self = kp
  /\ DensityModel.tau self = 6 / 5 * PI * DensityModel.h_eta self / kp
  /\ DensityModel.A0 self = PI * DensityModel.R0 self ^ 2
  /\ DensityModel.parameter_dict self
     = combine density_model_dict_keys (ps ++ [PyFloat kp])
  /\ List.length ps = 4%nat.
Proof.
  unfold DensityModel.of_parameters.
  do 5 (destruct ps as [|? ps]; try discriminate).
  intros E. apply bind_Ok_inv in E. destruct E as (t & Et & E).
  apply truediv_Ok_inv in Et. destruct Et as [Hkp ->].
  inversion E; subst; clear E. simpl. repeat split; auto.
Qed.

Lemma tau_nonzero (h kp : R) : kp <> 0 -> h <> 0 -> 6 / 5 * PI * h / kp <> 0.
Proof.
  intros Hkp Hh. pose proof PI_RGT_0 as Hpi.
  assert (Hn : 6 / 5 * PI * h <> 0)
    by (apply Rmult_integral_contrapositive_currified; lra).
  unfold Rdiv at 1. apply Rmult_integral_contrapositive_currified;
    [exact Hn|now apply Rinv_neq_0_compat].
Qed.

Lemma area_nonzero (r0 force kp : R) :
  kp <> 0 -> force <> kp * r0 -> PI * (r0 - force / kp) ^ 2 <> 0.
Proof.
  intros Hkp Hf. pose proof PI_RGT_0 as Hpi.
  apply Rmult_integral_contrapositive_currified; [lra|].
  apply pow_nonzero. intros Hz. apply Hf.
  assert (force / kp = r0) by lra. subst r0. field. exact Hkp.
Qed.

Lemma sample_full_constructed (k0_catch k0_slip : R) (n_h : Z) (h : R) :
  FullModel.of_parameters (sample_full_parameters k0_catch k0_slip n_h h) 35
  = Ok (sample_full k0_catch k0_slip n_h h).
Proof.
  unfold FullModel.of_parameters, sample_full_parameters.
  rewrite truediv_Ok by lra. reflexivity.
Qed.

Lemma sample_density_constructed (h : R) :
  DensityModel.of_parameters (sample_density_parameters h) 35
  = Ok (sample_density h).
Proof.
  unfold DensityModel.of_parameters, sample_density_parameters.
  rewrite truediv_Ok by lra. reflexivity.
Qed.

Section FullModelStates.

Variable self : FullModel.t.
Variables t force N : R.

Lemma full_velocity_from_rhs (kf : R) :
  FullModel.k_off_fil self force = Ok kf ->
  FullModel.velocity self t force N
  = (y' <- FullModel.rhs self t [force; N] ;;
     force_prime <- getitem y' 0 ;;
     truediv force_prime (FullModel.k_p self)).
Proof.
  intros Ekf. unfold FullModel.velocity, FullModel.rhs.
  change (getitem [force; N] 0) with (Ok force).
  change (getitem [force; N] 1) with (Ok N).
  cbn [Py.bind]. rewrite Ekf.
  repeat match goal with
         | |- context [truediv ?a ?b] =>
             destruct (truediv a b) eqn:?; cbn [Py.bind]; try reflexivity
         end.
Qed.

Lemma full_velocity_defined :
  FullModel.k_p self <> 0 -> FullModel.tau self <> 0 ->
  force <> FullModel.k_p self * FullModel.R0 self ->
  exists v, FullModel.velocity self t force N = Ok v.
Proof.
  intros Hkp Htau Hf. unfold FullModel.velocity.
  pose proof (area_nonzero (FullModel.R0 self) force _ Hkp Hf) as Ha.
  rewrite (truediv_Ok force) by assumption. cbn [Py.bind].
  rewrite !(truediv_Ok _ _ Ha). cbn [Py.bind].
  rewrite !(truediv_Ok _ _ Htau). cbn [Py.bind].
  rewrite (truediv_Ok _ _ Hkp). eauto.
Qed.

Lemma full_rhs_defined (kf : R) :
  FullModel.k_p self <> 0 -> FullModel.tau self <> 0 ->
  force <> FullModel.k_p self * FullModel.R0 self ->
  FullModel.k_off_fil self force = Ok kf ->
  exists force_prime N_prime,
    FullModel.rhs self t [force; N] = Ok [force_prime; N_prime].
Proof.
  intros Hkp Htau Hf Ekf. unfold FullModel.rhs.
  change (getitem [force; N] 0) with (Ok force).
  change (getitem [force; N] 1) with (Ok N).
  cbn [Py.bind].
  pose proof (area_nonzero (FullModel.R0 self) force _ Hkp Hf) as Ha.
  rewrite (truediv_Ok force) by assumption. cbn [Py.bind].
  rewrite !(truediv_Ok _ _ Ha). cbn [Py.bind].
  rewrite !(truediv_Ok _ _ Htau). cbn [Py.bind].
  rewrite Ekf. cbn [Py.bind]. eauto.
Qed.

End FullModelStates.

Section FullModelKineticsFailure.

Variable self : FullModel.t.
Variables t force N : R.

(** [rhs] needs the filament off-rate, [velocity] does not. *)
Lemma full_rhs_kinetics_failure (e : exn) :
  FullModel.k_p self <> 0 -> FullModel.tau self <> 0 ->
  force <> FullModel.k_p self * FullModel.R0 self ->
  FullModel.k_off_fil self force = Raise e ->
  FullModel.rhs self t [force; N] = Raise e.
Proof.
  intros Hkp Htau Hf Ekf. unfold FullModel.rhs.
  change (getitem [force; N] 0) with (Ok force).
  change (getitem [force; N] 1) with (Ok N).
  cbn [Py.bind].
  pose proof (area_nonzero (FullModel.R0 self) force _ Hkp Hf) as Ha.
  rewrite (truediv_Ok force) by assumption. cbn [Py.bind].
  rewrite !(truediv_Ok _ _ Ha). cbn [Py.bind].
  rewrite !(truediv_Ok _ _ Htau). cbn [Py.bind].
  rewrite Ekf. reflexivity.
Qed.

(** Without heads the mean detachment time is the empty sum, and its
    reciprocal is asked for. *)
Lemma k_off_fil_no_heads :
  FullModel.Nh self = PyInt 0 ->
  FullModel.k_off_fil self force = Raise ZeroDivisionError.
Proof.
  intros HNh. unfold FullModel.k_off_fil, FullModel.calc_prob_dist.
  rewrite HNh. cbn [index Py.bind to_R].
  change (range 0 (0 + 1)) with [0%Z].
  change (range 1 (0 + 1)) with (@nil Z).
  cbn [foldM Py.bind].
  change (range 0 0) with (@nil Z). cbn [foldM Py.bind].
  rewrite truediv_Ok by lra. cbn [Py.bind foldM].
  apply truediv_zero.
Qed.

End FullModelKineticsFailure.

Section DensityModelStates.

Variable self : DensityModel.t.
Variables t force : R.

Lemma density_velocity_from_rhs :
  DensityModel.velocity self t force
  = (y' <- DensityModel.rhs self t [force] ;;
     force_prime <- getitem y' 0 ;;
     truediv force_prime (DensityModel.k_p self)).
Proof.
  unfold DensityModel.velocity, DensityModel.rhs.
  change (getitem [force] 0) with (Ok force).
  cbn [Py.bind].
  repeat match goal with
         | |- context [truediv ?a ?b] =>
             destruct (truediv a b) eqn:?; cbn [Py.bind]; try reflexivity
         end.
Qed.

End DensityModelStates.

(** C7, as the code has it.  At every time and every state with
    [force <> k_p * R0] at which the filament off-rate [k_off_fil(force)] is
    defined, [FullModel.velocity(t, force, N)] is the first component of
    [FullModel.rhs(t, [force, N])] divided by [k_p]; and
    [DensityModel.velocity(t, force)] is the first component of
    [DensityModel.rhs(t, [force])] divided by [k_p]. *)
Theorem velocity_is_rhs_over_stiffness :
  (forall (self : FullModel.t) (t force N kf : R),
      force <> FullModel.k_p self * FullModel.R0 self ->
      FullModel.k_off_fil self force = Ok kf ->
      FullModel.velocity self t force N
      = (y' <- FullModel.rhs self t [force; N] ;;
         force_prime <- getitem y' 0 ;;
         truediv force_prime (FullModel.k_p self)))
  /\ (forall (self : DensityModel.t) (t force : R),
         force <> DensityModel.k_p self * DensityModel.R0 self ->
         DensityModel.velocity self t force
         = (y' <- DensityModel.rhs self t [force] ;;
            force_prime <- getitem y' 0 ;;
            truediv force_prime (DensityModel.k_p self))).
Proof.
  split.
  - intros self t force N kf _ Ekf. now apply full_velocity_from_rhs with kf.
  - intros self t force _. apply density_velocity_from_rhs.
Qed.

Lemma sample_full_rest_state (k0_catch k0_slip : R) (n_h : Z) (h : R) :
  0 <> FullModel.k_p (sample_full k0_catch k0_slip n_h h)
       * FullModel.R0 (sample_full k0_catch k0_slip n_h h).
Proof. simpl. lra. Qed.

Lemma sample_density_rest_state (h : R) :
  0 <> DensityModel.k_p (sample_density h) * DensityModel.R0 (sample_density h).
Proof. simpl. lra. Qed.

Lemma velocity_is_rhs_over_stiffness_witness :
  FullModel.velocity (sample_full 1 0 1 1) 0 0 1
  = (y' <- FullModel.rhs (sample_full 1 0 1 1) 0 [0; 1] ;;
     force_prime <- getitem y' 0 ;;
     truediv force_prime (FullModel.k_p (sample_full 1 0 1 1)))
  /\ DensityModel.velocity (sample_density 1) 0 0
     = (y' <- DensityModel.rhs (sample_density 1) 0 [0] ;;
        force_prime <- getitem y' 0 ;;
        truediv force_prime (DensityModel.k_p (sample_density 1))).
Proof.
  split.
  - apply (proj1 velocity_is_rhs_over_stiffness (sample_full 1 0 1 1) 0 0 1
                 (FullModel.k_off (sample_full 1 0 1 1) 0
                  * (1 + FullModel.k_off (sample_full 1 0 1 1) 0) / 1)).
    + apply sample_full_rest_state.
    + apply single_head_off_rate.
      * reflexivity.
      * simpl. lra.
      * rewrite sample_k_off_at_rest. lra.
  - apply (proj2 velocity_is_rhs_over_stiffness (sample_density 1) 0 0).
    apply sample_density_rest_state.
Defined.

(** C7 as stated fails: a full model without heads, at rest.  [velocity]
    returns a number and [rhs] raises, [force] being different from
    [k_p * R0]. *)
Lemma velocity_without_rhs_counterexample :
  0 <> FullModel.k_p (sample_full 1 1 0 1) * FullModel.R0 (sample_full 1 1 0 1)
  /\ (exists v, FullModel.velocity (sample_full 1 1 0 1) 0 0 1 = Ok v)
  /\ FullModel.rhs (sample_full 1 1 0 1) 0 [0; 1] = Raise ZeroDivisionError
  /\ FullModel.velocity (sample_full 1 1 0 1) 0 0 1
     <> (y' <- FullModel.rhs (sample_full 1 1 0 1) 0 [0; 1] ;;
         force_prime <- getitem y' 0 ;;
         truediv force_prime (FullModel.k_p (sample_full 1 1 0 1))).
Proof.
  assert (Hkp : FullModel.k_p (sample_full 1 1 0 1) <> 0) by (simpl; lra).
  assert (Htau : FullModel.tau (sample_full 1 1 0 1) <> 0)
    by (simpl; apply tau_nonzero; lra).
  pose proof (sample_full_rest_state 1 1 0 1) as Hf.
  destruct (full_velocity_defined (sample_full 1 1 0 1) 0 0 1 Hkp Htau Hf)
    as [v Hv].
  assert (Hr : FullModel.rhs (sample_full 1 1 0 1) 0 [0; 1]
               = Raise ZeroDivisionError).
  { apply full_rhs_kinetics_failure; try assumption.
    apply k_off_fil_no_heads. reflexivity. }
  repeat split; try assumption.
  - exists v. exact Hv.
  - rewrite Hr, Hv. simpl. discriminate.
Qed.

(* ================================================================== *)
(** * Parameter lookup *)

Lemma dict_getitem_unknown {V : Type} (d : list (string * V)) (key : string) :
  ~ In key (map fst d) -> dict_getitem d key = Raise (KeyError key).
Proof.
  induction d as [|[k v] d IH]; simpl; intros Hn; [reflexivity|].
  destruct (String.eqb_spec k key) as [->|Hne].
  - exfalso. apply Hn. now left.
  - apply IH. intros Hin. apply Hn. now right.
Qed.

(** C9.  For every constructed model of either variant, [get_parameter]
    returns, for each name of the variant's dict (the last of which is
    ["k_p"]), the value stored under it at construction; it raises
    [KeyError] for every other name; and the model is the same after the
    call. *)
Theorem get_parameter_lookup :
  (forall (ps : list num) (kp : R) (self : FullModel.t),
      FullModel.of_parameters ps kp = Ok self ->
      (forall i, (i < List.length full_model_dict_keys)%nat ->
                 snd (FullModel.get_parameter self (nth i full_model_dict_keys ""))
                 = Ok (nth i (ps ++ [PyFloat kp]) (PyFloat 0)))
      /\ snd (FullModel.get_parameter self "k_p") = Ok (PyFloat kp)
      /\ (forall name, ~ In name full_model_dict_keys ->
                       snd (FullModel.get_parameter self name)
                       = Raise (KeyError name))
      /\ (forall name, fst (FullModel.get_parameter self name) = self))
  /\ (forall (ps : list num) (kp : R) (self : DensityModel.t),
         DensityModel.of_parameters ps kp = Ok self ->
         (forall i, (i < List.length density_model_dict_keys)%nat ->
                    snd (DensityModel.get_parameter self
                           (nth i density_model_dict_keys ""))
                    = Ok (nth i (ps ++ [PyFloat kp]) (PyFloat 0)))
         /\ snd (DensityModel.get_parameter self "k_p") = Ok (PyFloat kp)
         /\ (forall name, ~ In name density_model_dict_keys ->
                          snd (DensityModel.get_parameter self name)
                          = Raise (KeyError name))
         /\ (forall name, fst (DensityModel.get_parameter self name) = self)).
Proof.
  split.
  - intros ps kp self Hc.
    destruct (full_of_parameters_inv ps kp self Hc) as (_ & _ & _ & _ & Hd & Hl).
    unfold FullModel.get_parameter. simpl fst. simpl snd. rewrite Hd.
    do 14 (destruct ps as [|? ps]; try discriminate Hl).
    repeat split.
    + intros i Hi. simpl in Hi.
      do 14 (destruct i as [|i]; [reflexivity|]). lia.
    + intros name Hn. apply dict_getitem_unknown. exact Hn.
  - intros ps kp self Hc.
    destruct (density_of_parameters_inv ps kp self Hc) as (_ & _ & _ & _ & Hd & Hl).
    unfold DensityModel.get_parameter. simpl fst. simpl snd. rewrite Hd.
    do 5 (destruct ps as [|? ps]; try discriminate Hl).
    repeat split.
    + intros i Hi. simpl in Hi.
      do 5 (destruct i as [|i]; [reflexivity|]). lia.
    + intros name Hn. apply dict_getitem_unknown. exact Hn.
Qed.

Lemma get_parameter_lookup_witness :
  (snd (FullModel.get_parameter (sample_full 1 0 3 1) "Nh") = Ok (PyInt 3)
   /\ snd (FullModel.get_parameter (sample_full 1 0 3 1) "k_p") = Ok (PyFloat 35)
   /\ snd (FullModel.get_parameter (sample_full 1 0 3 1) "N_h")
      = Raise (KeyError "N_h"))
  /\ (snd (DensityModel.get_parameter (sample_density 1) "R0") = Ok (PyFloat 10)
      /\ snd (DensityModel.get_parameter (sample_density 1) "k_p")
         = Ok (PyFloat 35)
      /\ snd (DensityModel.get_parameter (sample_density 1) "Nh")
         = Raise (KeyError "Nh")).
Proof.
  split.
  - destruct (proj1 get_parameter_lookup _ _ _ (sample_full_constructed 1 0 3 1))
      as (Hknown & Hkp & Hunknown & _).
    split; [|split].
    + apply (Hknown 7%nat). simpl. lia.
    + exact Hkp.
    + apply Hunknown. simpl. intuition discriminate.
  - destruct (proj2 get_parameter_lookup _ _ _ (sample_density_constructed 1))
      as (Hknown & Hkp & Hunknown & _).
    split; [|split].
    + apply (Hknown 3%nat). simpl. lia.
    + exact Hkp.
    + apply Hunknown. simpl. intuition discriminate.
Defined.

(* ================================================================== *)
(** * Powers and work *)

Section PowerFacts.

Context {M : Type} `{Model M}.

Lemma dissipated_power_value (velocities : list R) (model : M) (h : num) :
  snd (get_parameter model "h_eta") = Ok h ->
  work_and_power.dissipated_power velocities model
  = Ok (map (fun v => 24 * PI * to_R h * v ^ 2) velocities).
Proof.
  intros Hh. unfold work_and_power.dissipated_power. rewrite Hh.
  cbn [Py.bind]. f_equal. apply map_ext. intros v. field.
Qed.

(** The loop of [work_elastic] and [work_diss] weights every power with
    its own time point. *)
Lemma work_loop_value (t powers : list R) (work : R) :
  fold_left (fun work tp => work + (fst tp - 0) * snd tp)
            (combine t powers) work
  = work + Rsum (map (fun tp => fst tp * snd tp) (combine t powers)).
Proof.
  revert work. induction (combine t powers) as [|tp l IH]; intros work;
    simpl; [lra|].
  rewrite IH. lra.
Qed.

(** [work_elastic] returns the sum of the products [t_i * power_i]. *)
Lemma work_elastic_value (t displacements velocities : list R) (model : M) :
  work_and_power.work_elastic t displacements velocities model
  = (powers <- work_and_power.transmitted_power displacements velocities model ;;
     Ok (Rsum (map (fun tp => fst tp * snd tp) (combine t powers)))).
Proof.
  unfold work_and_power.work_elastic.
  destruct (work_and_power.transmitted_power displacements velocities model)
    as [powers|e]; simpl; [|reflexivity].
  rewrite work_loop_value. f_equal. lra.
Qed.

(** [work_diss] likewise. *)
Lemma work_diss_value (t velocities : list R) (model : M) :
  work_and_power.work_diss t velocities model
  = (powers <- work_and_power.dissipated_power velocities model ;;
     Ok (Rsum (map (fun tp => fst tp * snd tp) (combine t powers)))).
Proof.
  unfold work_and_power.work_diss.
  destruct (work_and_power.dissipated_power velocities model)
    as [powers|e]; simpl; [|reflexivity].
  rewrite work_loop_value. f_equal. lra.
Qed.

End PowerFacts.

(** C3, as the code has it.  For every velocity array and every model whose
    [h_eta] parameter is set, [dissipated_power] returns elementwise
    [24 * pi * h_eta * v ** 2]. *)
Theorem dissipated_power_elementwise
        {M : Type} `{Model M} (velocities : list R) (model : M) (h : num) :
  snd (get_parameter model "h_eta") = Ok h ->
  work_and_power.dissipated_power velocities model
  = Ok (map (fun v => 24 * PI * to_R h * v ^ 2) velocities).
Proof. apply dissipated_power_value. Qed.

Lemma dissipated_power_elementwise_witness :
  work_and_power.dissipated_power [1; 2] (sample_full 1 0 3 1)
  = Ok (map (fun v => 24 * PI * 1 * v ^ 2) [1; 2]).
Proof.
  apply (dissipated_power_elementwise [1; 2] (sample_full 1 0 3 1) (PyFloat 1)).
  reflexivity.
Defined.

(** C3 as stated fails: [h_eta = 1] and a single velocity 1 give the power
    [24 * pi], not [(24 / 5) * pi]. *)
Lemma dissipated_power_counterexample :
  snd (get_parameter (sample_density 1) "h_eta") = Ok (PyFloat 1)
  /\ work_and_power.dissipated_power [1] (sample_density 1) = Ok [24 * PI]
  /\ work_and_power.dissipated_power [1] (sample_density 1)
     <> Ok (map (fun v => 24 / 5 * PI * 1 * v ^ 2) [1]).
Proof.
  assert (Hh : snd (get_parameter (sample_density 1) "h_eta") = Ok (PyFloat 1))
    by reflexivity.
  assert (Hp : work_and_power.dissipated_power [1] (sample_density 1)
               = Ok [24 * PI]).
  { rewrite (dissipated_power_value [1] (sample_density 1) (PyFloat 1) Hh).
    simpl. replace (24 * PI * 1 * (1 * (1 * 1))) with (24 * PI) by ring.
    reflexivity. }
  split; [exact Hh|]. split; [exact Hp|].
  rewrite Hp. simpl. intros E. inversion E as [E'].
  pose proof PI_RGT_0. lra.
Qed.

(** C1 fails on the code.  Two time points 1 and 2, unit displacements and
    velocities, stiffness 35: the powers are 350 each, the interval-weighted
    sum is 700, [work_elastic] returns 1050; with [h_eta = 1] the dissipated
    powers are [24 * pi] each, the interval-weighted sum is [48 * pi],
    [work_diss] returns [72 * pi]. *)
Theorem cumulative_work_failing_input :
  (work_and_power.transmitted_power [1; 1] [1; 1] (sample_density 1)
   = Ok [350; 350]
   /\ work_and_power.work_elastic [1; 2] [1; 1] [1; 1] (sample_density 1)
      = Ok 1050
   /\ interval_weighted_sum 0 [1; 2] [350; 350] = 700)
  /\ (work_and_power.dissipated_power [1; 1] (sample_density 1)
      = Ok [24 * PI; 24 * PI]
      /\ work_and_power.work_diss [1; 2] [1; 1] (sample_density 1)
         = Ok (72 * PI)
      /\ interval_weighted_sum 0 [1; 2] [24 * PI; 24 * PI] = 48 * PI
      /\ 72 * PI <> 48 * PI).
Proof.
  assert (Ht : work_and_power.transmitted_power [1; 1] [1; 1] (sample_density 1)
               = Ok [350; 350]).
  { unfold work_and_power.transmitted_power. simpl.
    unfold work_and_power.np_mul. simpl.
    replace (5 * 2 * 35 * 1 * 1) with 350 by ring. reflexivity. }
  assert (Hd : work_and_power.dissipated_power [1; 1] (sample_density 1)
               = Ok [24 * PI; 24 * PI]).
  { assert (Hh : snd (get_parameter (sample_density 1) "h_eta")
                 = Ok (PyFloat 1)) by reflexivity.
    rewrite (dissipated_power_value [1; 1] (sample_density 1) (PyFloat 1) Hh).
    simpl. replace (24 * PI * 1 * (1 * (1 * 1))) with (24 * PI) by ring.
    reflexivity. }
  split; [split; [|split]|split; [|split; [|split]]].
  - exact Ht.
  - rewrite work_elastic_value, Ht. simpl. f_equal. ring.
  - simpl. ring.
  - exact Hd.
  - rewrite work_diss_value, Hd. simpl. f_equal. ring.
  - simpl. ring.
  - pose proof PI_RGT_0. lra.
Qed.

(* ================================================================== *)
(** * Loading parameters *)

Module LoaderFacts.

Import parameter_loader.

Lemma list_index_nth_error (names : list string) (x : string) (idx : nat) :
  list_index names x = Some idx -> nth_error names idx = Some x.
Proof.
  revert idx. induction names as [|n names IH]; intros idx; simpl; [discriminate|].
  destruct (String.eqb_spec n x) as [->|Hne].
  - intros E. inversion E. reflexivity.
  - destruct (list_index names x) as [k|]; [|discriminate].
    intros E. inversion E. simpl. now apply IH.
Qed.

Lemma list_set_length {A : Type} (l : list A) (idx : nat) (v : A) :
  List.length (list_set l idx v) = List.length l.
Proof.
  revert idx. induction l as [|a l IH]; intros [|idx]; simpl; auto.
Qed.

Lemma nth_list_set {A : Type} (l : list A) (idx k : nat) (v d : A) :
  nth k (list_set l idx v) d = nth k l d \/ k = idx.
Proof.
  revert idx k. induction l as [|a l IH]; intros [|idx] [|k]; simpl; auto.
  destruct (IH idx k) as [E| ->]; auto.
Qed.

Lemma getitem_IndexError {A : Type} (l : list A) (j : Z) (e : exn) :
  getitem l j = Raise e -> e = IndexError.
Proof.
  unfold getitem.
  destruct (_ <? 0)%Z; [intros E; now inversion E|].
  destruct (nth_error _ _); intros E; now inversion E.
Qed.

Lemma getitem_first {A : Type} (l : list A) (a : A) :
  getitem l 0 = Ok a -> exists l', l = a :: l'.
Proof.
  destruct l as [|b l]; unfold getitem; simpl; intros E; inversion E; eauto.
Qed.

Section Reading.

Variable float_of_string : string -> option R.
Variable int_of_string : string -> option Z.
Variable parameter_names : list string.
Variable model_type : string.

(** What one line can do to the loader's two lists: the lengths stay, an
    entry of [parameters_found] is set only at the position of the name the
    line starts with, and the only exception is [IndexError]. *)
Lemma read_line_spec (st st' : state) (line : string) (r : result unit) :
  read_line float_of_string int_of_string parameter_names model_type st line
  = (st', r) ->
  List.length (parameters st') = List.length (parameters st)
  /\ List.length (parameters_found st') = List.length (parameters_found st)
  /\ (forall idx,
         nth idx (parameters_found st') 0%Z
         = nth idx (parameters_found st) 0%Z
         \/ exists key, nth_error parameter_names idx = Some key
                        /\ file_defines [line] key = true)
  /\ (forall e, r = Raise e -> e = IndexError).
Proof.
  unfold read_line.
  destruct (getitem (split line) 0) as [name|e0] eqn:E0.
  - destruct (getitem_first _ _ E0) as (rest & Hsplit).
    destruct (list_index parameter_names name) as [idx|] eqn:Eidx.
    + assert (Hfound : forall k (l : list Z),
                 nth k (list_set l idx 1%Z) 0%Z = nth k l 0%Z
                 \/ exists key, nth_error parameter_names k = Some key
                                /\ file_defines [line] key = true).
      { intros k l. destruct (nth_list_set l idx k 1%Z 0%Z) as [E| ->]; [now left|].
        right. exists name. split; [now apply list_index_nth_error|].
        unfold file_defines. simpl. rewrite Hsplit, String.eqb_refl.
        reflexivity. }
      destruct (getitem (split line) 2) as [value|e2] eqn:E2.
      * match goal with
        | |- context [match ?p with Some _ => _ | None => _ end] =>
            destruct p
        end; intros E; inversion E; subst; clear E; simpl;
          rewrite ?list_set_length; repeat split; auto; discriminate.
      * intros E; inversion E; subst; clear E; simpl.
        rewrite ?list_set_length. repeat split; auto.
        intros e Ee. inversion Ee; subst.
        now apply getitem_IndexError in E2.
    + intros E; inversion E; subst; clear E; simpl.
      repeat split; auto. discriminate.
  - intros E; inversion E; subst; clear E.
    repeat split; auto.
    intros e Ee. inversion Ee; subst. now apply getitem_IndexError in E0.
Qed.

Lemma file_defines_cons (line : string) (lines : list string) (key : string) :
  file_defines (line :: lines) key
  = file_defines [line] key || file_defines lines key.
Proof. unfold file_defines. simpl. now rewrite orb_false_r. Qed.

Lemma read_lines_spec (lines : list string) :
  forall (st st' : state) (r : result unit),
    read_lines float_of_string int_of_string parameter_names model_type
               st lines = (st', r) ->
    List.length (parameters st') = List.length (parameters st)
    /\ List.length (parameters_found st') = List.length (parameters_found st)
    /\ (forall idx,
           nth idx (parameters_found st') 0%Z
           = nth idx (parameters_found st) 0%Z
           \/ exists key, nth_error parameter_names idx = Some key
                          /\ file_defines lines key = true)
    /\ (forall e, r = Raise e -> e = IndexError).
Proof.
  induction lines as [|line lines IH]; intros st st' r; cbn [read_lines].
  - intros E; inversion E; subst. repeat split; auto. discriminate.
  - destruct (read_line float_of_string int_of_string parameter_names
                        model_type st line) as [st1 r1] eqn:E1.
    destruct (read_line_spec _ _ _ _ E1) as (Hp1 & Hf1 & Hn1 & He1).
    destruct r1 as [u|e1].
    + intros E. destruct (IH _ _ _ E) as (Hp & Hf & Hn & He).
      repeat split; try congruence; auto.
      intros idx.
      destruct (Hn idx) as [E2|(key & Hk & Hd)].
      * destruct (Hn1 idx) as [E3|(key & Hk & Hd)]; [left; congruence|].
        right. exists key. split; [exact Hk|].
        rewrite file_defines_cons, Hd. reflexivity.
      * right. exists key. split; [exact Hk|].
        rewrite file_defines_cons, Hd. apply orb_true_r.
    + intros E; inversion E; subst; clear E.
      repeat split; auto.
      intros idx.
      destruct (Hn1 idx) as [E3|(key & Hk & Hd)]; [now left|].
      right. exists key. split; [exact Hk|].
      rewrite file_defines_cons, Hd. reflexivity.
Qed.

End Reading.

Lemma nth_repeat_zero (n idx : nat) : nth idx (repeat 0%Z n) 0%Z = 0%Z.
Proof.
  revert idx. induction n as [|n IH]; intros [|idx]; simpl; auto.
Qed.

Lemma existsb_zero_false (l : list Z) (idx : nat) :
  existsb (Z.eqb 0) l = false -> (idx < List.length l)%nat ->
  nth idx l 0%Z <> 0%Z.
Proof.
  intros Hex Hidx Hz.
  assert (Hin : In (nth idx l 0%Z) l) by now apply nth_In.
  assert (Ht : existsb (Z.eqb 0) l = true).
  { apply existsb_exists. exists (nth idx l 0%Z). split; [exact Hin|].
    rewrite Hz. reflexivity. }
  congruence.
Qed.

Section Loading.

Variable float_of_string : string -> option R.
Variable int_of_string : string -> option Z.

(** A list of values comes back only with every name of the full model
    defined in the file. *)
Lemma load_full_Ok (parameter_file : list string) (out : list string)
      (ps : list num) :
  load_parameters float_of_string int_of_string "full model" parameter_file
  = (out, Ok ps) ->
  List.length ps = 13%nat
  /\ forall key, In key full_model_parameter_names ->
                 file_defines parameter_file key = true.
Proof.
  unfold load_parameters. simpl String.eqb. cbv iota.
  match goal with
  | |- context [read_lines ?a ?b ?c ?d ?s ?l] =>
      destruct (read_lines a b c d s l) as [st r] eqn:E
  end.
  destruct (read_lines_spec _ _ _ _ _ _ _ _ E) as (Hp & Hf & Hn & _).
  simpl in Hp, Hf.
  destruct r as [u|e]; [|intros E'; inversion E'].
  destruct (existsb (Z.eqb 0) (parameters_found st)) eqn:Hex;
    intros E'; inversion E'; subst; clear E'.
  split; [exact Hp|].
  intros key Hkey.
  destruct (In_nth_error _ _ Hkey) as (idx & Hidx).
  assert (Hlt : (idx < 13)%nat).
  { change 13%nat with (List.length full_model_parameter_names).
    apply nth_error_Some. congruence. }
  pose proof (existsb_zero_false _ idx Hex ltac:(lia)) as Hnz.
  destruct (Hn idx) as [E0|(key' & Hk' & Hd)].
  - exfalso. apply Hnz. rewrite E0. simpl.
    apply (nth_repeat_zero 13 idx).
  - congruence.
Qed.

(** The ways [load_parameters] can end. *)
Lemma load_full_outcome (parameter_file : list string) :
  (exists out ps,
      load_parameters float_of_string int_of_string "full model"
                      parameter_file = (out, Ok ps))
  \/ (exists out,
         load_parameters float_of_string int_of_string "full model"
                         parameter_file
         = (out ++ [error_incomplete "full model"], Raise (SystemExit 1)))
  \/ (exists out,
         load_parameters float_of_string int_of_string "full model"
                         parameter_file = (out, Raise IndexError)).
Proof.
  unfold load_parameters. simpl String.eqb. cbv iota.
  match goal with
  | |- context [read_lines ?a ?b ?c ?d ?s ?l] =>
      destruct (read_lines a b c d s l) as [st r] eqn:E
  end.
  destruct (read_lines_spec _ _ _ _ _ _ _ _ E) as (_ & _ & _ & He).
  destruct r as [u|e].
  - destruct (existsb (Z.eqb 0) (parameters_found st)); eauto.
  - rewrite (He e eq_refl). eauto.
Qed.

End Loading.

End LoaderFacts.

(* ================================================================== *)
(** * More on loading parameters *)

Module LoaderLines.

Import parameter_loader.

Lemma list_index_bound (names : list string) (x : string) (idx : nat) :
  list_index names x = Some idx -> (idx < List.length names)%nat.
Proof.
  intros E. apply LoaderFacts.list_index_nth_error in E.
  apply nth_error_Some. congruence.
Qed.

Lemma nth_list_set_same {A : Type} (l : list A) (idx : nat) (v d : A) :
  (idx < List.length l)%nat -> nth idx (list_set l idx v) d = v.
Proof.
  revert idx. induction l as [|a l IH]; intros [|idx]; simpl; intros H;
    try lia; auto. apply IH. lia.
Qed.

Lemma nth_list_set_other {A : Type} (l : list A) (idx k : nat) (v d : A) :
  k <> idx -> nth k (list_set l idx v) d = nth k l d.
Proof.
  revert idx k. induction l as [|a l IH]; intros [|idx] [|k]; simpl; intros H;
    try congruence; auto.
Qed.

Lemma read_lines_app (float_of_string : string -> option R)
      (int_of_string : string -> option Z) (names : list string)
      (model_type : string) (lines1 lines2 : list string) (st : state) :
  read_lines float_of_string int_of_string names model_type st
             (lines1 ++ lines2)
  = match read_lines float_of_string int_of_string names model_type st lines1
    with
    | (st', Ok _) =>
        read_lines float_of_string int_of_string names model_type st' lines2
    | (st', Raise e) => (st', Raise e)
    end.
Proof.
  revert st. induction lines1 as [|line lines1 IH]; intros st; simpl;
    [reflexivity|].
  destruct (read_line float_of_string int_of_string names model_type st line)
    as [st1 [u|e]]; [apply IH|reflexivity].
Qed.

Section Lines.

Variable float_of_string : string -> option R.
Variable int_of_string : string -> option Z.
Variable names : list string.
Variable model_type : string.

Local Abbreviation read_line' :=
  (read_line float_of_string int_of_string names model_type).
Local Abbreviation read_lines' :=
  (read_lines float_of_string int_of_string names model_type).

(** The five ways through the body of the loop. *)
Lemma read_line_empty (st : state) (line : string) :
  split line = [] -> read_line' st line = (st, Raise IndexError).
Proof. intros E. unfold read_line. rewrite E. reflexivity. Qed.

Lemma read_line_unknown (st : state) (line name : string) (rest : list string) :
  split line = name :: rest ->
  list_index names name = None ->
  read_line' st line = (print st (warning name model_type), Ok tt).
Proof.
  intros E Hn. unfold read_line. rewrite E.
  change (getitem (name :: rest) 0) with (Ok name). cbv iota beta.
  rewrite Hn. reflexivity.
Qed.

Lemma read_line_short (st : state) (line name : string) (rest : list string)
      (idx : nat) :
  split line = name :: rest ->
  list_index names name = Some idx ->
  (List.length rest < 2)%nat ->
  read_line' st line
  = ({| parameters := parameters st;
        parameters_found := list_set (parameters_found st) idx 1%Z;
        stdout := stdout st |}, Raise IndexError).
Proof.
  intros E Hn Hl. unfold read_line. rewrite E.
  change (getitem (name :: rest) 0) with (Ok name). cbv iota beta.
  rewrite Hn.
  destruct rest as [|t1 [|t2 rest]]; simpl in Hl; try lia; reflexivity.
Qed.

Lemma read_line_value (st : state) (line name t1 value : string)
      (rest : list string) (idx : nat) :
  split line = name :: t1 :: value :: rest ->
  list_index names name = Some idx ->
  read_line' st line
  = match parsed_value float_of_string int_of_string name value with
    | Some v =>
        ({| parameters := list_set (parameters st) idx v;
            parameters_found := list_set (parameters_found st) idx 1%Z;
            stdout := stdout st |}, Ok tt)
    | None =>
        ({| parameters := parameters st;
            parameters_found := list_set (parameters_found st) idx 1%Z;
            stdout := stdout st ++ [warning name model_type] |}, Ok tt)
    end.
Proof.
  intros E Hn. unfold read_line. rewrite E.
  change (getitem (name :: t1 :: value :: rest) 0) with (Ok name).
  change (getitem (name :: t1 :: value :: rest) 2) with (Ok value).
  cbv iota beta. rewrite Hn. unfold parsed_value.
  destruct (String.eqb name "N_h" || String.eqb name "N_max");
    [destruct (int_of_string value)|destruct (float_of_string value)];
    reflexivity.
Qed.

(** A readable line never raises. *)
Lemma read_line_readable (st : state) (line : string) :
  line_readable names line = true ->
  exists st', read_line' st line = (st', Ok tt).
Proof.
  unfold line_readable.
  destruct (split line) as [|name rest] eqn:E; [discriminate|].
  destruct (list_index names name) as [idx|] eqn:Hn.
  - intros Hl. apply Nat.leb_le in Hl.
    destruct rest as [|t1 [|value rest]]; simpl in Hl; try lia.
    rewrite (read_line_value st line name t1 value rest idx E Hn).
    destruct (parsed_value _ _ _ _); eauto.
  - intros _. rewrite (read_line_unknown st line name rest E Hn). eauto.
Qed.

(** An unreadable line raises [IndexError]. *)
Lemma read_line_unreadable (st : state) (line : string) :
  line_readable names line = false ->
  exists st', read_line' st line = (st', Raise IndexError).
Proof.
  unfold line_readable.
  destruct (split line) as [|name rest] eqn:E.
  - intros _. rewrite (read_line_empty st line E). eauto.
  - destruct (list_index names name) as [idx|] eqn:Hn; [|discriminate].
    intros Hl. apply Nat.leb_gt in Hl.
    rewrite (read_line_short st line name rest idx E Hn Hl). eauto.
Qed.

Lemma read_lines_readable (lines : list string) :
  forall st, (forall line, In line lines -> line_readable names line = true) ->
             exists st', read_lines' st lines = (st', Ok tt).
Proof.
  induction lines as [|line lines IH]; intros st Hall; cbn [read_lines];
    [eauto|].
  destruct (read_line_readable st line) as (st1 & ->);
    [apply Hall; now left|].
  apply IH. intros l Hl. apply Hall. now right.
Qed.


Lemma file_defines_single (line key : string) :
  file_defines [line] key = true <-> hd_error (split line) = Some key.
Proof.
  unfold file_defines. simpl. rewrite orb_false_r.
  destruct (split line) as [|name rest]; simpl.
  - split; discriminate.
  - split.
    + intros E. apply String.eqb_eq in E. now subst.
    + intros E. inversion E. apply String.eqb_refl.
Qed.

(** What a line that is read without exception does to the entry of a
    name in [parameters_found]. *)
Lemma read_line_found (st st1 : state) (line key : string) (idx : nat) :
  read_line' st line = (st1, Ok tt) ->
  list_index names key = Some idx ->
  (idx < List.length (parameters_found st))%nat ->
  List.length (parameters_found st1) = List.length (parameters_found st)
  /\ List.length (parameters st1) = List.length (parameters st)
  /\ (nth idx (parameters_found st) 0%Z = 1%Z
      \/ file_defines [line] key = true ->
      nth idx (parameters_found st1) 0%Z = 1%Z).
Proof.
  intros E Hk Hidx.
  destruct (split line) as [|name rest] eqn:Es.
  - rewrite (read_line_empty st line Es) in E. discriminate.
  - assert (Hdef : file_defines [line] key = true -> name = key).
    { rewrite file_defines_single, Es. simpl. congruence. }
    destruct (list_index names name) as [idx'|] eqn:Hn.
    + destruct rest as [|t1 [|value rest]].
      * rewrite (read_line_short st line name [] idx' Es Hn) in E
          by (simpl; lia). discriminate.
      * rewrite (read_line_short st line name [t1] idx' Es Hn) in E
          by (simpl; lia). discriminate.
      * rewrite (read_line_value st line name t1 value rest idx' Es Hn) in E.
        assert (Hset : nth idx (parameters_found st) 0%Z = 1%Z
                       \/ file_defines [line] key = true ->
                       nth idx (list_set (parameters_found st) idx' 1%Z) 0%Z
                       = 1%Z).
        { intros [H1|H2].
          - destruct (Nat.eq_dec idx idx') as [->|Hne].
            + now apply nth_list_set_same.
            + now rewrite nth_list_set_other.
          - apply Hdef in H2. subst name.
            assert (idx' = idx) by congruence. subst idx'.
            now apply nth_list_set_same. }
        destruct (parsed_value _ _ _ _); inversion E; subst; clear E; simpl;
          rewrite ?LoaderFacts.list_set_length; auto.
    + rewrite (read_line_unknown st line name rest Es Hn) in E.
      inversion E; subst; clear E. simpl. repeat split; auto.
      intros [H1|H2]; [exact H1|].
      apply Hdef in H2. subst name. congruence.
Qed.

Lemma read_lines_found (lines : list string) :
  forall (st st' : state) (key : string) (idx : nat),
    read_lines' st lines = (st', Ok tt) ->
    list_index names key = Some idx ->
    (idx < List.length (parameters_found st))%nat ->
    List.length (parameters_found st') = List.length (parameters_found st)
    /\ List.length (parameters st') = List.length (parameters st)
    /\ (nth idx (parameters_found st) 0%Z = 1%Z
        \/ file_defines lines key = true ->
        nth idx (parameters_found st') 0%Z = 1%Z).
Proof.
  induction lines as [|line lines IH]; intros st st' key idx;
    cbn [read_lines].
  - intros E Hk Hidx. inversion E; subst. repeat split; auto.
    intros [H|H]; [exact H|discriminate].
  - destruct (read_line' st line) as [st1 [[]|e]] eqn:E1; [|discriminate].
    intros E Hk Hidx.
    destruct (read_line_found st st1 line key idx E1 Hk Hidx)
      as (Hl1 & Hp1 & H1).
    destruct (IH st1 st' key idx E Hk ltac:(lia)) as (Hl & Hp & H).
    repeat split; try congruence.
    intros Hor. apply H.
    rewrite LoaderFacts.file_defines_cons in Hor.
    destruct Hor as [H0|Hd]; [left; apply H1; now left|].
    apply orb_true_iff in Hd. destruct Hd as [Hd|Hd]; [|now right].
    left. apply H1. now right.
Qed.

(** A line may change the value stored for [key] only if it starts with
    [key] and its third token can be read. *)
Lemma read_line_keeps_value (st st1 : state) (r : result unit)
      (line key : string) (idx : nat) (d : num) :
  read_line' st line = (st1, r) ->
  list_index names key = Some idx ->
  (forall t1 value rest,
      split line = key :: t1 :: value :: rest ->
      parsed_value float_of_string int_of_string key value = None) ->
  nth idx (parameters st1) d = nth idx (parameters st) d.
Proof.
  intros E Hk Hno.
  destruct (split line) as [|name rest] eqn:Es.
  - rewrite (read_line_empty st line Es) in E. now inversion E; subst.
  - destruct (list_index names name) as [idx'|] eqn:Hn.
    + destruct rest as [|t1 [|value rest]].
      * rewrite (read_line_short st line name [] idx' Es Hn) in E
          by (simpl; lia). now inversion E; subst.
      * rewrite (read_line_short st line name [t1] idx' Es Hn) in E
          by (simpl; lia). now inversion E; subst.
      * rewrite (read_line_value st line name t1 value rest idx' Es Hn) in E.
        destruct (parsed_value float_of_string int_of_string name value)
          as [v|] eqn:Ev; inversion E; subst; clear E; simpl; [|reflexivity].
        apply nth_list_set_other. intros ->.
        assert (name = key).
        { apply LoaderFacts.list_index_nth_error in Hn, Hk. congruence. }
        subst name. rewrite (Hno t1 value rest eq_refl) in Ev. discriminate.
    + rewrite (read_line_unknown st line name rest Es Hn) in E.
      now inversion E; subst.
Qed.

Lemma read_lines_keep_value (lines : list string) :
  forall (st st' : state) (r : result unit) (key : string) (idx : nat)
         (d : num),
    read_lines' st lines = (st', r) ->
    list_index names key = Some idx ->
    (forall line t1 value rest,
        In line lines ->
        split line = key :: t1 :: value :: rest ->
        parsed_value float_of_string int_of_string key value = None) ->
    nth idx (parameters st') d = nth idx (parameters st) d.
Proof.
  induction lines as [|line lines IH]; intros st st' r key idx d;
    cbn [read_lines].
  - intros E _ _. now inversion E; subst.
  - destruct (read_line' st line) as [st1 r1] eqn:E1.
    intros E Hk Hno.
    assert (H1 : nth idx (parameters st1) d = nth idx (parameters st) d).
    { apply (read_line_keeps_value st st1 r1 line key idx d E1 Hk).
      intros t1 value rest. apply Hno. now left. }
    destruct r1 as [u|e].
    + rewrite <- H1. apply (IH st1 st' r key idx d E Hk).
      intros l t1 value rest Hl. apply Hno. now right.
    + inversion E; subst. exact H1.
Qed.

(** What has been printed stays printed. *)
Lemma read_line_stdout (st st1 : state) (r : result unit) (line : string) :
  read_line' st line = (st1, r) ->
  exists more, stdout st1 = stdout st ++ more.
Proof.
  unfold read_line.
  destruct (getitem (split line) 0) as [name|e0].
  - destruct (list_index names name) as [idx|].
    + destruct (getitem (split line) 2) as [value|e2].
      * match goal with
        | |- context [match ?p with Some _ => _ | None => _ end] =>
            destruct p
        end; intros E; inversion E; subst; simpl.
        -- exists []. now rewrite app_nil_r.
        -- eauto.
      * intros E; inversion E; subst; simpl. exists []. now rewrite app_nil_r.
    + intros E; inversion E; subst; simpl. eauto.
  - intros E; inversion E; subst. exists []. now rewrite app_nil_r.
Qed.

Lemma read_lines_stdout (lines : list string) :
  forall (st st' : state) (r : result unit),
    read_lines' st lines = (st', r) ->
    exists more, stdout st' = stdout st ++ more.
Proof.
  induction lines as [|line lines IH]; intros st st' r; cbn [read_lines].
  - intros E; inversion E; subst. exists []. now rewrite app_nil_r.
  - destruct (read_line' st line) as [st1 r1] eqn:E1.
    destruct (read_line_stdout st st1 r1 line E1) as (m1 & H1).
    destruct r1 as [u|e].
    + intros E. destruct (IH st1 st' r E) as (m2 & H2).
      exists (m1 ++ m2). now rewrite H2, H1, app_assoc.
    + intros E; inversion E; subst. eauto.
Qed.

(** The two lists and the exception do not depend on what was printed. *)
Lemma read_line_values (st1 st2 st1' st2' : state) (r1 r2 : result unit)
      (line : string) :
  parameters st1 = parameters st2 ->
  parameters_found st1 = parameters_found st2 ->
  read_line' st1 line = (st1', r1) ->
  read_line' st2 line = (st2', r2) ->
  parameters st1' = parameters st2'
  /\ parameters_found st1' = parameters_found st2' /\ r1 = r2.
Proof.
  intros Hp Hf. unfold read_line.
  destruct (getitem (split line) 0) as [name|e0].
  - destruct (list_index names name) as [idx|].
    + destruct (getitem (split line) 2) as [value|e2].
      * match goal with
        | |- context [match ?p with Some _ => _ | None => _ end] =>
            destruct p
        end; intros E1 E2; inversion E1; inversion E2; subst; simpl;
          rewrite ?Hp, ?Hf; auto.
      * intros E1 E2; inversion E1; inversion E2; subst; simpl;
          rewrite ?Hp, ?Hf; auto.
    + intros E1 E2; inversion E1; inversion E2; subst; simpl; auto.
  - intros E1 E2; inversion E1; inversion E2; subst; auto.
Qed.

Lemma read_lines_values (lines : list string) :
  forall (st1 st2 st1' st2' : state) (r1 r2 : result unit),
    parameters st1 = parameters st2 ->
    parameters_found st1 = parameters_found st2 ->
    read_lines' st1 lines = (st1', r1) ->
    read_lines' st2 lines = (st2', r2) ->
    parameters st1' = parameters st2'
    /\ parameters_found st1' = parameters_found st2' /\ r1 = r2.
Proof.
  induction lines as [|line lines IH]; intros st1 st2 st1' st2' r1 r2 Hp Hf;
    cbn [read_lines].
  - intros E1 E2; inversion E1; inversion E2; subst; auto.
  - destruct (read_line' st1 line) as [sa ra] eqn:Ea.
    destruct (read_line' st2 line) as [sb rb] eqn:Eb.
    destruct (read_line_values st1 st2 sa sb ra rb line Hp Hf Ea Eb)
      as (Hp' & Hf' & Hr). subst rb.
    destruct ra as [u|e].
    + apply IH; assumption.
    + intros E1 E2; inversion E1; inversion E2; subst; auto.
Qed.

End Lines.

End LoaderLines.

Lemma load_parameters_schema (float_of_string : string -> option R)
      (int_of_string : string -> option Z) (model_type : string)
      (parameter_file : list string) :
  parameter_loader.load_parameters float_of_string int_of_string model_type
                                   parameter_file
  = match schema model_type with
    | None => ([parameter_loader.error_model_type], Raise (SystemExit 1))
    | Some names =>
        match parameter_loader.read_lines float_of_string int_of_string names
                model_type
                {| parameter_loader.parameters :=
                     repeat (PyFloat 0) (List.length names);
                   parameter_loader.parameters_found :=
                     repeat 0%Z (List.length names);
                   parameter_loader.stdout := [] |}
                parameter_file with
        | (st, Raise e) => (parameter_loader.stdout st, Raise e)
        | (st, Ok _) =>
            if existsb (Z.eqb 0) (parameter_loader.parameters_found st)
            then (parameter_loader.stdout st
                  ++ [parameter_loader.error_incomplete model_type],
                  Raise (SystemExit 1))
            else (parameter_loader.stdout st,
                  Ok (parameter_loader.parameters st))
        end
    end.
Proof.
  unfold parameter_loader.load_parameters, schema.
  destruct (String.eqb model_type "full model"); [reflexivity|].
  destruct (String.eqb model_type "density model"); reflexivity.
Qed.

(** Both schemas list every name once. *)
Lemma schema_positions (model_type : string) (names : list string) (idx : nat) :
  schema model_type = Some names ->
  (idx < List.length names)%nat ->
  parameter_loader.list_index names (nth idx names "") = Some idx.
Proof.
  unfold schema.
  destruct (String.eqb model_type "full model").
  - intros E; inversion E; subst; clear E. simpl.
    intros H. do 13 (destruct idx as [|idx]; [reflexivity|]). lia.
  - destruct (String.eqb model_type "density model"); [|discriminate].
    intros E; inversion E; subst; clear E. simpl.
    intros H. do 4 (destruct idx as [|idx]; [reflexivity|]). lia.
Qed.

Lemma schema_index (model_type : string) (names : list string) (key : string) :
  schema model_type = Some names ->
  In key names ->
  exists idx, parameter_loader.list_index names key = Some idx
              /\ (idx < List.length names)%nat.
Proof.
  intros Hs Hin. destruct (In_nth names key "" Hin) as (idx & Hlt & Hnth).
  exists idx. split; [|exact Hlt].
  rewrite <- Hnth. now apply (schema_positions model_type).
Qed.

Lemma existsb_zero_all_one (l : list Z) :
  (forall idx, (idx < List.length l)%nat -> nth idx l 0%Z = 1%Z) ->
  existsb (Z.eqb 0) l = false.
Proof.
  induction l as [|z l IH]; intros H; simpl; [reflexivity|].
  rewrite (H O ltac:(simpl; lia) : z = 1%Z). simpl.
  apply IH. intros idx Hidx. apply (H (S idx)). simpl. lia.
Qed.

Lemma read_lines_Ok_readable (float_of_string : string -> option R)
      (int_of_string : string -> option Z) (names : list string)
      (model_type : string) (lines : list string) :
  forall st st' u,
    parameter_loader.read_lines float_of_string int_of_string names
                                model_type st lines = (st', Ok u) ->
    forall line, In line lines -> line_readable names line = true.
Proof.
  induction lines as [|l lines IH]; intros st st' u; cbn [parameter_loader.read_lines].
  - intros _ line [].
  - destruct (parameter_loader.read_line float_of_string int_of_string names
                model_type st l) as [st1 r1] eqn:E1.
    destruct r1 as [u1|e1]; [|discriminate].
    intros E line [<-|Hin].
    + destruct (line_readable names l) eqn:Hr; [reflexivity|].
      destruct (LoaderLines.read_line_unreadable float_of_string int_of_string
                  names model_type st l Hr) as (st2 & E2).
      rewrite E2 in E1. discriminate.
    + exact (IH st1 st' u E line Hin).
Qed.

(** X1.  [load_parameters] returns a list exactly when the loop can read
    every line of the file (a first token, and a third one after a parameter
    name) and every name of the model type's schema starts some line; the
    list has one entry per name. *)
Theorem load_parameters_succeeds_iff
        (float_of_string : string -> option R)
        (int_of_string : string -> option Z)
        (model_type : string) (names : list string)
        (parameter_file : list string) :
  schema model_type = Some names ->
  ((exists out ps,
       parameter_loader.load_parameters float_of_string int_of_string
         model_type parameter_file = (out, Ok ps))
   <-> (forall line, In line parameter_file ->
                     line_readable names line = true)
       /\ (forall key, In key names -> file_defines parameter_file key = true))
  /\ (forall out ps,
         parameter_loader.load_parameters float_of_string int_of_string
           model_type parameter_file = (out, Ok ps) ->
         List.length ps = List.length names).
Proof.
  intros Hs. rewrite load_parameters_schema, Hs.
  match goal with
  | |- context [parameter_loader.read_lines ?a ?b ?c ?d ?s ?l] =>
      destruct (parameter_loader.read_lines a b c d s l) as [st r] eqn:E
  end.
  assert (Hinit : forall n idx, nth idx (repeat 0%Z n) 0%Z = 0%Z)
    by (intros; apply LoaderFacts.nth_repeat_zero).
  split; [split|].
  - intros (out & ps & E').
    destruct r as [u|e]; [|discriminate].
    destruct (existsb (Z.eqb 0) (parameter_loader.parameters_found st)) eqn:Hex;
      [discriminate|].
    split; [exact (read_lines_Ok_readable _ _ _ _ _ _ _ _ E)|].
    intros key Hkey.
    destruct (LoaderFacts.read_lines_spec _ _ _ _ _ _ _ _ E)
      as (_ & Hf & Hn & _). simpl in Hf. rewrite repeat_length in Hf.
    destruct (schema_index _ _ key Hs Hkey) as (idx & Hidx & Hlt).
    pose proof (LoaderFacts.existsb_zero_false _ idx Hex ltac:(lia)) as Hnz.
    destruct (Hn idx) as [E0|(key' & Hk' & Hd)].
    + exfalso. apply Hnz. rewrite E0. simpl. apply Hinit.
    + apply LoaderFacts.list_index_nth_error in Hidx. congruence.
  - intros [Hread Hdef].
    destruct (LoaderLines.read_lines_readable float_of_string int_of_string
                names model_type parameter_file
                {| parameter_loader.parameters :=
                     repeat (PyFloat 0) (List.length names);
                   parameter_loader.parameters_found :=
                     repeat 0%Z (List.length names);
                   parameter_loader.stdout := [] |} Hread) as (st' & E').
    rewrite E' in E. inversion E; subst st' r; clear E.
    assert (Hall : existsb (Z.eqb 0) (parameter_loader.parameters_found st)
                   = false).
    { destruct (LoaderFacts.read_lines_spec _ _ _ _ _ _ _ _ E')
        as (_ & Hlen & _). simpl in Hlen. rewrite repeat_length in Hlen.
      apply existsb_zero_all_one. intros idx Hidx. rewrite Hlen in Hidx.
      destruct (LoaderLines.read_lines_found float_of_string int_of_string
                  names model_type parameter_file _ st (nth idx names "") idx E')
        as (_ & _ & H).
      - now apply (schema_positions model_type).
      - simpl. now rewrite repeat_length.
      - apply H. right. apply Hdef. now apply nth_In. }
    rewrite Hall. eauto.
  - intros out ps E'.
    destruct r as [u|e]; [|discriminate].
    destruct (existsb (Z.eqb 0) (parameter_loader.parameters_found st));
      [discriminate|].
    inversion E'; subst.
    destruct (LoaderFacts.read_lines_spec _ _ _ _ _ _ _ _ E) as (Hp & _).
    rewrite Hp. simpl. apply repeat_length.
Qed.

Section LoaderOutcomes.

Variable float_of_string : string -> option R.
Variable int_of_string : string -> option Z.
Variable model_type : string.
Variable names : list string.
Hypothesis Hschema : schema model_type = Some names.

Local Abbreviation load :=
  (parameter_loader.load_parameters float_of_string int_of_string model_type).
Local Abbreviation lines_from_start :=
  (parameter_loader.read_lines float_of_string int_of_string names model_type
     {| parameter_loader.parameters := repeat (PyFloat 0) (List.length names);
        parameter_loader.parameters_found := repeat 0%Z (List.length names);
        parameter_loader.stdout := [] |}).

Lemma load_Ok_read_lines (parameter_file out : list string) (ps : list num) :
  load parameter_file = (out, Ok ps) ->
  exists st, lines_from_start parameter_file = (st, Ok tt)
             /\ parameter_loader.parameters st = ps
             /\ parameter_loader.stdout st = out.
Proof.
  rewrite load_parameters_schema, Hschema.
  destruct (lines_from_start parameter_file) as [st [[]|e]]; [|discriminate].
  destruct (existsb _ _); [discriminate|].
  intros E; inversion E; subst. eauto.
Qed.

Lemma load_Raise_read_lines (parameter_file : list string)
      (st : parameter_loader.state) (e : exn) :
  lines_from_start parameter_file = (st, Raise e) ->
  load parameter_file = (parameter_loader.stdout st, Raise e).
Proof.
  intros E. now rewrite load_parameters_schema, Hschema, E.
Qed.

Lemma last_definition_value (pre post : list string)
      (line name t1 value : string) (rest : list string) (idx : nat)
      (v : num) (out : list string) (ps : list num) :
  load (pre ++ line :: post) = (out, Ok ps) ->
  parameter_loader.split line = name :: t1 :: value :: rest ->
  parameter_loader.list_index names name = Some idx ->
  parsed_value float_of_string int_of_string name value = Some v ->
  (forall l, In l post -> hd_error (parameter_loader.split l) <> Some name) ->
  nth idx ps (PyFloat 0) = v.
Proof.
  intros E Es Hidx Hv Hpost.
  destruct (load_Ok_read_lines _ _ _ E) as (st & Er & <- & _).
  rewrite LoaderLines.read_lines_app in Er.
  destruct (lines_from_start pre) as [st1 [[]|e1]] eqn:E1; [|discriminate].
  cbn [parameter_loader.read_lines] in Er.
  rewrite (LoaderLines.read_line_value float_of_string int_of_string names
             model_type st1 line name t1 value rest idx Es Hidx), Hv in Er.
  rewrite (LoaderLines.read_lines_keep_value float_of_string int_of_string
             names model_type post _ st (Ok tt) name idx (PyFloat 0) Er Hidx).
  - simpl. apply LoaderLines.nth_list_set_same.
    destruct (LoaderFacts.read_lines_spec _ _ _ _ _ _ _ _ E1) as (Hp & _).
    rewrite Hp. simpl. rewrite repeat_length.
    now apply (LoaderLines.list_index_bound names name).
  - intros l t1' value' rest' Hl Hsplit. exfalso.
    apply (Hpost l Hl). now rewrite Hsplit.
Qed.

Lemma warning_printed (lines : list string) :
  forall (st st' : parameter_loader.state) (line name t1 value : string)
         (rest : list string) (idx : nat),
    parameter_loader.read_lines float_of_string int_of_string names model_type
                                st lines = (st', Ok tt) ->
    In line lines ->
    parameter_loader.split line = name :: t1 :: value :: rest ->
    parameter_loader.list_index names name = Some idx ->
    parsed_value float_of_string int_of_string name value = None ->
    In (parameter_loader.warning name model_type) (parameter_loader.stdout st').
Proof.
  intros st st' line name t1 value rest idx E Hin Es Hidx Hv.
  destruct (in_split line lines Hin) as (l1 & l2 & ->).
  rewrite LoaderLines.read_lines_app in E.
  destruct (parameter_loader.read_lines float_of_string int_of_string names
              model_type st l1) as [st1 [[]|e1]]; [|discriminate].
  cbn [parameter_loader.read_lines] in E.
  rewrite (LoaderLines.read_line_value float_of_string int_of_string names
             model_type st1 line name t1 value rest idx Es Hidx), Hv in E.
  destruct (LoaderLines.read_lines_stdout _ _ _ _ _ _ _ _ E) as (more & ->).
  simpl. apply in_or_app. left. apply in_or_app. right. now left.
Qed.

Lemma load_Ok_defines (parameter_file out : list string) (ps : list num)
      (key : string) :
  load parameter_file = (out, Ok ps) ->
  In key names ->
  exists line name_rest,
    In line parameter_file
    /\ parameter_loader.split line = key :: name_rest
    /\ line_readable names line = true.
Proof.
  intros E Hkey.
  destruct (load_Ok_read_lines _ _ _ E) as (st & Er & _ & _).
  pose proof E as E'. rewrite load_parameters_schema, Hschema, Er in E'.
  destruct (existsb (Z.eqb 0) (parameter_loader.parameters_found st)) eqn:Hex;
    [discriminate|].
  destruct (LoaderFacts.read_lines_spec _ _ _ _ _ _ _ _ Er)
    as (_ & Hf & Hn & _). simpl in Hf. rewrite repeat_length in Hf.
  destruct (schema_index _ _ key Hschema Hkey) as (idx & Hidx & Hlt).
  pose proof (LoaderFacts.existsb_zero_false _ idx Hex ltac:(lia)) as Hnz.
  destruct (Hn idx) as [E0|(key' & Hk' & Hd)].
  - exfalso. apply Hnz. rewrite E0. simpl. apply LoaderFacts.nth_repeat_zero.
  - apply LoaderFacts.list_index_nth_error in Hidx.
    assert (key' = key) by congruence. subst key'.
    unfold file_defines in Hd. apply existsb_exists in Hd.
    destruct Hd as (line & Hin & Hline).
    destruct (parameter_loader.split line) as [|name rest] eqn:Es;
      [discriminate|].
    apply String.eqb_eq in Hline. subst name.
    exists line, rest. repeat split; auto.
    exact (read_lines_Ok_readable _ _ _ _ _ _ _ _ Er line Hin).
Qed.

End LoaderOutcomes.

Lemma load_outcome (float_of_string : string -> option R)
      (int_of_string : string -> option Z) (model_type : string)
      (names : list string) (parameter_file : list string) :
  schema model_type = Some names ->
  (exists out ps,
      parameter_loader.load_parameters float_of_string int_of_string
        model_type parameter_file = (out, Ok ps))
  \/ (exists out,
         parameter_loader.load_parameters float_of_string int_of_string
           model_type parameter_file
         = (out ++ [parameter_loader.error_incomplete model_type],
            Raise (SystemExit 1)))
  \/ (exists out,
         parameter_loader.load_parameters float_of_string int_of_string
           model_type parameter_file = (out, Raise IndexError)).
Proof.
  intros Hs. rewrite load_parameters_schema, Hs.
  match goal with
  | |- context [parameter_loader.read_lines ?a ?b ?c ?d ?s ?l] =>
      destruct (parameter_loader.read_lines a b c d s l) as [st r] eqn:E
  end.
  destruct (LoaderFacts.read_lines_spec _ _ _ _ _ _ _ _ E) as (_ & _ & _ & He).
  destruct r as [u|e].
  - destruct (existsb (Z.eqb 0) (parameter_loader.parameters_found st)); eauto.
  - rewrite (He e eq_refl). eauto.
Qed.

(** X2.  A parameter file in which some name of the density-model schema
    starts no line gives no list: [load_parameters('density model', file)]
    leaves with [SystemExit(1)] after printing the error message, or with the
    [IndexError] of an unreadable line, and [DensityModel(file, k_p)] ends in
    the same exception. *)
Theorem load_parameters_density_model
        (float_of_string : string -> option R)
        (int_of_string : string -> option Z)
        (parameter_file : list string) (key : string) :
  In key parameter_loader.density_model_parameter_names ->
  file_defines parameter_file key = false ->
  exists out e,
    parameter_loader.load_parameters float_of_string int_of_string
      "density model" parameter_file = (out, Raise e)
    /\ ((e = SystemExit 1
         /\ last out "" = parameter_loader.error_incomplete "density model")
        \/ e = IndexError)
    /\ forall pillar_stiffness,
        DensityModel.init float_of_string int_of_string parameter_file
                          pillar_stiffness = (out, Raise e).
Proof.
  intros Hkey Hmissing.
  destruct (load_outcome float_of_string int_of_string "density model"
              parameter_loader.density_model_parameter_names parameter_file
              eq_refl)
    as [(out & ps & E)|[(out & E)|(out & E)]].
  - destruct (load_Ok_defines float_of_string int_of_string "density model"
                _ eq_refl parameter_file out ps key E Hkey)
      as (line & rest & Hin & Es & _).
    assert (Hd : file_defines parameter_file key = true).
    { unfold file_defines. apply existsb_exists. exists line.
      split; [exact Hin|]. rewrite Es. apply String.eqb_refl. }
    congruence.
  - eexists _, (SystemExit 1). split; [exact E|]. split.
    + left. split; [reflexivity|apply last_last].
    + intros kp. unfold DensityModel.init. rewrite E. reflexivity.
  - exists out, IndexError. split; [exact E|]. split; [now right|].
    intros kp. unfold DensityModel.init. rewrite E. reflexivity.
Qed.

Lemma load_parameters_density_model_witness :
  exists out e,
    parameter_loader.load_parameters sample_float_of_string
      sample_int_of_string "density model" sample_file = (out, Raise e)
    /\ ((e = SystemExit 1
         /\ last out "" = parameter_loader.error_incomplete "density model")
        \/ e = IndexError)
    /\ forall pillar_stiffness,
        DensityModel.init sample_float_of_string sample_int_of_string
                          sample_file pillar_stiffness = (out, Raise e).
Proof.
  apply (load_parameters_density_model sample_float_of_string
           sample_int_of_string sample_file "xi*NM*rho_a(t=0)^2").
  - simpl. tauto.
  - reflexivity.
Defined.

(** X3.  For a model type other than ['full model'] and ['density model'],
    [load_parameters] prints its error message and leaves with
    [SystemExit(1)], whatever the file holds. *)
Theorem load_parameters_unknown_model_type
        (float_of_string : string -> option R)
        (int_of_string : string -> option Z)
        (model_type : string) (parameter_file : list string) :
  model_type <> "full model" ->
  model_type <> "density model" ->
  parameter_loader.load_parameters float_of_string int_of_string model_type
                                   parameter_file
  = ([parameter_loader.error_model_type], Raise (SystemExit 1)).
Proof.
  intros H1 H2. unfold parameter_loader.load_parameters.
  apply String.eqb_neq in H1, H2. now rewrite H1, H2.
Qed.

Lemma load_parameters_unknown_model_type_witness :
  parameter_loader.load_parameters sample_float_of_string sample_int_of_string
                                   "constant force model" sample_file
  = ([parameter_loader.error_model_type], Raise (SystemExit 1)).
Proof.
  apply load_parameters_unknown_model_type; discriminate.
Defined.

(** X4.  The last line that defines a parameter wins: when a list is
    returned, the entry of a name is what the last line starting with that
    name says, provided its third token can be read: as an int for [N_h] and
    [N_max], as a float for every other name. *)
Theorem load_parameters_last_definition
        (float_of_string : string -> option R)
        (int_of_string : string -> option Z)
        (model_type : string) (names pre post : list string)
        (line name t1 value : string) (rest : list string) (idx : nat)
        (v : num) (out : list string) (ps : list num) :
  schema model_type = Some names ->
  parameter_loader.load_parameters float_of_string int_of_string model_type
    (pre ++ line :: post) = (out, Ok ps) ->
  parameter_loader.split line = name :: t1 :: value :: rest ->
  parameter_loader.list_index names name = Some idx ->
  parsed_value float_of_string int_of_string name value = Some v ->
  (forall l, In l post -> hd_error (parameter_loader.split l) <> Some name) ->
  nth idx ps (PyFloat 0) = v.
Proof.
  intros Hs. now apply last_definition_value.
Qed.

Lemma load_parameters_last_definition_witness :
  nth 12 [PyFloat 1; PyFloat 1; PyFloat 1; PyFloat 1; PyFloat 3; PyFloat 1;
          PyFloat 1; PyInt 3; PyInt 10; PyFloat 1; PyFloat 1; PyFloat 2;
          PyFloat 20] (PyFloat 0) = PyFloat 20.
Proof.
  apply (load_parameters_last_definition sample_float_of_string
           sample_int_of_string "full model"
           parameter_loader.full_model_parameter_names
           sample_file ["k_on = 3"] "R0 = 20" "R0" "=" "20" [] 12
           (PyFloat 20) []).
  - reflexivity.
  - reflexivity.
  - reflexivity.
  - reflexivity.
  - reflexivity.
  - intros l [<-|[]]. discriminate.
Defined.

Lemma load_parameters_succeeds_iff_witness :
  ((exists out ps,
       parameter_loader.load_parameters sample_float_of_string
         sample_int_of_string "density model" sample_density_file
       = (out, Ok ps))
   <-> (forall line, In line sample_density_file ->
                     line_readable
                       parameter_loader.density_model_parameter_names line
                     = true)
       /\ (forall key,
              In key parameter_loader.density_model_parameter_names ->
              file_defines sample_density_file key = true))
  /\ (forall out ps,
         parameter_loader.load_parameters sample_float_of_string
           sample_int_of_string "density model" sample_density_file
         = (out, Ok ps) ->
         List.length ps
         = List.length parameter_loader.density_model_parameter_names).
Proof.
  apply (load_parameters_succeeds_iff sample_float_of_string
           sample_int_of_string "density model"
           parameter_loader.density_model_parameter_names
           sample_density_file).
  reflexivity.
Defined.

(** X5.  A value that cannot be read does not stop the loader: when a list
    is returned and no line starting with a name has a readable third token,
    the entry of that name is the initial [0.] and the warning for the name
    has been printed. *)
Theorem load_parameters_unreadable_value
        (float_of_string : string -> option R)
        (int_of_string : string -> option Z)
        (model_type : string) (names parameter_file : list string)
        (name : string) (idx : nat) (out : list string) (ps : list num) :
  schema model_type = Some names ->
  parameter_loader.load_parameters float_of_string int_of_string model_type
    parameter_file = (out, Ok ps) ->
  parameter_loader.list_index names name = Some idx ->
  (forall line t1 value rest,
      In line parameter_file ->
      parameter_loader.split line = name :: t1 :: value :: rest ->
      parsed_value float_of_string int_of_string name value = None) ->
  nth idx ps (PyFloat 0) = PyFloat 0
  /\ In (parameter_loader.warning name model_type) out.
Proof.
  intros Hs E Hidx Hno.
  destruct (load_Ok_read_lines float_of_string int_of_string model_type names
              Hs parameter_file out ps E) as (st & Er & <- & <-).
  split.
  - rewrite (LoaderLines.read_lines_keep_value float_of_string int_of_string
               names model_type parameter_file _ st (Ok tt) name idx
               (PyFloat 0) Er Hidx Hno).
    simpl. destruct (lt_dec idx (List.length names)) as [Hlt|Hge].
    + now apply nth_repeat_lt.
    + apply nth_overflow. rewrite repeat_length. lia.
  - assert (Hin : In name names).
    { apply LoaderFacts.list_index_nth_error in Hidx.
      now apply nth_error_In in Hidx. }
    destruct (load_Ok_defines float_of_string int_of_string model_type names
                Hs parameter_file _ _ name E Hin)
      as (line & rest & Hline & Es & Hread).
    unfold line_readable in Hread. rewrite Es, Hidx in Hread.
    apply Nat.leb_le in Hread.
    destruct rest as [|t1 [|value rest]]; simpl in Hread; try lia.
    apply (warning_printed float_of_string int_of_string model_type names
             parameter_file _ st line name t1 value rest idx Er Hline Es Hidx).
    exact (Hno line t1 value rest Hline Es).
Qed.

Lemma load_parameters_unreadable_value_witness :
  nth 12 [PyFloat 1; PyFloat 1; PyFloat 1; PyFloat 1; PyFloat 1; PyFloat 1;
          PyFloat 1; PyInt 3; PyInt 10; PyFloat 1; PyFloat 1; PyFloat 2;
          PyFloat 0] (PyFloat 0) = PyFloat 0
  /\ In (parameter_loader.warning "R0" "full model")
        [parameter_loader.warning "R0" "full model"].
Proof.
  apply (load_parameters_unreadable_value sample_float_of_string
           sample_int_of_string "full model"
           parameter_loader.full_model_parameter_names
           (sample_file_without_R0 ++ ["R0 = ten"]) "R0" 12).
  - reflexivity.
  - reflexivity.
  - reflexivity.
  - intros line t1 value rest Hin Es. simpl in Hin.
    repeat (destruct Hin as [<-|Hin]; [try discriminate Es|]).
    + inversion Es; subst. reflexivity.
    + destruct Hin.
Defined.

(** X6.  A line whose first token is no parameter name of the model type
    only prints a warning: with or without it, [load_parameters] returns the
    same list or leaves with the same exception. *)
Theorem load_parameters_skips_unknown_name
        (float_of_string : string -> option R)
        (int_of_string : string -> option Z)
        (model_type : string) (names pre post : list string)
        (line name : string) (rest : list string) :
  schema model_type = Some names ->
  parameter_loader.split line = name :: rest ->
  parameter_loader.list_index names name = None ->
  snd (parameter_loader.load_parameters float_of_string int_of_string
         model_type (pre ++ line :: post))
  = snd (parameter_loader.load_parameters float_of_string int_of_string
           model_type (pre ++ post)).
Proof.
  intros Hs Es Hn. rewrite !load_parameters_schema, Hs.
  rewrite !LoaderLines.read_lines_app.
  match goal with
  | |- context [parameter_loader.read_lines ?a ?b ?c ?d ?s pre] =>
      destruct (parameter_loader.read_lines a b c d s pre) as [st1 [[]|e1]]
  end; [|reflexivity].
  cbn [parameter_loader.read_lines].
  rewrite (LoaderLines.read_line_unknown float_of_string int_of_string names
             model_type st1 line name rest Es Hn).
  destruct (parameter_loader.read_lines float_of_string int_of_string names
              model_type
              (parameter_loader.print st1
                 (parameter_loader.warning name model_type)) post)
    as [sa ra] eqn:Ea.
  destruct (parameter_loader.read_lines float_of_string int_of_string names
              model_type st1 post) as [sb rb] eqn:Eb.
  destruct (LoaderLines.read_lines_values float_of_string int_of_string names
              model_type post
              (parameter_loader.print st1
                 (parameter_loader.warning name model_type))
              st1 sa sb ra rb eq_refl eq_refl Ea Eb)
    as (Hp & Hf & ->).
  destruct rb as [u|e]; [|reflexivity].
  rewrite Hf. destruct (existsb _ _); simpl; [reflexivity|now rewrite Hp].
Qed.

Lemma load_parameters_skips_unknown_name_witness :
  snd (parameter_loader.load_parameters sample_float_of_string
         sample_int_of_string "full model"
         (sample_file_without_R0 ++ "# radius of the ring" :: ["R0 = 10"]))
  = snd (parameter_loader.load_parameters sample_float_of_string
           sample_int_of_string "full model"
           (sample_file_without_R0 ++ ["R0 = 10"])).
Proof.
  apply (load_parameters_skips_unknown_name sample_float_of_string
           sample_int_of_string "full model"
           parameter_loader.full_model_parameter_names
           sample_file_without_R0 ["R0 = 10"] "# radius of the ring" "#"
           ["radius"; "of"; "the"; "ring"]); reflexivity.
Defined.

(** X7.  The first line the loop cannot read, a blank line or a parameter
    name followed by fewer than two more tokens, ends [load_parameters] in
    [IndexError], whatever the lines after it hold. *)
Theorem load_parameters_unreadable_line
        (float_of_string : string -> option R)
        (int_of_string : string -> option Z)
        (model_type : string) (names pre post : list string) (line : string) :
  schema model_type = Some names ->
  (forall l, In l pre -> line_readable names l = true) ->
  line_readable names line = false ->
  snd (parameter_loader.load_parameters float_of_string int_of_string
         model_type (pre ++ line :: post)) = Raise IndexError.
Proof.
  intros Hs Hpre Hline. rewrite load_parameters_schema, Hs.
  rewrite LoaderLines.read_lines_app.
  match goal with
  | |- context [parameter_loader.read_lines ?a ?b ?c ?d ?s pre] =>
      destruct (LoaderLines.read_lines_readable a b c d pre s Hpre)
        as (st1 & ->)
  end.
  cbn [parameter_loader.read_lines].
  destruct (LoaderLines.read_line_unreadable float_of_string int_of_string
              names model_type st1 line Hline) as (st2 & ->).
  reflexivity.
Qed.

Lemma load_parameters_unreadable_line_witness :
  snd (parameter_loader.load_parameters sample_float_of_string
         sample_int_of_string "density model"
         (["R0 = 10"] ++ "h*eta_am^eff 1" :: sample_density_file))
  = Raise IndexError.
Proof.
  apply (load_parameters_unreadable_line sample_float_of_string
           sample_int_of_string "density model"
           parameter_loader.density_model_parameter_names).
  - reflexivity.
  - intros l [<-|[]]. reflexivity.
  - reflexivity.
Defined.

(* ================================================================== *)
(** * More on the models *)

Lemma full_dict_lookup (ps : list num) (kp : R) (self : FullModel.t) (i : nat) :
  FullModel.of_parameters ps kp = Ok self ->
  (i < List.length full_model_dict_keys)%nat ->
  snd (FullModel.get_parameter self (nth i full_model_dict_keys ""))
  = Ok (nth i (ps ++ [PyFloat kp]) (PyFloat 0)).
Proof.
  intros Hc Hi.
  destruct (full_of_parameters_inv ps kp self Hc) as (_ & _ & _ & _ & Hd & Hl).
  unfold FullModel.get_parameter. simpl snd. rewrite Hd.
  do 14 (destruct ps as [|? ps]; try discriminate Hl).
  simpl in Hi. do 14 (destruct i as [|i]; [reflexivity|]). lia.
Qed.

Lemma density_dict_lookup (ps : list num) (kp : R) (self : DensityModel.t)
      (i : nat) :
  DensityModel.of_parameters ps kp = Ok self ->
  (i < List.length density_model_dict_keys)%nat ->
  snd (DensityModel.get_parameter self (nth i density_model_dict_keys ""))
  = Ok (nth i (ps ++ [PyFloat kp]) (PyFloat 0)).
Proof.
  intros Hc Hi.
  destruct (density_of_parameters_inv ps kp self Hc)
    as (_ & _ & _ & _ & Hd & Hl).
  unfold DensityModel.get_parameter. simpl snd. rewrite Hd.
  do 5 (destruct ps as [|? ps]; try discriminate Hl).
  simpl in Hi. do 5 (destruct i as [|i]; [reflexivity|]). lia.
Qed.

Lemma full_of_parameters_Ok (ps : list num) (kp : R) :
  List.length ps = 13%nat -> kp <> 0 ->
  exists self, FullModel.of_parameters ps kp = Ok self.
Proof.
  intros Hl Hkp. unfold FullModel.of_parameters.
  do 14 (destruct ps as [|? ps]; try discriminate Hl).
  rewrite truediv_Ok by exact Hkp. simpl. eauto.
Qed.

Lemma full_of_parameters_zero (ps : list num) :
  List.length ps = 13%nat ->
  FullModel.of_parameters ps 0 = Raise ZeroDivisionError.
Proof.
  intros Hl. unfold FullModel.of_parameters.
  do 14 (destruct ps as [|? ps]; try discriminate Hl).
  now rewrite truediv_zero.
Qed.

Lemma density_of_parameters_Ok (ps : list num) (kp : R) :
  List.length ps = 4%nat -> kp <> 0 ->
  exists self, DensityModel.of_parameters ps kp = Ok self.
Proof.
  intros Hl Hkp. unfold DensityModel.of_parameters.
  do 5 (destruct ps as [|? ps]; try discriminate Hl).
  rewrite truediv_Ok by exact Hkp. simpl. eauto.
Qed.

Lemma density_of_parameters_zero (ps : list num) :
  List.length ps = 4%nat ->
  DensityModel.of_parameters ps 0 = Raise ZeroDivisionError.
Proof.
  intros Hl. unfold DensityModel.of_parameters.
  do 5 (destruct ps as [|? ps]; try discriminate Hl).
  now rewrite truediv_zero.
Qed.

Lemma load_length (float_of_string : string -> option R)
      (int_of_string : string -> option Z) (model_type : string)
      (names parameter_file out : list string) (ps : list num) :
  schema model_type = Some names ->
  parameter_loader.load_parameters float_of_string int_of_string model_type
    parameter_file = (out, Ok ps) ->
  List.length ps = List.length names.
Proof.
  intros Hs E.
  destruct (load_Ok_read_lines float_of_string int_of_string model_type names
              Hs parameter_file out ps E) as (st & Er & <- & _).
  destruct (LoaderFacts.read_lines_spec _ _ _ _ _ _ _ _ Er) as (Hp & _).
  rewrite Hp. simpl. apply repeat_length.
Qed.



(** X9.  What the file says under a schema name is what the built model
    returns under the dict name at the same position ([N_h] as ['Nh'],
    [h*eta_am^eff] as ['h_eta'], ...): for a model built from a file, the
    last line that starts with the name, when its third token can be read,
    gives the value of [get_parameter]. *)
Theorem file_value_is_parameter
        (float_of_string : string -> option R)
        (int_of_string : string -> option Z)
        (pre post : list string) (line name t1 value : string)
        (rest : list string) (idx : nat) (v : num) (pillar_stiffness : R) :
  parameter_loader.split line = name :: t1 :: value :: rest ->
  parsed_value float_of_string int_of_string name value = Some v ->
  (forall l, In l post -> hd_error (parameter_loader.split l) <> Some name) ->
  (forall out self,
      FullModel.init float_of_string int_of_string (pre ++ line :: post)
                     pillar_stiffness = (out, Ok self) ->
      parameter_loader.list_index parameter_loader.full_model_parameter_names
                                  name = Some idx ->
      snd (FullModel.get_parameter self (nth idx full_model_dict_keys ""))
      = Ok v)
  /\ (forall out self,
         DensityModel.init float_of_string int_of_string (pre ++ line :: post)
                           pillar_stiffness = (out, Ok self) ->
         parameter_loader.list_index
           parameter_loader.density_model_parameter_names name = Some idx ->
         snd (DensityModel.get_parameter self
                (nth idx density_model_dict_keys ""))
         = Ok v).
Proof.
  intros Es Hv Hpost. split.
  - intros out self E Hidx. unfold FullModel.init in E.
    destruct (parameter_loader.load_parameters float_of_string int_of_string
                "full model" (pre ++ line :: post)) as [out' [ps|e]] eqn:El;
      simpl in E; inversion E as [[Eo Em]]; clear E.
    pose proof (LoaderLines.list_index_bound _ _ _ Hidx) as Hlt.
    simpl in Hlt.
    rewrite (full_dict_lookup ps pillar_stiffness self idx Em)
      by (simpl; lia).
    pose proof (load_length _ _ "full model" _ _ _ _ eq_refl El) as Hl.
    simpl in Hl. rewrite app_nth1 by lia. f_equal.
    exact (last_definition_value float_of_string int_of_string "full model"
             _ eq_refl pre post line name t1 value rest idx v out' ps El Es
             Hidx Hv Hpost).
  - intros out self E Hidx. unfold DensityModel.init in E.
    destruct (parameter_loader.load_parameters float_of_string int_of_string
                "density model" (pre ++ line :: post)) as [out' [ps|e]] eqn:El;
      simpl in E; inversion E as [[Eo Em]]; clear E.
    pose proof (LoaderLines.list_index_bound _ _ _ Hidx) as Hlt.
    simpl in Hlt.
    rewrite (density_dict_lookup ps pillar_stiffness self idx Em)
      by (simpl; lia).
    pose proof (load_length _ _ "density model" _ _ _ _ eq_refl El) as Hl.
    simpl in Hl. rewrite app_nth1 by lia. f_equal.
    exact (last_definition_value float_of_string int_of_string "density model"
             _ eq_refl pre post line name t1 value rest idx v out' ps El Es
             Hidx Hv Hpost).
Qed.

Lemma file_value_is_parameter_witness :
  snd (FullModel.get_parameter (sample_full 1 1 3 1) "Nh") = Ok (PyInt 3).
Proof.
  apply (proj1 (file_value_is_parameter sample_float_of_string
                  sample_int_of_string
                  ["x_catch = 1"; "x_slip = 1"; "k_off^catch = 1";
                   "k_off^slip = 1"; "k_on = 1"; "k_on_fil = 1"; "a/kBT = 1"]
                  ["N_max = 10"; "h*eta_am^eff = 1"; "xi*rho_a(t=0)^2 = 1";
                   "rho_a^max/rho_a(t=0) = 2"; "R0 = 10"]
                  "N_h = 3" "N_h" "=" "3" [] 7 (PyInt 3) 35
                  eq_refl eq_refl
                  ltac:(intros l Hl; simpl in Hl;
                        repeat (destruct Hl as [<-|Hl]; [discriminate|]);
                        destruct Hl))
               []).
  - unfold FullModel.init.
    change (parameter_loader.load_parameters sample_float_of_string
              sample_int_of_string "full model" _)
      with (@nil string, Ok (sample_full_parameters 1 1 3 1)).
    cbv beta iota. cbn [Py.bind]. now rewrite sample_full_constructed.
  - reflexivity.
Defined.

(** X10.  [rhs] reads the first two entries of the state ([DensityModel]:
    the first): a shorter state ends it in [IndexError], further entries are
    not looked at, and a returned derivative has two entries
    ([DensityModel]: one). *)
Theorem rhs_state_length :
  (forall (self : FullModel.t) (t : R),
      FullModel.rhs self t [] = Raise IndexError
      /\ (forall force, FullModel.rhs self t [force] = Raise IndexError)
      /\ (forall force N more,
             FullModel.rhs self t (force :: N :: more)
             = FullModel.rhs self t [force; N])
      /\ (forall y, match FullModel.rhs self t y with
                    | Ok y' => List.length y' = 2%nat
                    | Raise _ => True
                    end))
  /\ (forall (self : DensityModel.t) (t : R),
         DensityModel.rhs self t [] = Raise IndexError
         /\ (forall force more,
                DensityModel.rhs self t (force :: more)
                = DensityModel.rhs self t [force])
         /\ (forall y, match DensityModel.rhs self t y with
                       | Ok y' => List.length y' = 1%nat
                       | Raise _ => True
                       end)).
Proof.
  split.
  - intros self t. repeat split.
    + intros y. unfold FullModel.rhs.
      repeat match goal with
             | |- match Py.bind ?r _ with _ => _ end =>
                 destruct r; cbn [Py.bind]; auto
             end.
  - intros self t. repeat split.
    intros y. unfold DensityModel.rhs.
    repeat match goal with
           | |- match Py.bind ?r _ with _ => _ end =>
               destruct r; cbn [Py.bind]; auto
           end.
Qed.

(** X11.  [k_off_fil] needs a positive int as the number of heads: with
    [Nh <= 0] every sum is empty and the reciprocal of the mean detachment
    time 0 is asked for, [ZeroDivisionError]; with a float [Nh] (what the
    loader leaves when [N_h] cannot be read as an int) [range] refuses it,
    [TypeError]. *)
Theorem k_off_fil_needs_heads (self : FullModel.t) (total_force : R) :
  (forall n, FullModel.Nh self = PyInt n -> (n <= 0)%Z ->
             FullModel.k_off_fil self total_force = Raise ZeroDivisionError)
  /\ (forall x, FullModel.Nh self = PyFloat x ->
                FullModel.calc_prob_dist self total_force = Raise TypeError
                /\ FullModel.k_off_fil self total_force = Raise TypeError).
Proof.
  split.
  - intros n HNh Hn.
    destruct (Z.eq_dec n 0) as [->|Hne].
    + now apply k_off_fil_no_heads.
    + unfold FullModel.k_off_fil, FullModel.calc_prob_dist.
      rewrite HNh. cbn [index Py.bind].
      rewrite !range_empty by lia. cbn [foldM Py.bind].
      apply truediv_zero.
  - intros x HNh.
    unfold FullModel.k_off_fil, FullModel.calc_prob_dist.
    rewrite HNh. split; reflexivity.
Qed.

Lemma k_off_fil_needs_heads_witness :
  FullModel.k_off_fil (sample_full 1 1 (-2) 1) 7 = Raise ZeroDivisionError.
Proof.
  apply (proj1 (k_off_fil_needs_heads (sample_full 1 1 (-2) 1) 7) (-2)%Z).
  - reflexivity.
  - lia.
Defined.



Lemma exp_le_mono (x y : R) : x <= y -> exp x <= exp y.
Proof.
  intros [H| ->]; [left; now apply exp_increasing|right; reflexivity].
Qed.



(** X14.  A density model built with [h_eta <> 0] and [R0 <> 0] starts from
    its initial state [force = 0] with the force rate
    [xi_N_rho_a2 * (rho_max_per_rho - 1) / tau] and the tip velocity that
    rate over [k_p]; the rate is positive when [xi_N_rho_a2], [h_eta] and
    [k_p] are positive and [rho_max_per_rho > 1]. *)
Theorem density_model_rest_state
        (ps : list num) (kp : R) (self : DensityModel.t) (t : R) :
  DensityModel.of_parameters ps kp = Ok self ->
  DensityModel.h_eta self <> 0 ->
  DensityModel.R0 self <> 0 ->
  DensityModel.rhs self t [0]
  = Ok [DensityModel.xi_N_rho_a2 self
        * (DensityModel.rho_max_per_rho self - 1) / DensityModel.tau self]
  /\ DensityModel.velocity self t 0
     = Ok (DensityModel.xi_N_rho_a2 self
           * (DensityModel.rho_max_per_rho self - 1) / DensityModel.tau self
           / DensityModel.k_p self)
  /\ (0 < DensityModel.xi_N_rho_a2 self ->
      1 < DensityModel.rho_max_per_rho self ->
      0 < DensityModel.h_eta self ->
      0 < DensityModel.k_p self ->
      0 < DensityModel.xi_N_rho_a2 self
          * (DensityModel.rho_max_per_rho self - 1) / DensityModel.tau self).
Proof.
  intros Hc Hh HR.
  destruct (density_of_parameters_inv ps kp self Hc)
    as (Hkp & Ek & Etau & EA & _).
  assert (Hkp' : DensityModel.k_p self <> 0) by (rewrite Ek; exact Hkp).
  assert (Htau : DensityModel.tau self <> 0)
    by (rewrite Etau; apply tau_nonzero; assumption).
  pose proof PI_RGT_0 as Hpi.
  assert (HA : DensityModel.A0 self <> 0).
  { rewrite EA. apply Rmult_integral_contrapositive_currified; [lra|].
    now apply pow_nonzero. }
  assert (Harea : PI * (DensityModel.R0 self - 0 / DensityModel.k_p self) ^ 2
                  = DensityModel.A0 self).
  { rewrite EA. f_equal. f_equal. field. exact Hkp'. }
  split; [|split].
  - unfold DensityModel.rhs.
    change (getitem [0] 0) with (Ok 0). cbn [Py.bind].
    rewrite (truediv_Ok 0) by exact Hkp'. cbn [Py.bind].
    rewrite Harea.
    rewrite !(truediv_Ok _ _ HA). cbn [Py.bind].
    rewrite !(truediv_Ok _ _ Htau). cbn [Py.bind].
    do 2 f_equal. field. split; assumption.
  - unfold DensityModel.velocity.
    rewrite (truediv_Ok 0) by exact Hkp'. cbn [Py.bind].
    rewrite Harea.
    rewrite !(truediv_Ok _ _ HA). cbn [Py.bind].
    rewrite !(truediv_Ok _ _ Htau). cbn [Py.bind].
    rewrite (truediv_Ok _ _ Hkp'). f_equal. field.
    repeat split; assumption.
  - intros Hxi Hrho Hhp Hkpp.
    assert (0 < DensityModel.tau self).
    { rewrite Etau. rewrite <- Ek. apply Rdiv_lt_0_compat; [|assumption].
      apply Rmult_lt_0_compat; lra. }
    apply Rdiv_lt_0_compat; [|assumption].
    apply Rmult_lt_0_compat; lra.
Qed.

Lemma density_model_rest_state_witness :
  DensityModel.rhs (sample_density 1) 0 [0]
  = Ok [DensityModel.xi_N_rho_a2 (sample_density 1)
        * (DensityModel.rho_max_per_rho (sample_density 1) - 1)
        / DensityModel.tau (sample_density 1)]
  /\ 0 < DensityModel.xi_N_rho_a2 (sample_density 1)
         * (DensityModel.rho_max_per_rho (sample_density 1) - 1)
         / DensityModel.tau (sample_density 1).
Proof.
  assert (H1 : DensityModel.h_eta (sample_density 1) <> 0) by (simpl; lra).
  assert (H2 : DensityModel.R0 (sample_density 1) <> 0) by (simpl; lra).
  pose proof (density_model_rest_state _ _ _ 0
                (sample_density_constructed 1) H1 H2) as (Hr & _ & Hpos).
  split; [exact Hr|].
  apply Hpos; simpl; lra.
Defined.

(** X15.  The full model reduces to the density model: for two models built
    with the same stiffness from the same [h_eta], [rho_max_per_rho] and
    [R0], the velocity of the full model at [(force, N)] is the velocity of
    the density model at [force] whenever [xi_rho_a2 * N = xi_N_rho_a2], and
    the two force rates agree likewise. *)
Theorem full_model_reduces_to_density_model
        (ps_full ps_density : list num) (kp : R)
        (full : FullModel.t) (density : DensityModel.t) (t force N : R) :
  FullModel.of_parameters ps_full kp = Ok full ->
  DensityModel.of_parameters ps_density kp = Ok density ->
  FullModel.h_eta full = DensityModel.h_eta density ->
  FullModel.rho_max_per_rho full = DensityModel.rho_max_per_rho density ->
  FullModel.R0 full = DensityModel.R0 density ->
  FullModel.xi_rho_a2 full * N = DensityModel.xi_N_rho_a2 density ->
  FullModel.velocity full t force N = DensityModel.velocity density t force
  /\ forall kf, FullModel.k_off_fil full force = Ok kf ->
                (y' <- FullModel.rhs full t [force; N] ;; getitem y' 0)
                = (y' <- DensityModel.rhs density t [force] ;; getitem y' 0).
Proof.
  intros Hf Hd Hh Hrho HR Hxi.
  destruct (full_of_parameters_inv _ _ _ Hf) as (_ & Ek1 & Et1 & EA1 & _).
  destruct (density_of_parameters_inv _ _ _ Hd) as (_ & Ek2 & Et2 & EA2 & _).
  assert (Ek : FullModel.k_p full = DensityModel.k_p density) by congruence.
  assert (Et : FullModel.tau full = DensityModel.tau density)
    by (rewrite Et1, Et2, Hh; reflexivity).
  assert (EA : FullModel.A0 full = DensityModel.A0 density)
    by (rewrite EA1, EA2, HR; reflexivity).
  split.
  - unfold FullModel.velocity, DensityModel.velocity.
    rewrite Ek, Et, EA, HR, Hrho.
    repeat (rewrite ?Hxi;
            match goal with
            | |- context [truediv ?a ?b] =>
                destruct (truediv a b) eqn:?; cbn [Py.bind]; try reflexivity
            end).
  - intros kf Ekf. unfold FullModel.rhs, DensityModel.rhs.
    change (getitem [force; N] 0) with (Ok force).
    change (getitem [force; N] 1) with (Ok N).
    change (getitem [force] 0) with (Ok force).
    cbn [Py.bind]. rewrite Ekf, Ek, Et, EA, HR, Hrho.
    repeat (rewrite ?Hxi;
            match goal with
            | |- context [truediv ?a ?b] =>
                destruct (truediv a b) eqn:?; cbn [Py.bind]; try reflexivity
            end).
Qed.

Lemma full_model_reduces_to_density_model_witness :
  FullModel.velocity (sample_full 1 1 3 1) 0 5 1
  = DensityModel.velocity (sample_density 1) 0 5.
Proof.
  apply (proj1 (full_model_reduces_to_density_model
                  _ _ 35 (sample_full 1 1 3 1) (sample_density 1) 0 5 1
                  (sample_full_constructed 1 1 3 1)
                  (sample_density_constructed 1)
                  eq_refl eq_refl eq_refl
                  ltac:(simpl; lra))).
Defined.

(* ================================================================== *)
(** * More on powers and work *)

Section PowerShapes.

Context {M : Type} `{Model M}.

Lemma Rsum_nonneg (l : list R) : (forall x, In x l -> 0 <= x) -> 0 <= Rsum l.
Proof.
  induction l as [|a l IH]; intros Hall; simpl; [lra|].
  assert (0 <= a) by (apply Hall; now left).
  assert (0 <= Rsum l) by (apply IH; intros x Hx; apply Hall; now right).
  lra.
Qed.

Lemma Rsum_map_scale {A : Type} (g : A -> R) (c : R) (l : list A) :
  Rsum (map (fun a => c * g a) l) = c * Rsum (map g l).
Proof. induction l as [|a l IH]; simpl; [ring|]. rewrite IH. ring. Qed.

Lemma np_mul_scale (c : R) (a b : list R) :
  work_and_power.np_mul (map (Rmult c) a) b
  = (p <- work_and_power.np_mul a b ;; Ok (map (Rmult c) p)).
Proof.
  unfold work_and_power.np_mul. rewrite length_map.
  destruct (List.length a =? List.length b)%nat.
  - cbn [Py.bind]. f_equal. rewrite map_map.
    revert b. induction a as [|x a IH]; intros [|y b]; simpl; auto.
    f_equal; [ring|apply IH].
  - destruct a as [|x [|x' a]]; cbn [map Py.bind].
    + destruct b as [|y [|y' b]]; reflexivity.
    + f_equal. rewrite map_map. apply map_ext. intros y. ring.
    + destruct b as [|y [|y' b]]; cbn [Py.bind]; try reflexivity.
      f_equal. simpl. f_equal; [ring|]. f_equal; [ring|].
      rewrite !map_map. apply map_ext. intros z. ring.
Qed.

End PowerShapes.

(** X16.  On a displacement and a velocity array of the same length,
    [transmitted_power] returns, entry by entry, [10 * k_p * d_i * v_i]; the
    array of powers has the length of its arguments. *)
Theorem transmitted_power_elementwise
        {M : Type} `{Model M} (displacements velocities : list R) (model : M)
        (k : num) :
  snd (get_parameter model "k_p") = Ok k ->
  List.length displacements = List.length velocities ->
  exists powers,
    work_and_power.transmitted_power displacements velocities model
    = Ok powers
    /\ powers = map (fun dv => 10 * to_R k * fst dv * snd dv)
                    (combine displacements velocities)
    /\ List.length powers = List.length velocities.
Proof.
  intros Hk Hl. unfold work_and_power.transmitted_power. rewrite Hk.
  cbn [Py.bind]. unfold work_and_power.np_mul. rewrite length_map.
  apply Nat.eqb_eq in Hl. rewrite Hl. apply Nat.eqb_eq in Hl.
  eexists. split; [reflexivity|]. split.
  - clear Hk. revert velocities Hl.
    induction displacements as [|d ds IH]; intros [|v vs] Hl; simpl in *;
      try discriminate; [reflexivity|].
    f_equal; [ring|]. apply IH. lia.
  - rewrite length_map, length_combine, length_map. lia.
Qed.

Lemma transmitted_power_elementwise_witness :
  exists powers,
    work_and_power.transmitted_power [1; 2] [3; 4] (sample_density 1)
    = Ok powers
    /\ powers = map (fun dv => 10 * 35 * fst dv * snd dv)
                    (combine [1; 2] [3; 4])
    /\ List.length powers = 2%nat.
Proof.
  apply (transmitted_power_elementwise [1; 2] [3; 4] (sample_density 1)
                                       (PyFloat 35)); reflexivity.
Defined.

(** X17.  On arrays of different lengths [transmitted_power] follows
    numpy: an array of length one is multiplied into every entry of the
    other, and two arrays of different lengths, neither of length one, end
    the call in [ValueError]. *)
Theorem transmitted_power_shapes
        {M : Type} `{Model M} (model : M) (k : num) :
  snd (get_parameter model "k_p") = Ok k ->
  (forall displacements velocities,
      List.length displacements <> List.length velocities ->
      List.length displacements <> 1%nat ->
      List.length velocities <> 1%nat ->
      work_and_power.transmitted_power displacements velocities model
      = Raise ValueError)
  /\ (forall d velocities,
         List.length velocities <> 1%nat ->
         work_and_power.transmitted_power [d] velocities model
         = Ok (map (fun v => 5 * 2 * to_R k * d * v) velocities))
  /\ (forall displacements v,
         List.length displacements <> 1%nat ->
         work_and_power.transmitted_power displacements [v] model
         = Ok (map (fun d => 5 * 2 * to_R k * d * v) displacements)).
Proof.
  intros Hk. unfold work_and_power.transmitted_power. rewrite Hk.
  cbn [Py.bind]. unfold work_and_power.np_mul.
  split; [|split].
  - intros ds vs Hne Hd Hv. rewrite length_map.
    apply Nat.eqb_neq in Hne. rewrite Hne.
    destruct ds as [|d [|d' ds]]; simpl in *; try congruence;
      destruct vs as [|v [|v' vs]]; simpl in *; congruence.
  - intros d vs Hv. simpl List.length.
    destruct (Nat.eqb_spec 1 (List.length vs)) as [E|_]; [congruence|].
    reflexivity.
  - intros ds v Hd. rewrite length_map. simpl List.length.
    destruct (Nat.eqb_spec (List.length ds) 1) as [E|_]; [congruence|].
    destruct ds as [|d [|d' ds]]; simpl in *; try congruence.
    do 3 f_equal. now rewrite map_map.
Qed.

Lemma transmitted_power_shapes_witness :
  work_and_power.transmitted_power [1; 2] [1; 2; 3] (sample_density 1)
  = Raise ValueError.
Proof.
  assert (Hk : snd (get_parameter (sample_density 1) "k_p")
               = Ok (PyFloat 35)) by reflexivity.
  apply (proj1 (transmitted_power_shapes (sample_density 1) (PyFloat 35) Hk));
    simpl; lia.
Defined.

(** X18.  Dissipation is never negative: for a model with [h_eta >= 0]
    every entry of [dissipated_power] is non-negative, there is one entry
    per velocity, and over non-negative time points [work_diss] returns a
    non-negative work. *)
Theorem dissipation_nonnegative
        {M : Type} `{Model M} (t velocities : list R) (model : M) (h : num) :
  snd (get_parameter model "h_eta") = Ok h ->
  0 <= to_R h ->
  (exists powers,
      work_and_power.dissipated_power velocities model = Ok powers
      /\ List.length powers = List.length velocities
      /\ forall p, In p powers -> 0 <= p)
  /\ ((forall x, In x t -> 0 <= x) ->
      exists work,
        work_and_power.work_diss t velocities model = Ok work /\ 0 <= work).
Proof.
  intros Hh Hpos. pose proof PI_RGT_0 as Hpi.
  assert (Hp : forall v, 0 <= 24 * PI * to_R h * v ^ 2).
  { intros v. assert (0 <= v ^ 2) by (simpl; nra).
    assert (0 <= 24 * PI * to_R h) by nra. nra. }
  split.
  - eexists. split; [apply (dissipated_power_value velocities model h Hh)|].
    split; [apply length_map|].
    intros p Hin. apply in_map_iff in Hin. destruct Hin as (v & <- & _).
    apply Hp.
  - intros Ht. rewrite work_diss_value.
    rewrite (dissipated_power_value velocities model h Hh). cbn [Py.bind].
    eexists. split; [reflexivity|].
    apply Rsum_nonneg. intros x Hin. apply in_map_iff in Hin.
    destruct Hin as ([tm p] & <- & Hin). simpl.
    pose proof (in_combine_l _ _ _ _ Hin) as Hl.
    pose proof (in_combine_r _ _ _ _ Hin) as Hr.
    apply in_map_iff in Hr. destruct Hr as (v & <- & _).
    specialize (Ht tm Hl). specialize (Hp v). nra.
Qed.

Lemma dissipation_nonnegative_witness :
  exists work,
    work_and_power.work_diss [0; 1; 2] [1; -1; 3] (sample_density 1) = Ok work
    /\ 0 <= work.
Proof.
  assert (Hh : snd (get_parameter (sample_density 1) "h_eta")
               = Ok (PyFloat 1)) by reflexivity.
  apply (proj2 (dissipation_nonnegative [0; 1; 2] [1; -1; 3]
                  (sample_density 1) (PyFloat 1) Hh ltac:(simpl; lra))).
  intros x Hin. simpl in Hin.
  destruct Hin as [<-|[<-|[<-|[]]]]; lra.
Defined.

(** X19.  The work on the pillars is linear in the displacements and the
    dissipated work quadratic in the velocities: scaling every displacement
    by [c] scales what [work_elastic] returns by [c], scaling every velocity
    by [c] scales what [work_diss] returns by [c * c]; an exception of the
    unscaled call is the exception of the scaled one. *)
Theorem work_scaling
        {M : Type} `{Model M} (t displacements velocities : list R)
        (model : M) (c : R) :
  work_and_power.work_elastic t (map (Rmult c) displacements) velocities model
  = (work <- work_and_power.work_elastic t displacements velocities model ;;
     Ok (c * work))
  /\ work_and_power.work_diss t (map (Rmult c) velocities) model
     = (work <- work_and_power.work_diss t velocities model ;;
        Ok (c * c * work)).
Proof.
  split.
  - rewrite !work_elastic_value. unfold work_and_power.transmitted_power.
    destruct (snd (get_parameter model "k_p")) as [k|e]; cbn [Py.bind];
      [|reflexivity].
    rewrite map_map.
    rewrite (map_ext (fun x => 5 * 2 * to_R k * (c * x))
                     (fun x => c * (5 * 2 * to_R k * x)))
      by (intros; ring).
    rewrite <- (map_map (fun d => 5 * 2 * to_R k * d) (Rmult c)).
    rewrite np_mul_scale.
    destruct (work_and_power.np_mul _ velocities) as [p|e]; cbn [Py.bind];
      [|reflexivity].
    f_equal. rewrite <- Rsum_map_scale. f_equal.
    revert p. induction t as [|x t IH]; intros [|y p]; simpl; auto.
    f_equal; [ring|apply IH].
  - rewrite !work_diss_value. unfold work_and_power.dissipated_power.
    destruct (snd (get_parameter model "h_eta")) as [h|e]; cbn [Py.bind];
      [|reflexivity].
    f_equal. rewrite <- Rsum_map_scale. f_equal. rewrite map_map.
    revert velocities. induction t as [|x t IH]; intros [|y p]; simpl; auto.
    f_equal; [ring|apply IH].
Qed.

(** X20.  The loop of [work_diss] runs over [zip(t, powers)] and so stops
    with the shorter of the two arrays: time points without a velocity and
    velocities without a time point do not enter the work, and nothing is
    raised.  With no time points the work is 0. *)
Theorem work_diss_truncates
        {M : Type} `{Model M} (t velocities : list R) (model : M) (n : nat) :
  (Nat.min (List.length t) (List.length velocities) <= n)%nat ->
  work_and_power.work_diss (firstn n t) (firstn n velocities) model
  = work_and_power.work_diss t velocities model
  /\ work_and_power.work_diss [] velocities model
     = (h <- snd (get_parameter model "h_eta") ;; Ok 0).
Proof.
  intros Hn. split.
  - rewrite !work_diss_value. unfold work_and_power.dissipated_power.
    destruct (snd (get_parameter model "h_eta")) as [h|e]; cbn [Py.bind];
      [|reflexivity].
    rewrite <- firstn_map, <- combine_firstn.
    rewrite firstn_all2; [reflexivity|].
    rewrite length_combine, length_map. exact Hn.
  - rewrite work_diss_value. unfold work_and_power.dissipated_power.
    destruct (snd (get_parameter model "h_eta")); reflexivity.
Qed.

Lemma work_diss_truncates_witness :
  work_and_power.work_diss (firstn 2 [1; 2; 3; 4]) (firstn 2 [5; 6])
                           (sample_density 1)
  = work_and_power.work_diss [1; 2; 3; 4] [5; 6] (sample_density 1).
Proof.
  apply (proj1 (work_diss_truncates [1; 2; 3; 4] [5; 6] (sample_density 1) 2
                  ltac:(simpl; lia))).
Defined.

(* ================================================================== *)
(** * auxiliaries.py: discretize_curve *)

Lemma subsequence_refl {A : Type} (l : list A) : subsequence l l.
Proof. induction l; constructor; assumption. Qed.

Lemma subsequence_length {A : Type} (sub l : list A) :
  subsequence sub l -> (List.length sub <= List.length l)%nat.
Proof. induction 1; simpl; lia. Qed.

Lemma subsequence_In {A : Type} (sub l : list A) (a : A) :
  subsequence sub l -> In a sub -> In a l.
Proof.
  induction 1; simpl; intros Hin; auto.
  destruct Hin as [->|Hin]; auto.
Qed.

Lemma combine_map_fst_snd {A B : Type} (l : list (A * B)) :
  combine (map fst l) (map snd l) = l.
Proof. induction l as [|[a b] l IH]; simpl; [reflexivity|]. now rewrite IH. Qed.

(** The loop of [discretize_curve], from any state in which [idx] counts
    the points kept so far: it appends a subsequence of the points it is
    given, and the [i]-th point it appends has a time of at least
    [(idx + i) * step_size]. *)
Lemma discretize_loop (step_size : R) (points : list (R * R)) :
  forall (ts ds : list R) (idx : Z),
  exists kept,
    fold_left (auxiliaries.discretize_step step_size) points (ts, ds, idx)
    = (ts ++ map fst kept, ds ++ map snd kept,
       (idx + Z.of_nat (List.length kept))%Z)
    /\ subsequence kept points
    /\ (forall i, (i < List.length kept)%nat ->
                  nth i (map fst kept) 0
                  >= IZR (idx + Z.of_nat i) * step_size).
Proof.
  induction points as [|[time_point disp] points IH]; intros ts ds idx.
  - exists []. simpl. rewrite !app_nil_r, Z.add_0_r.
    repeat split; [constructor|]. intros i Hi. simpl in Hi. lia.
  - cbn [fold_left]. unfold auxiliaries.discretize_step at 2.
    destruct (Rge_dec time_point (IZR idx * step_size)) as [Hge|Hlt].
    + destruct (IH (ts ++ [time_point]) (ds ++ [disp]) (idx + 1)%Z)
        as (kept & E & Hsub & Hnth).
      exists ((time_point, disp) :: kept). rewrite E. cbn [map fst snd].
      rewrite <- !app_assoc. cbn [app List.length].
      repeat split.
      * f_equal. lia.
      * now constructor.
      * intros [|i] Hi; cbn [nth].
        -- now rewrite Z.add_0_r.
        -- replace (idx + Z.of_nat (S i))%Z with (idx + 1 + Z.of_nat i)%Z
             by lia.
           apply Hnth. lia.
    + destruct (IH ts ds idx) as (kept & E & Hsub & Hnth).
      exists kept. rewrite E. repeat split; auto. now constructor.
Qed.

(** X21.  [discretize_curve] returns two lists of the same length, no
    longer than the shorter of its two arguments, and the [i]-th time point
    it returns is at least [i * step_size]. *)
Theorem discretize_curve_samples
        (time_points displacements : list R) (step_size : R)
        (ts ds : list R) :
  auxiliaries.discretize_curve time_points displacements step_size = (ts, ds) ->
  List.length ts = List.length ds
  /\ (List.length ts
      <= Nat.min (List.length time_points) (List.length displacements))%nat
  /\ forall i, (i < List.length ts)%nat ->
               nth i ts 0 >= IZR (Z.of_nat i) * step_size.
Proof.
  unfold auxiliaries.discretize_curve.
  destruct (discretize_loop step_size (combine time_points displacements)
              [] [] 0%Z) as (kept & -> & Hsub & Hnth).
  cbn [fst app]. intros E; inversion E; subst; clear E.
  rewrite !length_map. repeat split.
  - apply subsequence_length in Hsub. now rewrite length_combine in Hsub.
  - intros i Hi. exact (Hnth i Hi).
Qed.

Lemma sample_discretization :
  auxiliaries.discretize_curve [0; 1 / 2; 6 / 5; 9 / 5] [10; 20; 30; 40] 1
  = ([0; 6 / 5], [10; 30]).
Proof.
  unfold auxiliaries.discretize_curve. simpl.
  repeat (destruct (Rge_dec _ _); try lra; simpl).
  reflexivity.
Qed.

Lemma discretize_curve_samples_witness :
  List.length [0; 6 / 5] = List.length [10; 30]
  /\ (List.length [0; 6 / 5]
      <= Nat.min (List.length [0; 1 / 2; 6 / 5; 9 / 5])
                 (List.length [10; 20; 30; 40]))%nat
  /\ forall i, (i < List.length [0; 6 / 5])%nat ->
               nth i [0; 6 / 5] 0 >= IZR (Z.of_nat i) * 1.
Proof.
  apply (discretize_curve_samples [0; 1 / 2; 6 / 5; 9 / 5] [10; 20; 30; 40] 1).
  exact sample_discretization.
Defined.

(** X22.  [discretize_curve] only leaves points out: the pairs of returned
    time points and displacements are a subsequence of the pairs of its
    arguments, in their order. *)
Theorem discretize_curve_subsequence
        (time_points displacements : list R) (step_size : R)
        (ts ds : list R) :
  auxiliaries.discretize_curve time_points displacements step_size = (ts, ds) ->
  subsequence (combine ts ds) (combine time_points displacements).
Proof.
  unfold auxiliaries.discretize_curve.
  destruct (discretize_loop step_size (combine time_points displacements)
              [] [] 0%Z) as (kept & -> & Hsub & _).
  cbn [fst app]. intros E; inversion E; subst; clear E.
  now rewrite combine_map_fst_snd.
Qed.

Lemma discretize_curve_subsequence_witness :
  subsequence (combine [0; 6 / 5] [10; 30])
              (combine [0; 1 / 2; 6 / 5; 9 / 5] [10; 20; 30; 40]).
Proof.
  apply (discretize_curve_subsequence _ _ 1).
  exact sample_discretization.
Defined.

Lemma map_fst_snd_combine {A B : Type} (l : list A) (l' : list B) :
  List.length l = List.length l' ->
  map fst (combine l l') = l /\ map snd (combine l l') = l'.
Proof.
  revert l'. induction l as [|a l IH]; intros [|b l'] Hl; simpl in *;
    try discriminate; [auto|].
  destruct (IH l' ltac:(lia)) as [-> ->]. auto.
Qed.

Lemma discretize_keeps_all (step_size : R) (points : list (R * R)) :
  step_size <= 0 ->
  (forall p, In p points -> 0 <= fst p) ->
  forall (ts ds : list R) (idx : Z),
    (0 <= idx)%Z ->
    fold_left (auxiliaries.discretize_step step_size) points (ts, ds, idx)
    = (ts ++ map fst points, ds ++ map snd points,
       (idx + Z.of_nat (List.length points))%Z).
Proof.
  intros Hstep. induction points as [|[time_point disp] points IH];
    intros Hall ts ds idx Hidx.
  - simpl. now rewrite !app_nil_r, Z.add_0_r.
  - cbn [fold_left]. unfold auxiliaries.discretize_step at 2.
    assert (Ht : 0 <= time_point) by (apply (Hall (time_point, disp)); now left).
    assert (Hi : 0 <= IZR idx) by (apply IZR_le; lia).
    destruct (Rge_dec time_point (IZR idx * step_size)) as [Hge|Hlt];
      [|exfalso; apply Hlt; nra].
    rewrite IH; [|intros p Hp; apply Hall; now right|lia].
    cbn [map fst snd List.length]. rewrite <- !app_assoc. cbn [app].
    f_equal. lia.
Qed.

(** X23.  With a step size of zero or less, [discretize_curve] keeps every
    point of a curve whose time points are non-negative: two arguments of
    the same length are returned as they are. *)
Theorem discretize_curve_keeps_all
        (time_points displacements : list R) (step_size : R) :
  step_size <= 0 ->
  (forall t, In t time_points -> 0 <= t) ->
  List.length time_points = List.length displacements ->
  auxiliaries.discretize_curve time_points displacements step_size
  = (time_points, displacements).
Proof.
  intros Hstep Hpos Hlen. unfold auxiliaries.discretize_curve.
  rewrite discretize_keeps_all; try assumption; try lia.
  - cbn [fst app].
    now destruct (map_fst_snd_combine _ _ Hlen) as [-> ->].
  - intros [t d] Hin. simpl. apply Hpos. exact (in_combine_l _ _ _ _ Hin).
Qed.

Lemma discretize_curve_keeps_all_witness :
  auxiliaries.discretize_curve [0; 1; 2] [5; 6; 7] 0 = ([0; 1; 2], [5; 6; 7]).
Proof.
  apply discretize_curve_keeps_all.
  - lra.
  - intros t Hin. simpl in Hin. destruct Hin as [<-|[<-|[<-|[]]]]; lra.
  - reflexivity.
Defined.

(** X24.  The first sample: a curve that starts at a time of zero or more
    has its first point returned first, whatever the step size; a first
    point with a negative time is dropped, and the rest of the curve is
    sampled as if it were not there. *)
Theorem discretize_curve_first_point
        (t0 d0 : R) (time_points displacements : list R) (step_size : R) :
  (0 <= t0 ->
   exists ts ds,
     auxiliaries.discretize_curve (t0 :: time_points) (d0 :: displacements)
                                  step_size = (t0 :: ts, d0 :: ds))
  /\ (t0 < 0 ->
      auxiliaries.discretize_curve (t0 :: time_points) (d0 :: displacements)
                                   step_size
      = auxiliaries.discretize_curve time_points displacements step_size).
Proof.
  unfold auxiliaries.discretize_curve. cbn [combine fold_left].
  unfold auxiliaries.discretize_step at 2 4.
  replace (IZR 0 * step_size) with 0 by ring.
  split; intros Ht.
  - destruct (Rge_dec t0 0) as [_|Hn]; [|exfalso; apply Hn; lra].
    destruct (discretize_loop step_size (combine time_points displacements)
                ([] ++ [t0]) ([] ++ [d0]) (0 + 1)%Z) as (kept & -> & _).
    cbn [fst app]. eauto.
  - destruct (Rge_dec t0 0) as [Hge|_]; [lra|reflexivity].
Qed.

Lemma discretize_curve_first_point_witness :
  (exists ts ds,
      auxiliaries.discretize_curve (0 :: [1; 2]) (5 :: [6; 7]) 30
      = (0 :: ts, 5 :: ds))
  /\ auxiliaries.discretize_curve (-1 :: [1; 2]) (5 :: [6; 7]) 30
     = auxiliaries.discretize_curve [1; 2] [6; 7] 30.
Proof.
  split.
  - apply (proj1 (discretize_curve_first_point 0 5 [1; 2] [6; 7] 30)). lra.
  - apply (proj2 (discretize_curve_first_point (-1) 5 [1; 2] [6; 7] 30)). lra.
Defined.

(* ================================================================== *)
(** * auxiliaries.py: velos_numerical *)

Lemma getitem_nth {A : Type} (l : list A) (j : Z) (d : A) :
  (0 <= j < Z.of_nat (List.length l))%Z ->
  getitem l j = Ok (nth (Z.to_nat j) l d).
Proof.
  intros Hj. unfold getitem. cbv zeta.
  destruct (Z.ltb_spec j 0) as [H1|H1]; [lia|].
  destruct (Z.ltb_spec j 0) as [H2|H2]; [lia|].
  rewrite (nth_error_nth' l d) by lia. reflexivity.
Qed.

Lemma getitem_from_end {A : Type} (l : list A) (k : Z) (d : A) :
  (0 < k <= Z.of_nat (List.length l))%Z ->
  getitem l (- k) = Ok (nth (List.length l - Z.to_nat k) l d).
Proof.
  intros Hk. unfold getitem. cbv zeta.
  destruct (Z.ltb_spec (- k) 0) as [H1|H1]; [|lia].
  destruct (Z.ltb_spec (Z.of_nat (List.length l) + - k) 0) as [H2|H2]; [lia|].
  rewrite (nth_error_nth' l d) by lia. do 2 f_equal. lia.
Qed.

Lemma getitem_beyond {A : Type} (l : list A) (j : Z) :
  (Z.of_nat (List.length l) <= j)%Z -> getitem l j = Raise IndexError.
Proof.
  intros Hj. unfold getitem. cbv zeta.
  destruct (Z.ltb_spec j 0) as [H1|H1]; [lia|].
  destruct (Z.ltb_spec j 0) as [H2|H2]; [lia|].
  destruct (nth_error l (Z.to_nat j)) eqn:En; [|reflexivity].
  assert (H : nth_error l (Z.to_nat j) <> None) by congruence.
  apply nth_error_Some in H. lia.
Qed.

Lemma list_set_middle {A : Type} (l1 l2 : list A) (a v : A) :
  parameter_loader.list_set (l1 ++ a :: l2) (List.length l1) v = l1 ++ v :: l2.
Proof. induction l1 as [|b l1 IH]; simpl; [reflexivity|]. now rewrite IH. Qed.

Lemma setitem_inside {A : Type} (l : list A) (j : Z) (v : A) :
  (0 <= j < Z.of_nat (List.length l))%Z ->
  auxiliaries.setitem l j v
  = Ok (parameter_loader.list_set l (Z.to_nat j) v).
Proof.
  intros Hj. unfold auxiliaries.setitem. cbv zeta.
  destruct (Z.ltb_spec j 0) as [H1|H1]; [lia|].
  destruct (Z.ltb_spec j 0) as [H2|H2]; [lia|].
  destruct (Z.leb_spec (Z.of_nat (List.length l)) j) as [H3|H3]; [lia|].
  reflexivity.
Qed.

Lemma setitem_from_end {A : Type} (l : list A) (k : Z) (v : A) :
  (0 < k <= Z.of_nat (List.length l))%Z ->
  auxiliaries.setitem l (- k) v
  = Ok (parameter_loader.list_set l (List.length l - Z.to_nat k) v).
Proof.
  intros Hk. unfold auxiliaries.setitem. cbv zeta.
  destruct (Z.ltb_spec (- k) 0) as [H1|H1]; [|lia].
  destruct (Z.ltb_spec (Z.of_nat (List.length l) + - k) 0) as [H2|H2]; [lia|].
  destruct (Z.leb_spec (Z.of_nat (List.length l))
                       (Z.of_nat (List.length l) + - k)) as [H3|H3]; [lia|].
  cbn [orb]. do 2 f_equal. lia.
Qed.

Lemma setitem_middle {A : Type} (l1 l2 : list A) (a v : A) (j : Z) :
  j = Z.of_nat (List.length l1) ->
  auxiliaries.setitem (l1 ++ a :: l2) j v = Ok (l1 ++ v :: l2).
Proof.
  intros ->. rewrite setitem_inside.
  - now rewrite Nat2Z.id, list_set_middle.
  - rewrite length_app. cbn [List.length]. lia.
Qed.

Lemma setitem_last {A : Type} (l1 : list A) (a v : A) :
  auxiliaries.setitem (l1 ++ [a]) (-1) v = Ok (l1 ++ [v]).
Proof.
  assert (Hl : List.length (l1 ++ [a]) = S (List.length l1))
    by (rewrite length_app; cbn [List.length]; lia).
  change (-1)%Z with (- (1))%Z.
  rewrite (setitem_from_end (l1 ++ [a]) 1) by lia.
  replace (List.length (l1 ++ [a]) - Z.to_nat 1)%nat with (List.length l1)
    by lia.
  now rewrite list_set_middle.
Qed.

Section Velocities.

Variables times displacements : list R.
Variables t0 t1 : R.

(** The first two time points and the spacing taken from them. *)
Hypothesis Ht0 : nth_error times 0 = Some t0.
Hypothesis Ht1 : nth_error times 1 = Some t1.
Hypothesis Hspacing : t1 <> t0.
Hypothesis Hlength : (List.length times <= List.length displacements)%nat.

Local Abbreviation dt := ((t1 - t0) * 60).
Local Abbreviation d := (fun k : nat => nth k displacements 0).
Local Abbreviation central :=
  (fun idx : Z =>
     Some ((d (Z.to_nat (idx + 1)) - d (Z.to_nat (idx - 1))) / (2 * dt))).

Lemma times_two : (2 <= List.length times)%nat.
Proof.
  assert (H : nth_error times 1 <> None) by congruence.
  apply nth_error_Some in H. lia.
Qed.

(** The velocities as [velos_numerical] leaves them: a forward difference,
    central differences, and a backward difference over the last two
    displacements. *)
Lemma velos_numerical_value :
  auxiliaries.velos_numerical times displacements
  = Ok (Some ((d 1%nat - d 0%nat) / dt)
        :: map central (range 1 (Z.of_nat (List.length times) - 1))
        ++ [Some ((d (List.length displacements - 1)%nat
                   - d (List.length displacements - 2)%nat) / dt)]).
Proof.
  pose proof times_two as Hn.
  assert (Hdt : dt <> 0) by (intros E; apply Hspacing; lra).
  unfold auxiliaries.velos_numerical.
  rewrite (getitem_nth times 1 0) by lia.
  rewrite (getitem_nth times 0 0) by lia. cbn [Py.bind].
  change (Z.to_nat 1) with 1%nat. change (Z.to_nat 0) with 0%nat.
  rewrite (nth_error_nth times 1 0 Ht1), (nth_error_nth times 0 0 Ht0).
  rewrite (getitem_nth displacements 1 0) by lia.
  rewrite (getitem_nth displacements 0 0) by lia. cbn [Py.bind].
  change (Z.to_nat 1) with 1%nat. change (Z.to_nat 0) with 0%nat.
  rewrite truediv_Ok by exact Hdt. cbn [Py.bind].
  destruct (List.length times) as [|n] eqn:En; [lia|].
  cbn [repeat].
  rewrite (setitem_inside (None :: repeat None n) 0)
    by (cbn [List.length]; lia).
  change (Z.to_nat 0) with 0%nat.
  cbn [parameter_loader.list_set Py.bind].
  match goal with
  | |- context [foldM ?f (range 1 ?hi) ?s] =>
      destruct (foldM_range_invariant f
                  (fun i velos =>
                     velos = Some ((d 1%nat - d 0%nat) / dt)
                             :: map central (range 1 i)
                             ++ repeat None (Z.to_nat (Z.of_nat (S n) - i)))
                  1 hi s) as (velos & -> & ->)
  end.
  - lia.
  - rewrite range_empty by lia. cbn [map app]. do 2 f_equal. lia.
  - intros i velos Hi ->.
    rewrite (getitem_nth displacements (i + 1) 0) by lia.
    rewrite (getitem_nth displacements (i - 1) 0) by lia. cbn [Py.bind].
    rewrite truediv_Ok by lra. cbn [Py.bind].
    replace (Z.to_nat (Z.of_nat (S n) - i))
      with (S (Z.to_nat (Z.of_nat (S n) - (i + 1)))) by lia.
    cbn [repeat]. rewrite app_comm_cons.
    rewrite setitem_middle
      by (cbn [List.length]; rewrite length_map, range_length; lia).
    eexists. split; [reflexivity|].
    rewrite range_snoc by lia. rewrite map_app. cbn [map].
    rewrite <- app_assoc. reflexivity.
  - cbn [Py.bind].
    change (getitem displacements (-1))
      with (getitem displacements (- (1))%Z).
    change (getitem displacements (-2))
      with (getitem displacements (- (2))%Z).
    rewrite (getitem_from_end displacements 1 0) by lia.
    rewrite (getitem_from_end displacements 2 0) by lia. cbn [Py.bind].
    change (Z.to_nat 1) with 1%nat. change (Z.to_nat 2) with 2%nat.
    rewrite truediv_Ok by exact Hdt. cbn [Py.bind].
    replace (Z.to_nat (Z.of_nat (S n) - (Z.of_nat (S n) - 1))) with 1%nat
      by lia.
    cbn [repeat]. rewrite app_comm_cons. rewrite setitem_last. reflexivity.
Qed.

End Velocities.

Lemma velos_numerical_few_displacements (times displacements : list R)
      (t0 t1 : R) :
  nth_error times 0 = Some t0 ->
  nth_error times 1 = Some t1 ->
  t1 <> t0 ->
  (2 <= List.length displacements < List.length times)%nat ->
  auxiliaries.velos_numerical times displacements = Raise IndexError.
Proof.
  intros Ht0 Ht1 Hsp Hlen.
  assert (Hdt : (t1 - t0) * 60 <> 0) by (intros E; apply Hsp; lra).
  unfold auxiliaries.velos_numerical.
  rewrite (getitem_nth times 1 0) by lia.
  rewrite (getitem_nth times 0 0) by lia. cbn [Py.bind].
  change (Z.to_nat 1) with 1%nat. change (Z.to_nat 0) with 0%nat.
  rewrite (nth_error_nth times 1 0 Ht1), (nth_error_nth times 0 0 Ht0).
  rewrite (getitem_nth displacements 1 0) by lia.
  rewrite (getitem_nth displacements 0 0) by lia. cbn [Py.bind].
  rewrite truediv_Ok by exact Hdt. cbn [Py.bind].
  rewrite setitem_inside by (rewrite repeat_length; lia). cbn [Py.bind].
  set (m := (Z.of_nat (List.length displacements) - 1)%Z).
  rewrite (range_split 1 m) by lia.
  rewrite (range_cons m) by lia.
  rewrite foldM_app.
  match goal with
  | |- context [foldM ?f (range 1 m) ?s] =>
      destruct (foldM_range_invariant f
                  (fun _ velos => List.length velos = List.length times)
                  1 m s) as (velos & -> & Hl)
  end.
  - lia.
  - now rewrite LoaderFacts.list_set_length, repeat_length.
  - intros i velos Hi Hl.
    rewrite (getitem_nth displacements (i + 1) 0) by lia.
    rewrite (getitem_nth displacements (i - 1) 0) by lia. cbn [Py.bind].
    rewrite truediv_Ok by lra. cbn [Py.bind].
    rewrite setitem_inside by lia.
    eexists. split; [reflexivity|].
    now rewrite LoaderFacts.list_set_length.
  - cbn [Py.bind foldM].
    rewrite (getitem_beyond displacements (m + 1)) by lia. reflexivity.
Qed.

(** X25.  [velos_numerical] ends in [IndexError] when it is given fewer
    than two time points or fewer than two displacements, and also, the
    first two time points being different (so that the first division goes
    through), when it is given fewer displacements than time points. *)
Theorem velos_numerical_index_errors (times displacements : list R) :
  ((List.length times < 2)%nat ->
   auxiliaries.velos_numerical times displacements = Raise IndexError)
  /\ ((2 <= List.length times)%nat ->
      (List.length displacements < 2)%nat ->
      auxiliaries.velos_numerical times displacements = Raise IndexError)
  /\ (forall t0 t1,
         nth_error times 0 = Some t0 ->
         nth_error times 1 = Some t1 ->
         t1 <> t0 ->
         (2 <= List.length displacements < List.length times)%nat ->
         auxiliaries.velos_numerical times displacements = Raise IndexError).
Proof.
  split; [|split].
  - intros Hn. unfold auxiliaries.velos_numerical.
    rewrite (getitem_beyond times 1) by lia. reflexivity.
  - intros Hn Hd. unfold auxiliaries.velos_numerical.
    rewrite (getitem_nth times 1 0) by lia.
    rewrite (getitem_nth times 0 0) by lia. cbn [Py.bind].
    rewrite (getitem_beyond displacements 1) by lia. reflexivity.
  - intros t0 t1. apply velos_numerical_few_displacements.
Qed.

Lemma velos_numerical_index_errors_witness :
  auxiliaries.velos_numerical [0] [5; 6] = Raise IndexError
  /\ auxiliaries.velos_numerical [0; 1; 2] [5] = Raise IndexError
  /\ auxiliaries.velos_numerical [0; 1; 2; 3] [5; 6; 7] = Raise IndexError.
Proof.
  split; [|split].
  - apply (proj1 (velos_numerical_index_errors [0] [5; 6])). simpl. lia.
  - apply (proj1 (proj2 (velos_numerical_index_errors [0; 1; 2] [5])));
      simpl; lia.
  - apply (proj2 (proj2 (velos_numerical_index_errors [0; 1; 2; 3] [5; 6; 7]))
                 0 1); try reflexivity; [lra|simpl; lia].
Defined.

(** X27.  With at least two time points, two different first time points
    and no fewer displacements than time points, [velos_numerical] returns
    one velocity per time point, every slot written: the forward difference
    [(d[1] - d[0]) / dt] first, the central differences
    [(d[i + 1] - d[i - 1]) / (2 * dt)] between, and last the difference of the
    last two entries of the displacement list over [dt], where
    [dt = (times[1] - times[0]) * 60]. *)
Theorem velos_numerical_differences
        (times displacements : list R) (t0 t1 : R) :
  nth_error times 0 = Some t0 ->
  nth_error times 1 = Some t1 ->
  t1 <> t0 ->
  (List.length times <= List.length displacements)%nat ->
  exists velos,
    auxiliaries.velos_numerical times displacements = Ok velos
    /\ List.length velos = List.length times
    /\ velos
       = Some ((nth 1 displacements 0 - nth 0 displacements 0)
               / ((t1 - t0) * 60))
         :: map (fun idx : Z =>
                   Some ((nth (Z.to_nat (idx + 1)) displacements 0
                          - nth (Z.to_nat (idx - 1)) displacements 0)
                         / (2 * ((t1 - t0) * 60))))
                (range 1 (Z.of_nat (List.length times) - 1))
         ++ [Some ((nth (List.length displacements - 1) displacements 0
                    - nth (List.length displacements - 2) displacements 0)
                   / ((t1 - t0) * 60))].
Proof.
  intros Ht0 Ht1 Hsp Hlen.
  assert (Hn : (2 <= List.length times)%nat).
  { assert (H : nth_error times 1 <> None) by congruence.
    apply nth_error_Some in H. lia. }
  rewrite (velos_numerical_value times displacements t0 t1 Ht0 Ht1 Hsp Hlen).
  eexists. split; [reflexivity|].
  split; [|reflexivity].
  cbn [List.length]. rewrite length_app, length_map, range_length.
  cbn [List.length]. lia.
Qed.

Lemma velos_numerical_differences_witness :
  exists velos,
    auxiliaries.velos_numerical [0; 1; 2] [5; 7; 11] = Ok velos
    /\ List.length velos = 3%nat
    /\ velos
       = Some ((7 - 5) / ((1 - 0) * 60))
         :: map (fun idx : Z =>
                   Some ((nth (Z.to_nat (idx + 1)) [5; 7; 11] 0
                          - nth (Z.to_nat (idx - 1)) [5; 7; 11] 0)
                         / (2 * ((1 - 0) * 60))))
                (range 1 (3 - 1))
         ++ [Some ((11 - 7) / ((1 - 0) * 60))].
Proof.
  apply (velos_numerical_differences [0; 1; 2] [5; 7; 11] 0 1);
    first [reflexivity | lra | simpl; lia].
Defined.

Lemma nth_map_range {A : Type} (g : Z -> A) (hi : Z) (k : nat) (d : A) :
  (Z.of_nat k < hi)%Z -> nth k (map g (range 0 hi)) d = g (Z.of_nat k).
Proof.
  intros Hk. unfold range. rewrite map_map.
  rewrite (nth_indep _ d (g 0%Z)) by (rewrite length_map, length_seq; lia).
  change (g 0%Z) with ((fun x : nat => g (0 + Z.of_nat x)%Z) O).
  rewrite map_nth, seq_nth by lia. reflexivity.
Qed.

Lemma map_constant {A B : Type} (f : A -> B) (b : B) (l : list A) :
  (forall a, In a l -> f a = b) -> map f l = repeat b (List.length l).
Proof.
  induction l as [|a l IH]; intros Hall; simpl; [reflexivity|].
  rewrite (Hall a) by now left. f_equal. apply IH.
  intros x Hx. apply Hall. now right.
Qed.

(** X28.  On a uniform time grid [velos_numerical] is exact for a curve
    that is a straight line: for [n >= 2] time points [t0 + i * h] with
    [h <> 0] and the displacements [a + b * t] at them, every returned
    velocity is [b / 60]. *)
Theorem velos_numerical_exact_on_lines (n : Z) (t0 h a b : R) :
  (2 <= n)%Z ->
  h <> 0 ->
  auxiliaries.velos_numerical
    (map (fun i => t0 + IZR i * h) (range 0 n))
    (map (fun t => a + b * t) (map (fun i => t0 + IZR i * h) (range 0 n)))
  = Ok (repeat (Some (b / 60)) (Z.to_nat n)).
Proof.
  intros Hn Hh.
  set (times := map (fun i => t0 + IZR i * h) (range 0 n)).
  set (displacements := map (fun t => a + b * t) times).
  assert (Hlt : List.length times = Z.to_nat n).
  { unfold times. rewrite length_map, range_length. f_equal. lia. }
  assert (Hld : List.length displacements = Z.to_nat n).
  { unfold displacements. now rewrite length_map. }
  assert (Hd : forall k, (Z.of_nat k < n)%Z ->
                         nth k displacements 0
                         = a + b * (t0 + IZR (Z.of_nat k) * h)).
  { intros k Hk. unfold displacements, times. rewrite map_map.
    now rewrite nth_map_range. }
  assert (Ht : forall k, (Z.of_nat k < n)%Z ->
                         nth_error times k = Some (t0 + IZR (Z.of_nat k) * h)).
  { intros k Hk. rewrite (nth_error_nth' times 0) by lia.
    unfold times. now rewrite nth_map_range. }
  rewrite (velos_numerical_value times displacements
             (t0 + IZR (Z.of_nat 0) * h) (t0 + IZR (Z.of_nat 1) * h)
             (Ht 0%nat ltac:(lia)) (Ht 1%nat ltac:(lia))).
  - f_equal.
    replace (Z.to_nat n) with (1 + (Z.to_nat n - 2) + 1)%nat by lia.
    rewrite !repeat_app. cbn [repeat app]. f_equal.
    + f_equal. rewrite (Hd 1%nat), (Hd 0%nat) by lia. simpl IZR.
      field; try (intros E; apply Hh; lra); try (split; intros E; apply Hh; lra).
    + f_equal.
      * rewrite (map_constant _ (Some (b / 60))).
        -- rewrite range_length. f_equal. lia.
        -- intros i Hi. apply in_range in Hi. f_equal.
           rewrite (Hd (Z.to_nat (i + 1))), (Hd (Z.to_nat (i - 1))) by lia.
           rewrite !Z2Nat.id by lia. rewrite plus_IZR, minus_IZR.
           simpl IZR. field; try (intros E; apply Hh; lra); try (split; intros E; apply Hh; lra).
      * do 2 f_equal. rewrite Hld.
        rewrite (Hd (Z.to_nat n - 1)%nat), (Hd (Z.to_nat n - 2)%nat) by lia.
        replace (Z.of_nat (Z.to_nat n - 1)) with (n - 1)%Z by lia.
        replace (Z.of_nat (Z.to_nat n - 2)) with (n - 2)%Z by lia.
        rewrite !minus_IZR. simpl IZR. field; try (intros E; apply Hh; lra); try (split; intros E; apply Hh; lra).
  - simpl IZR. intros E. apply Hh. lra.
  - lia.
Qed.

Lemma velos_numerical_exact_on_lines_witness :
  auxiliaries.velos_numerical
    (map (fun i => 0 + IZR i * (1 / 2)) (range 0 4))
    (map (fun t => 3 + 120 * t)
         (map (fun i => 0 + IZR i * (1 / 2)) (range 0 4)))
  = Ok (repeat (Some (120 / 60)) (Z.to_nat 4)).
Proof.
  apply velos_numerical_exact_on_lines; [lia|lra].
Defined.

(** X29.  [velos_numerical] takes the spacing of the grid from the first
    two time points and looks at no other: two lists of time points of the
    same length that agree on their first two entries give the same
    velocities, or the same exception. *)
Theorem velos_numerical_spacing_from_first_two
        (times times' displacements : list R) :
  List.length times = List.length times' ->
  firstn 2 times = firstn 2 times' ->
  auxiliaries.velos_numerical times displacements
  = auxiliaries.velos_numerical times' displacements.
Proof.
  intros Hl Hf. unfold auxiliaries.velos_numerical. rewrite Hl.
  assert (H0 : getitem times 0 = getitem times' 0).
  { destruct times as [|x l], times' as [|x' l']; try discriminate;
      [reflexivity|]. inversion Hf. reflexivity. }
  assert (H1 : getitem times 1 = getitem times' 1).
  { destruct times as [|x [|y l]], times' as [|x' [|y' l']];
      try discriminate; try reflexivity.
    inversion Hf. reflexivity. }
  now rewrite H0, H1.
Qed.

Lemma velos_numerical_spacing_from_first_two_witness :
  auxiliaries.velos_numerical [0; 1; 2; 3] [5; 6; 7; 8]
  = auxiliaries.velos_numerical [0; 1; 10; 100] [5; 6; 7; 8].
Proof.
  apply velos_numerical_spacing_from_first_two; reflexivity.
Defined.

(* ================================================================== *)
(** * calculate_contraction_dynamics.py: the initial conditions *)

Lemma steady_binding (k_on_fil kf Nmax : R) :
  kf + k_on_fil <> 0 ->
  k_on_fil * (Nmax - k_on_fil / (kf + k_on_fil) * Nmax)
  - kf * (k_on_fil / (kf + k_on_fil) * Nmax) = 0.
Proof. intros H. field. exact H. Qed.


Lemma sample_single_head_rate :
  0 < FullModel.k_off (sample_full 1 0 1 1) 7.
Proof.
  unfold FullModel.k_off. simpl.
  pose proof (exp_pos (- (1) * 7 * 1)). lra.
Qed.

Lemma sample_single_head_loaded :
  FullModel.init sample_float_of_string sample_int_of_string
                 sample_single_head_file 35
  = ([], Ok (sample_full 1 0 1 1)).
Proof.
  unfold FullModel.init.
  assert (E : parameter_loader.load_parameters
                sample_float_of_string sample_int_of_string
                "full model" sample_single_head_file
              = ([], Ok (sample_full_parameters 1 0 1 1))) by reflexivity.
  rewrite E. cbn [Py.bind]. now rewrite sample_full_constructed.
Qed.


(* ================================================================== *)
(** * Binary64: computations, loops and the kinds of numbers *)

Section Computations.

Import Binary64.

Lemma snd_bind {A B : Type} (c : comp A) (f : A -> comp B) :
  snd (bind c f)
  = match snd c with
    | Binary64.Ok a => snd (f a)
    | Binary64.Raise e => Binary64.Raise e
    end.
Proof.
  destruct c as [w [a|e]]; cbn [bind snd]; [|reflexivity].
  destruct (f a). reflexivity.
Qed.

Lemma snd_foldM_app {St A : Type} (f : St -> A -> comp St)
      (l1 l2 : list A) (s : St) :
  snd (Binary64.foldM f (l1 ++ l2) s)
  = match snd (Binary64.foldM f l1 s) with
    | Binary64.Ok s' => snd (Binary64.foldM f l2 s')
    | Binary64.Raise e => Binary64.Raise e
    end.
Proof.
  revert s. induction l1 as [|a l1 IH]; intros s; [reflexivity|].
  cbn [app Binary64.foldM]. rewrite !snd_bind.
  destruct (snd (f s a)); [apply IH|reflexivity].
Qed.

(** The loop rule for computations that return. *)
Lemma foldM_range_returns {St : Type} (f : St -> Z -> comp St)
      (Inv : Z -> St -> Prop) (lo hi : Z) (s : St) :
  (lo <= hi)%Z ->
  Inv lo s ->
  (forall i x, (lo <= i < hi)%Z -> Inv i x ->
               exists x', snd (f x i) = Binary64.Ok x' /\ Inv (i + 1)%Z x') ->
  exists s', snd (Binary64.foldM f (range lo hi) s) = Binary64.Ok s'
             /\ Inv hi s'.
Proof.
  intros Hle H0 Hstep.
  assert (G : forall n, (lo + Z.of_nat n <= hi)%Z ->
            exists s', snd (Binary64.foldM f (range lo (lo + Z.of_nat n)) s)
                       = Binary64.Ok s'
                       /\ Inv (lo + Z.of_nat n)%Z s').
  { induction n as [|n IH]; intros Hn.
    - replace (lo + Z.of_nat 0)%Z with lo by lia.
      rewrite range_empty by lia. exists s. split; [reflexivity|exact H0].
    - destruct IH as (s1 & E1 & I1); [lia|].
      replace (lo + Z.of_nat (S n))%Z with (lo + Z.of_nat n + 1)%Z by lia.
      rewrite range_snoc by lia. rewrite snd_foldM_app, E1.
      cbn [Binary64.foldM]. rewrite snd_bind.
      destruct (Hstep (lo + Z.of_nat n)%Z s1) as (s2 & E2 & I2);
        [lia|exact I1|].
      rewrite E2. cbn [ret snd]. eauto. }
  specialize (G (Z.to_nat (hi - lo))).
  replace (lo + Z.of_nat (Z.to_nat (hi - lo)))%Z with hi in G by lia.
  apply G. lia.
Qed.

Lemma getitem_Forall {A : Type} (P : A -> Prop) (l : list A) (j : Z) :
  Forall P l ->
  (0 <= j < Z.of_nat (List.length l))%Z ->
  exists a, Binary64.getitem l j = ret a /\ P a.
Proof.
  intros Hall Hj. unfold Binary64.getitem, Py.getitem.
  destruct (j <? 0)%Z eqn:Ej; [lia|]. rewrite Ej.
  destruct (nth_error l (Z.to_nat j)) as [a|] eqn:En.
  - exists a. split; [reflexivity|].
    rewrite Forall_forall in Hall. apply Hall.
    now apply nth_error_In with (Z.to_nat j).
  - apply nth_error_None in En. lia.
Qed.

(** ** Which operations return, and numbers of which kind *)

Lemma fits_small (n : Z) : (Z.abs n <= 1)%Z -> fits n = true.
Proof.
  intros H. unfold fits. apply Z.ltb_lt.
  assert (B : (1 < 2 ^ 1024 - 2 ^ 970)%Z) by reflexivity.
  lia.
Qed.

Lemma fits_below (m n : Z) : fits n = true -> (Z.abs m <= Z.abs n)%Z -> fits m = true.
Proof.
  unfold fits. rewrite !Z.ltb_lt. generalize (2 ^ 1024 - 2 ^ 970)%Z. lia.
Qed.

(** With a [numpy.float64] on either side an operation returns a
    [numpy.float64], whatever the operands. *)
Lemma binary_float64 (op : binop) (a b : scalar) :
  is_float64 a || is_float64 b = true ->
  convertible a = true -> convertible b = true ->
  binary op a b
  = (flags op (value a) (value b),
     Binary64.Ok (Float64 (arith op (value a) (value b)))).
Proof.
  destruct a as [m|x|x], b as [n|y|y]; cbn [is_float64 orb convertible value];
    try discriminate; intros _ Ha Hb; unfold binary; cbn [float_of];
    rewrite ?Ha, ?Hb; reflexivity.
Qed.

(** Python's operations on two floats, or a float and an int. *)
Lemma binary_python (op : binop) (a b : scalar) :
  is_float64 a = false -> is_float64 b = false ->
  is_int a && is_int b = false ->
  convertible a = true -> convertible b = true ->
  binary op a b
  = match op with
    | Div => if zero b then raise Binary64.ZeroDivisionError
             else ret (Float (arith Div (value a) (value b)))
    | _ => ret (Float (arith op (value a) (value b)))
    end.
Proof.
  destruct a as [m|x|x], b as [n|y|y];
    cbn [is_float64 is_int andb convertible value]; try discriminate;
    intros _ _ _ Ha Hb; unfold binary; cbn [float_of];
    rewrite ?Ha, ?Hb; destruct op; cbn; try reflexivity;
    match goal with |- context [if ?c then _ else _] => destruct c end;
    reflexivity.
Qed.

End Computations.

(* ================================================================== *)
(** * Binary64: the kinetics of a filament never raise *)

Section KineticsReturn.

Import Binary64.

Lemma float_convertible (a : scalar) : is_int a = false -> convertible a = true.
Proof. destruct a; [discriminate|reflexivity|reflexivity]. Qed.

Lemma float64_not_int (a : scalar) : is_float64 a = true -> is_int a = false.
Proof. destruct a; [discriminate|discriminate|reflexivity]. Qed.

(** An operation with a float on one side returns a float, of Python or
    of numpy; only Python's division by zero is excepted. *)
Lemma binary_with_float (op : binop) (a b : scalar) :
  is_int a && is_int b = false ->
  convertible a = true -> convertible b = true ->
  op <> Div \/ zero b = false \/ is_float64 a || is_float64 b = true ->
  exists c, snd (binary op a b) = Binary64.Ok c /\ is_int c = false.
Proof.
  intros Hint Ha Hb Hop.
  destruct (is_float64 a || is_float64 b) eqn:Enp.
  - rewrite binary_float64 by assumption. eexists. split; reflexivity.
  - apply orb_false_elim in Enp. destruct Enp as [Ea Eb].
    rewrite binary_python by assumption.
    destruct op; try (eexists; split; reflexivity).
    destruct Hop as [Hop|[Hop|Hop]]; [congruence| |discriminate].
    rewrite Hop. eexists. split; reflexivity.
Qed.

Lemma binary_into_float64 (op : binop) (a b : scalar) :
  is_float64 a || is_float64 b = true ->
  convertible a = true -> convertible b = true ->
  exists r, snd (binary op a b) = Binary64.Ok (Float64 r).
Proof.
  intros H Ha Hb. rewrite binary_float64 by assumption. eexists. reflexivity.
Qed.

Lemma np_exp_returns (exp : binary64 -> binary64) (a : scalar) :
  convertible a = true ->
  snd (np_exp exp a) = Binary64.Ok (Float64 (exp (value a))).
Proof.
  destruct a as [n|x|x]; cbn [convertible value]; intros H; unfold np_exp;
    cbn [float_of]; rewrite ?H; reflexivity.
Qed.

(** A quotient is a float, also that of two ints. *)
Lemma quotient_not_int (a b c : scalar) :
  snd (binary Div a b) = Binary64.Ok c -> is_int c = false.
Proof.
  destruct a as [m|x|x], b as [n|y|y]; unfold binary;
    cbn [int_op float_of is_float64 orb];
    repeat match goal with
           | |- context [if ?c then _ else _] => destruct c
           end;
    cbn; intros E; inversion E; reflexivity.
Qed.

(** The load per head of a float force exists, whatever the number of
    heads it is shared among. *)
Lemma float_load_per_head (total_force : scalar) (n_h NB : Z) :
  is_int total_force = false ->
  fits n_h = true ->
  (1 <= NB <= n_h)%Z ->
  exists f, snd (binary Div total_force (Int NB)) = Binary64.Ok f.
Proof.
  intros Hforce Hfits H.
  destruct (binary_with_float Div total_force (Int NB)) as (f & E & _).
  - now rewrite Hforce.
  - now apply float_convertible.
  - apply (fits_below NB n_h Hfits). lia.
  - right. left. cbn [zero]. apply Z.eqb_neq. lia.
  - eauto.
Qed.

Variable exp : binary64 -> binary64.
Variable self : FullModel.t.

Lemma k_off_returns (force : scalar) :
  convertible force = true ->
  exists k, snd (FullModel.k_off exp self force) = Binary64.Ok (Float64 k).
Proof.
  intros Hf. unfold FullModel.k_off. cbn [neg].
  destruct (binary_with_float Mul (Float (SFopp (FullModel.a_per_kBT self)))
              force) as (c1 & E1 & I1);
    [reflexivity|reflexivity|exact Hf|left; discriminate|].
  rewrite snd_bind, E1.
  destruct (binary_with_float Mul c1 (Float (FullModel.x_catch self)))
    as (c2 & E2 & I2);
    [apply andb_false_r|now apply float_convertible|reflexivity
    |left; discriminate|].
  rewrite snd_bind, E2.
  rewrite snd_bind, np_exp_returns by now apply float_convertible.
  rewrite snd_bind, binary_float64 by reflexivity. cbn [snd].
  destruct (binary_with_float Mul (Float (FullModel.a_per_kBT self)) force)
    as (s1 & E3 & I3);
    [reflexivity|reflexivity|exact Hf|left; discriminate|].
  rewrite snd_bind, E3.
  destruct (binary_with_float Mul s1 (Float (FullModel.x_slip self)))
    as (s2 & E4 & I4);
    [apply andb_false_r|now apply float_convertible|reflexivity
    |left; discriminate|].
  rewrite snd_bind, E4.
  rewrite snd_bind, np_exp_returns by now apply float_convertible.
  rewrite snd_bind, binary_float64 by reflexivity. cbn [snd].
  rewrite binary_float64 by reflexivity. eexists. reflexivity.
Qed.

Variable n_h : Z.
Variable total_force : scalar.

Hypothesis Hfits : fits n_h = true.
Hypothesis Hload :
  forall NB, (1 <= NB <= n_h)%Z ->
             exists f, snd (binary Div total_force (Int NB)) = Binary64.Ok f.

Lemma fits_index (i : Z) : (0 <= i <= n_h)%Z -> fits i = true.
Proof. intros H. apply (fits_below i n_h Hfits). lia. Qed.

(** The load per head, [total_force / NB]: a float. *)
Lemma load_per_head (NB : Z) :
  (1 <= NB <= n_h)%Z ->
  exists f, snd (binary Div total_force (Int NB)) = Binary64.Ok f
            /\ is_int f = false.
Proof.
  intros H. destruct (Hload NB H) as (f & E). exists f. split; [exact E|].
  exact (quotient_not_int total_force (Int NB) f E).
Qed.

(** The invariant of the loops that accumulate into a variable
    initialised with an int: it converts to a double, and is a
    [numpy.float64] from the first pass on. *)
Lemma prod_step_returns (acc : scalar) (i : Z) :
  (0 <= i < n_h)%Z ->
  convertible acc = true ->
  exists r, snd (FullModel.prod_step exp self n_h total_force acc i)
            = Binary64.Ok (Float64 r).
Proof.
  intros Hi Hacc. unfold FullModel.prod_step.
  rewrite snd_bind, binary_python;
    [|reflexivity|reflexivity|reflexivity|apply fits_index; lia|reflexivity].
  cbn [snd ret].
  destruct (binary_with_float Mul acc
              (Float (arith Mul (value (Int (n_h - i)))
                            (value (Float (FullModel.k_on self))))))
    as (num & E1 & I1);
    [apply andb_false_r|exact Hacc|reflexivity|left; discriminate|].
  rewrite snd_bind, E1.
  destruct (load_per_head (i + 1)) as (f & E2 & I2); [lia|].
  rewrite snd_bind, E2.
  destruct (k_off_returns f (float_convertible f I2)) as (k & E3).
  rewrite snd_bind, E3.
  rewrite snd_bind, binary_float64;
    [|reflexivity|apply fits_index; lia|reflexivity].
  cbn [snd].
  apply binary_into_float64;
    [apply orb_true_r|now apply float_convertible|reflexivity].
Qed.

Lemma prod_loop_returns (n : Z) :
  (0 <= n <= n_h)%Z ->
  exists r,
    snd (Binary64.foldM (FullModel.prod_step exp self n_h total_force)
                        (range 0 n) (Int 1)) = Binary64.Ok r
    /\ convertible r = true /\ ((0 < n)%Z -> is_float64 r = true).
Proof.
  intros Hn.
  destruct (foldM_range_returns
              (FullModel.prod_step exp self n_h total_force)
              (fun i s => convertible s = true
                          /\ ((0 < i)%Z -> is_float64 s = true))
              0 n (Int 1)) as (r & E & I1 & I2).
  - lia.
  - split; [now apply fits_small|lia].
  - intros i x Hi [Hx _].
    destruct (prod_step_returns x i) as (r & E); [lia|exact Hx|].
    exists (Float64 r). split; [exact E|]. split; reflexivity.
  - exists r. auto.
Qed.

Hypothesis Hheads : (1 <= n_h)%Z.

Lemma denom_loop_returns :
  exists d,
    snd (Binary64.foldM
           (fun denom k =>
              bind (Binary64.foldM
                      (FullModel.prod_step exp self n_h total_force)
                      (range 0 k) (Int 1))
                   (fun prod => binary Add denom prod))
           (range 1 (n_h + 1)) (Int 1)) = Binary64.Ok (Float64 d).
Proof.
  match goal with
  | |- context [Binary64.foldM ?f (range 1 (n_h + 1)) (Int 1)] =>
      destruct (foldM_range_returns f
                  (fun i s => convertible s = true
                              /\ ((1 < i)%Z -> is_float64 s = true))
                  1 (n_h + 1) (Int 1)) as (r & E & I1 & I2)
  end.
  - lia.
  - split; [now apply fits_small|lia].
  - intros k d Hk [Hd _].
    destruct (prod_loop_returns k) as (p & Ep & Cp & Fp); [lia|].
    rewrite snd_bind, Ep.
    destruct (binary_into_float64 Add d p) as (r & Er);
      [rewrite Fp by lia; apply orb_true_r|exact Hd|exact Cp|].
    exists (Float64 r). split; [exact Er|]. split; reflexivity.
  - destruct r as [n|x|x]; try (specialize (I2 ltac:(lia)); discriminate).
    exists x. exact E.
Qed.

Hypothesis HNh : FullModel.Nh self = Int n_h.

(** [__calc_prob_dist] returns [n_h + 1] numpy floats. *)
Lemma calc_prob_dist_returns :
  exists pns,
    snd (FullModel.calc_prob_dist exp self total_force) = Binary64.Ok pns
    /\ List.length pns = Z.to_nat (n_h + 1)
    /\ Forall (fun p => is_float64 p = true) pns.
Proof.
  unfold FullModel.calc_prob_dist. rewrite HNh. cbn [index].
  rewrite snd_bind. cbn [snd ret].
  match goal with
  | |- context [Binary64.foldM ?f (range 0 (n_h + 1)) []] =>
      destruct (foldM_range_returns f
                  (fun i pns => List.length pns = Z.to_nat i
                                /\ Forall (fun p => is_float64 p = true) pns)
                  0 (n_h + 1) []) as (pns & E & I1 & I2)
  end.
  - lia.
  - split; [reflexivity|constructor].
  - intros n pns Hn [Hl Hall].
    destruct (prod_loop_returns n) as (nom & En & Cn & _); [lia|].
    rewrite snd_bind, En.
    destruct denom_loop_returns as (d & Ed).
    rewrite snd_bind, Ed.
    rewrite snd_bind, binary_float64 by (try apply orb_true_r; auto).
    cbn [snd ret]. eexists. split; [reflexivity|]. split.
    + rewrite length_app, Hl. simpl. lia.
    + apply Forall_app. split; [exact Hall|]. constructor; [reflexivity|constructor].
  - eauto.
Qed.

(** [k_off_fil] never raises: it returns a numpy float, whatever the
    divisors were. *)
Lemma k_off_fil_returns :
  exists r,
    snd (FullModel.k_off_fil exp self total_force)
    = Binary64.Ok (Float64 r).
Proof.
  unfold FullModel.k_off_fil.
  destruct calc_prob_dist_returns as (pns & Ep & Hl & Hall).
  rewrite snd_bind, Ep, HNh. cbn [index].
  rewrite snd_bind. cbn [snd ret].
  assert (Hget : forall j, (0 <= j <= n_h)%Z ->
                           exists p, Binary64.getitem pns j = ret (Float64 p)).
  { intros j Hj.
    destruct (getitem_Forall _ pns j Hall) as (a & Ea & Fa); [lia|].
    destruct a as [n|x|x]; try discriminate. eauto. }
  assert (Hs : forall NB, (1 <= NB <= n_h)%Z ->
             exists s, snd (Binary64.foldM
                              (fun s j => bind (Binary64.getitem pns j)
                                               (fun pj => binary Add s pj))
                              (range NB (n_h + 1)) (Int 0))
                       = Binary64.Ok (Float64 s)).
  { intros NB HNB.
    match goal with
    | |- context [Binary64.foldM ?f (range NB (n_h + 1)) (Int 0)] =>
        destruct (foldM_range_returns f
                    (fun i s => convertible s = true
                                /\ ((NB < i)%Z -> is_float64 s = true))
                    NB (n_h + 1) (Int 0)) as (r & E & I1 & I2)
    end.
    - lia.
    - split; [now apply fits_small|lia].
    - intros j s Hj [Cs _].
      destruct (Hget j) as (p & ->); [lia|].
      rewrite snd_bind. cbn [snd ret].
      rewrite binary_float64 by (try apply orb_true_r; auto).
      eexists. split; [reflexivity|]. split; reflexivity.
    - destruct r as [n|x|x]; try (specialize (I2 ltac:(lia)); discriminate).
      eauto. }
  assert (HT : forall NB_init, (1 <= NB_init <= n_h)%Z ->
             exists T,
               snd (Binary64.foldM
                      (fun T_off NB =>
                         bind (Binary64.foldM
                                 (fun s j => bind (Binary64.getitem pns j)
                                                  (fun pj => binary Add s pj))
                                 (range NB (n_h + 1)) (Int 0))
                           (fun s =>
                         bind (binary Div total_force (Int NB)) (fun f =>
                         bind (FullModel.k_off exp self f) (fun k =>
                         bind (binary Mul (Int NB) k) (fun d1 =>
                         bind (Binary64.getitem pns NB) (fun pNB =>
                         bind (binary Mul d1 pNB) (fun d2 =>
                         bind (binary Div (Int 1) d2) (fun q =>
                         bind (binary Mul q s) (fun qs =>
                         binary Add T_off qs)))))))))
                      (range 1 (NB_init + 1)) (Int 0))
               = Binary64.Ok (Float64 T)).
  { intros NB_init Hinit.
    match goal with
    | |- context [Binary64.foldM ?f (range 1 (NB_init + 1)) (Int 0)] =>
        destruct (foldM_range_returns f
                    (fun i s => convertible s = true
                                /\ ((1 < i)%Z -> is_float64 s = true))
                    1 (NB_init + 1) (Int 0)) as (r & E & I1 & I2)
    end.
    - lia.
    - split; [now apply fits_small|lia].
    - intros NB T HNB [CT _].
      destruct (Hs NB) as (s & Es); [lia|].
      rewrite snd_bind, Es.
      destruct (load_per_head NB) as (f & Ef & If); [lia|].
      rewrite snd_bind, Ef.
      destruct (k_off_returns f (float_convertible f If)) as (k & Ek).
      rewrite snd_bind, Ek.
      rewrite snd_bind, binary_float64;
        [|reflexivity|apply fits_index; lia|reflexivity].
      cbn [snd].
      destruct (Hget NB) as (p & ->); [lia|].
      rewrite snd_bind. cbn [snd ret].
      rewrite snd_bind, binary_float64 by reflexivity. cbn [snd].
      rewrite snd_bind, binary_float64;
        [|reflexivity|now apply fits_small|reflexivity].
      cbn [snd].
      rewrite snd_bind, binary_float64 by reflexivity. cbn [snd].
      rewrite binary_float64 by (try apply orb_true_r; auto).
      eexists. split; [reflexivity|]. split; reflexivity.
    - destruct r as [n|x|x]; try (specialize (I2 ltac:(lia)); discriminate).
      eauto. }
  match goal with
  | |- context [Binary64.foldM ?f (range 1 (n_h + 1)) (Int 0)] =>
      destruct (foldM_range_returns f
                  (fun i s => convertible s = true
                              /\ ((1 < i)%Z -> is_float64 s = true))
                  1 (n_h + 1) (Int 0)) as (r & E & I1 & I2)
  end.
  - lia.
  - split; [now apply fits_small|lia].
  - intros NB_init T Hinit [CT _].
    destruct (HT NB_init) as (T_off & ET); [lia|].
    rewrite snd_bind, ET.
    destruct (Hget NB_init) as (p & ->); [lia|].
    rewrite snd_bind. cbn [snd ret].
    rewrite snd_bind, binary_float64 by reflexivity. cbn [snd].
    rewrite binary_float64 by (try apply orb_true_r; auto).
    eexists. split; [reflexivity|]. split; reflexivity.
  - destruct r as [n|x|x]; try (specialize (I2 ltac:(lia)); discriminate).
    rewrite snd_bind, E.
    rewrite binary_float64;
      [|reflexivity|now apply fits_small|reflexivity].
    eexists. reflexivity.
Qed.

End KineticsReturn.

(* ================================================================== *)
(** * Binary64: what infinities and nan do *)

Section NotFinite.

Import Binary64.

Lemma arith_nan_l (op : binop) (y : binary64) : arith op S754_nan y = S754_nan.
Proof. destruct op; reflexivity. Qed.

Lemma arith_nan_r (op : binop) (x : binary64) : arith op x S754_nan = S754_nan.
Proof. destruct op, x; reflexivity. Qed.

(** A quotient by zero is never finite: an infinity, or nan. *)
Lemma div_by_zero (x z : binary64) :
  is_zero z = true -> is_finite (arith Div x z) = false.
Proof. destruct z; try discriminate. intros _. destruct x; reflexivity. Qed.

Lemma div_not_finite (x y : binary64) :
  is_finite x = false -> is_finite (arith Div x y) = false.
Proof. destruct x; try discriminate; intros _; destruct y; reflexivity. Qed.

Lemma mul_not_finite_l (x y : binary64) :
  is_finite x = false -> is_finite (arith Mul x y) = false.
Proof. destruct x; try discriminate; intros _; destruct y; reflexivity. Qed.

Lemma mul_not_finite_r (x y : binary64) :
  is_finite y = false -> is_finite (arith Mul x y) = false.
Proof. destruct y; try discriminate; intros _; destruct x; reflexivity. Qed.

Lemma add_not_finite_r (x y : binary64) :
  is_finite y = false -> is_finite (arith Add x y) = false.
Proof.
  destruct y as [| s | |]; try discriminate; intros _;
    destruct x as [| s' | |]; try reflexivity.
  destruct s', s; reflexivity.
Qed.

Lemma sub_not_finite_l (x y : binary64) :
  is_finite x = false -> is_finite (arith Sub x y) = false.
Proof.
  destruct x as [| s | |]; try discriminate; intros _;
    destruct y as [| s' | |]; try reflexivity.
  destruct s, s'; reflexivity.
Qed.

(** [p / (y + p)] for an infinite [p]: infinity over infinity. *)
Lemma ratio_not_finite (p y : binary64) :
  is_finite p = false -> arith Div p (arith Add y p) = S754_nan.
Proof.
  destruct p as [| s | |]; try discriminate; intros _.
  - destruct y as [| s' | |]; try reflexivity. destruct s', s; reflexivity.
  - destruct y; reflexivity.
Qed.

End NotFinite.

(* ================================================================== *)
(** * Binary64: a single head whose off-rate is zero *)

Section SingleHead.

Import Binary64.

Variable exp : binary64 -> binary64.
Variable self : FullModel.t.
Variable total_force f : scalar.
Variable k : binary64.

Hypothesis HNh : FullModel.Nh self = Int 1.
Hypothesis Hload : snd (binary Div total_force (Int 1)) = Binary64.Ok f.
Hypothesis Hrate : snd (FullModel.k_off exp self f) = Binary64.Ok (Float64 k).
Hypothesis Hzero : is_zero k = true.

Ltac run :=
  repeat first
    [ rewrite snd_bind
    | rewrite Hload
    | rewrite Hrate
    | rewrite binary_float64 by reflexivity
    | rewrite binary_python by reflexivity
    | progress cbv beta iota
    | progress cbn [snd ret raise Binary64.foldM index app value zero
                    is_float64 is_int convertible] ].

(** The only product of the distribution: a quotient by zero. *)
Lemma single_head_product :
  exists P,
    snd (FullModel.prod_step exp self 1 total_force (Int 1) 0)
    = Binary64.Ok (Float64 P)
    /\ is_finite P = false.
Proof.
  unfold FullModel.prod_step.
  change (1 - 0)%Z with 1%Z. change (0 + 1)%Z with 1%Z.
  run. eexists. split; [reflexivity|].
  apply div_by_zero. destruct k; try discriminate. reflexivity.
Qed.

Lemma single_head_distribution :
  exists p0,
    snd (FullModel.calc_prob_dist exp self total_force)
    = Binary64.Ok [Float64 p0; Float64 S754_nan].
Proof.
  destruct single_head_product as (P & EP & HP).
  unfold FullModel.calc_prob_dist. rewrite HNh. cbn [index].
  rewrite snd_bind. cbn [snd ret].
  change (range 0 (1 + 1)) with [0%Z; 1%Z].
  change (range 1 (1 + 1)) with [1%Z].
  cbn [Binary64.foldM].
  change (range 0 0) with (@nil Z). change (range 0 1) with [0%Z].
  cbn [Binary64.foldM].
  repeat first [ rewrite snd_bind | rewrite EP
               | rewrite binary_float64 by reflexivity
               | progress cbv beta iota
               | progress cbn [snd ret app value] ].
  rewrite (ratio_not_finite P _ HP). eexists. reflexivity.
Qed.

Lemma single_head_rate :
  snd (FullModel.k_off_fil exp self total_force)
  = Binary64.Ok (Float64 S754_nan).
Proof.
  destruct single_head_distribution as (p0 & Ep).
  unfold FullModel.k_off_fil. rewrite snd_bind, Ep, HNh. cbn [index].
  rewrite snd_bind. cbn [snd ret].
  change (range 1 (1 + 1)) with [1%Z].
  cbn [Binary64.foldM].
  change (range 1 (1 + 1)) with [1%Z].
  cbn [Binary64.foldM].
  change (range 1 (1 + 1)) with [1%Z].
  cbn [Binary64.foldM].
  change (Binary64.getitem [Float64 p0; Float64 S754_nan] 1)
    with (ret (Float64 S754_nan)).
  run.
  rewrite ?arith_nan_r, ?arith_nan_l. reflexivity.
Qed.

End SingleHead.

(* ================================================================== *)
(** * Binary64: the division by the ring area *)

Section Kinds.

Import Binary64.

Lemma snd_bind_Ok_inv {A B : Type} (c : comp A) (f : A -> comp B) (b : B) :
  snd (bind c f) = Binary64.Ok b ->
  exists a, snd c = Binary64.Ok a /\ snd (f a) = Binary64.Ok b.
Proof.
  rewrite snd_bind. destruct (snd c) as [a|e]; [eauto|discriminate].
Qed.

Lemma convertible_neg (a : scalar) : convertible (neg a) = convertible a.
Proof.
  destruct a as [n|x|x]; try reflexivity.
  cbn [neg convertible]. unfold fits. now rewrite Z.abs_opp.
Qed.

Lemma is_float64_neg (a : scalar) : is_float64 (neg a) = is_float64 a.
Proof. destruct a; reflexivity. Qed.

Lemma is_int_neg (a : scalar) : is_int (neg a) = is_int a.
Proof. destruct a; reflexivity. Qed.

(** What Python's operations return is no [numpy.float64], and a
    quotient is a float. *)
Lemma binary_python_kind (op : binop) (a b c : scalar) :
  is_float64 a = false -> is_float64 b = false ->
  snd (binary op a b) = Binary64.Ok c ->
  is_float64 c = false
  /\ (op = Div \/ is_int a && is_int b = false -> is_int c = false).
Proof.
  destruct a as [m|x|x], b as [n|y|y]; try discriminate; intros _ _;
    unfold binary, int_op; cbn [float_of];
    repeat match goal with
           | |- context [fits ?n] => destruct (fits n)
           end;
    destruct op; cbn;
    repeat match goal with
           | |- context [if ?c then _ else _] => destruct c
           end;
    cbn; intros E; inversion E; subst; (split; [reflexivity|]);
    cbn; intros [H|H]; try discriminate; reflexivity.
Qed.

Lemma square_python_kind (a c : scalar) :
  is_float64 a = false ->
  snd (square a) = Binary64.Ok c ->
  is_float64 c = false /\ is_int c = is_int a.
Proof.
  destruct a as [n|x|x]; try discriminate; intros _; cbn [square].
  - intros E. inversion E. split; reflexivity.
  - destruct (is_finite x && is_inf (arith Mul x x)); intros E; inversion E.
    split; reflexivity.
Qed.

End Kinds.

Section FullArea.

Import Binary64.

Variable exp : binary64 -> binary64.
Variable self : FullModel.t.
Variables t force N : scalar.

(** On Python numbers the area is a Python float. *)
Lemma full_area_python (ar : scalar) :
  is_float64 force = false -> is_float64 (FullModel.k_p self) = false ->
  snd (FullModel.area self force) = Binary64.Ok ar ->
  is_float64 ar = false /\ is_int ar = false.
Proof.
  intros Hf Hk E. unfold FullModel.area in E.
  apply snd_bind_Ok_inv in E. destruct E as (d & Ed & E).
  apply snd_bind_Ok_inv in E. destruct E as (r & Er & E).
  apply snd_bind_Ok_inv in E. destruct E as (sq & Es & E).
  destruct (binary_python_kind _ _ _ _ Hf Hk Ed) as [Hd _].
  destruct (binary_python_kind Sub (Float (FullModel.R0 self)) d r eq_refl
              Hd Er) as [Hr _].
  destruct (square_python_kind _ _ Hr Es) as [Hs _].
  destruct (binary_python_kind Mul (Float pi) sq ar eq_refl Hs E)
    as [Ha Hi].
  split; [exact Ha|]. apply Hi. right. reflexivity.
Qed.

(** On a [numpy.float64] force the area is computed whatever the
    stiffness, and is a [numpy.float64]. *)
Lemma full_area_float64 (f : binary64) :
  force = Float64 f ->
  convertible (FullModel.k_p self) = true ->
  exists z, snd (FullModel.area self force) = Binary64.Ok (Float64 z).
Proof.
  intros -> Hk. unfold FullModel.area.
  rewrite snd_bind, binary_float64 by (try reflexivity; exact Hk).
  cbn [snd]. rewrite snd_bind, binary_float64 by reflexivity.
  cbn [snd square]. rewrite snd_bind. cbn [snd].
  rewrite binary_float64 by reflexivity. eexists. reflexivity.
Qed.

Hypothesis HA : is_float (FullModel.A0 self) = true.

Lemma full_A0_kind :
  is_float64 (FullModel.A0 self) = false /\ is_int (FullModel.A0 self) = false.
Proof. destruct (FullModel.A0 self); try discriminate. split; reflexivity. Qed.


(** A zero area in Python's arithmetic: the first quotient raises. *)
Lemma full_force_rate_zero_area (ar : scalar) :
  is_float64 ar = false -> is_int ar = false -> zero ar = true ->
  snd (FullModel.force_rate self force N ar)
  = Binary64.Raise Binary64.ZeroDivisionError.
Proof.
  intros Ha Hi Hz. unfold FullModel.force_rate.
  destruct full_A0_kind as [HA0 HA0'].
  rewrite snd_bind, binary_python;
    [|now rewrite is_float64_neg|exact Ha
     |now rewrite is_int_neg, HA0'
     |rewrite convertible_neg; now apply float_convertible
     |now apply float_convertible].
  rewrite Hz. reflexivity.
Qed.

(** A zero area in numpy's arithmetic: nothing is raised, and what is
    returned is not finite. *)
Lemma full_force_rate_float64 (f z : binary64) :
  force = Float64 f ->
  convertible (FullModel.tau self) = true ->
  is_int N = false ->
  exists r,
    snd (FullModel.force_rate self force N (Float64 z))
    = Binary64.Ok (Float64 r)
    /\ (is_zero z = true -> is_finite r = false).
Proof.
  intros -> Ht HN. unfold FullModel.force_rate.
  destruct full_A0_kind as [HA0 HA0'].
  assert (CA : convertible (FullModel.A0 self) = true)
    by now apply float_convertible.
  rewrite snd_bind, binary_float64;
    [|apply orb_true_r|now rewrite convertible_neg|reflexivity].
  cbn [snd].
  rewrite snd_bind, binary_float64; [|apply orb_true_r|exact CA|reflexivity].
  cbn [snd].
  rewrite snd_bind, binary_float64 by reflexivity. cbn [snd].
  rewrite snd_bind, binary_float64 by reflexivity. cbn [snd neg].
  rewrite snd_bind, binary_float64; [|reflexivity|reflexivity|exact Ht].
  cbn [snd].
  destruct (binary_with_float Mul (Float (FullModel.xi_rho_a2 self)) N)
    as (b1 & E1 & I1);
    [reflexivity|reflexivity|now apply float_convertible|left; discriminate|].
  rewrite snd_bind, E1.
  rewrite snd_bind, binary_float64;
    [|apply orb_true_r|now apply float_convertible|reflexivity].
  cbn [snd].
  rewrite snd_bind, binary_float64; [|reflexivity|reflexivity|exact Ht].
  cbn [snd].
  rewrite binary_float64 by reflexivity.
  eexists. split; [reflexivity|].
  intros Hz. cbn [value].
  apply add_not_finite_r, div_not_finite, mul_not_finite_r,
    mul_not_finite_l, div_by_zero, Hz.
Qed.

(** An area that is not zero, in Python's arithmetic. *)
Lemma full_force_rate_python (ar : scalar) :
  is_float64 force = false -> is_int force = false ->
  is_float64 N = false -> is_int N = false ->
  is_float64 (FullModel.tau self) = false ->
  is_int (FullModel.tau self) = false ->
  zero (FullModel.tau self) = false ->
  is_float64 ar = false -> is_int ar = false -> zero ar = false ->
  exists r,
    snd (FullModel.force_rate self force N ar) = Binary64.Ok (Float r).
Proof.
  intros Hf Hf' HN HN' Ht Ht' Htz Ha Ha' Haz. unfold FullModel.force_rate.
  destruct full_A0_kind as [HA0 HA0'].
  rewrite snd_bind, binary_python;
    [|now rewrite is_float64_neg|exact Ha
     |now rewrite is_int_neg, HA0'
     |rewrite convertible_neg; now apply float_convertible
     |now apply float_convertible].
  rewrite Haz. cbn [snd ret].
  rewrite snd_bind, binary_python;
    [|exact HA0|exact Ha|now rewrite HA0'
     |now apply float_convertible|now apply float_convertible].
  rewrite Haz. cbn [snd ret].
  rewrite snd_bind, binary_python by reflexivity. cbn [snd ret].
  rewrite snd_bind, binary_python by reflexivity. cbn [snd ret].
  rewrite snd_bind, binary_python;
    [|now rewrite is_float64_neg|exact Ht
     |now rewrite is_int_neg, Hf'
     |rewrite convertible_neg; now apply float_convertible
     |now apply float_convertible].
  rewrite Htz. cbn [snd ret].
  rewrite snd_bind, binary_python;
    [|reflexivity|exact HN|reflexivity|reflexivity
     |now apply float_convertible].
  cbn [snd ret].
  rewrite snd_bind, binary_python by reflexivity. cbn [snd ret].
  rewrite snd_bind, binary_python;
    [|reflexivity|exact Ht|reflexivity|reflexivity
     |now apply float_convertible].
  rewrite Htz. cbn [snd ret].
  rewrite binary_python by reflexivity. eexists. reflexivity.
Qed.

Lemma is_float_kind (a : scalar) :
  is_float a = true -> is_float64 a = false /\ is_int a = false.
Proof. destruct a; try discriminate. split; reflexivity. Qed.

(** ** [FullModel.velocity] and [FullModel.rhs] *)

Lemma full_velocity_zero_area (ar : scalar) :
  is_float64 force = false -> is_float64 (FullModel.k_p self) = false ->
  snd (FullModel.area self force) = Binary64.Ok ar ->
  zero ar = true ->
  snd (FullModel.velocity self t force N)
  = Binary64.Raise Binary64.ZeroDivisionError.
Proof.
  intros Hf Hk Ea Hz. unfold FullModel.velocity.
  destruct (full_area_python ar Hf Hk Ea) as [Ha Hi].
  rewrite snd_bind, Ea, snd_bind, full_force_rate_zero_area by assumption.
  reflexivity.
Qed.

Lemma full_rhs_zero_area (ar : scalar) (more : list scalar) :
  is_float64 force = false -> is_float64 (FullModel.k_p self) = false ->
  snd (FullModel.area self force) = Binary64.Ok ar ->
  zero ar = true ->
  snd (FullModel.rhs exp self t (force :: N :: more))
  = Binary64.Raise Binary64.ZeroDivisionError.
Proof.
  intros Hf Hk Ea Hz. unfold FullModel.rhs.
  change (Binary64.getitem (force :: N :: more) 0) with (ret force).
  change (Binary64.getitem (force :: N :: more) 1) with (ret N).
  destruct (full_area_python ar Hf Hk Ea) as [Ha Hi].
  rewrite snd_bind. cbn [snd ret]. rewrite snd_bind. cbn [snd ret].
  rewrite snd_bind, Ea, snd_bind, full_force_rate_zero_area by assumption.
  reflexivity.
Qed.

Lemma full_velocity_float64 (f : binary64) :
  force = Float64 f ->
  convertible (FullModel.k_p self) = true ->
  convertible (FullModel.tau self) = true ->
  is_int N = false ->
  exists z v,
    snd (FullModel.area self force) = Binary64.Ok (Float64 z)
    /\ snd (FullModel.velocity self t force N) = Binary64.Ok (Float64 v)
    /\ (is_zero z = true -> is_finite v = false).
Proof.
  intros Hf Hk Ht HN.
  destruct (full_area_float64 f Hf Hk) as (z & Ez).
  destruct (full_force_rate_float64 f z Hf Ht HN) as (r & Er & Hr).
  exists z. unfold FullModel.velocity.
  rewrite snd_bind, Ez, snd_bind, Er.
  rewrite binary_float64; [|reflexivity|reflexivity|exact Hk].
  eexists. split; [reflexivity|]. split; [reflexivity|].
  intros Hz. cbn [value]. apply div_not_finite, Hr, Hz.
Qed.

Lemma full_rhs_float64 (f : binary64) (n_h : Z) (more : list scalar) :
  force = Float64 f ->
  convertible (FullModel.k_p self) = true ->
  convertible (FullModel.tau self) = true ->
  is_int N = false ->
  FullModel.Nh self = Int n_h -> (1 <= n_h)%Z -> fits n_h = true ->
  convertible (FullModel.Nmax self) = true ->
  exists z force_prime N_prime,
    snd (FullModel.area self force) = Binary64.Ok (Float64 z)
    /\ snd (FullModel.rhs exp self t (force :: N :: more))
       = Binary64.Ok [Float64 force_prime; Float64 N_prime]
    /\ (is_zero z = true -> is_finite force_prime = false).
Proof.
  intros Hf Hk Ht HN HNh Hn Hfit HNmax.
  destruct (full_area_float64 f Hf Hk) as (z & Ez).
  destruct (full_force_rate_float64 f z Hf Ht HN) as (r & Er & Hr).
  destruct (k_off_fil_returns exp self n_h force Hfit
              (fun NB => float_load_per_head force n_h NB
                           ltac:(now rewrite Hf) Hfit) Hn HNh)
    as (kf & Ek).
  exists z, r. unfold FullModel.rhs.
  change (Binary64.getitem (force :: N :: more) 0) with (ret force).
  change (Binary64.getitem (force :: N :: more) 1) with (ret N).
  rewrite snd_bind. cbn [snd ret]. rewrite snd_bind. cbn [snd ret].
  rewrite snd_bind, Ez, snd_bind, Er.
  destruct (binary_with_float Sub (FullModel.Nmax self) N)
    as (n1 & E1 & I1);
    [now rewrite HN, andb_false_r|exact HNmax|now apply float_convertible
    |left; discriminate|].
  rewrite snd_bind, E1.
  destruct (binary_with_float Mul (Float (FullModel.k_on_fil self)) n1)
    as (n2 & E2 & I2);
    [reflexivity|reflexivity|now apply float_convertible|left; discriminate|].
  rewrite snd_bind, E2, snd_bind, Ek.
  rewrite snd_bind, binary_float64;
    [|reflexivity|reflexivity|now apply float_convertible].
  cbn [snd].
  rewrite snd_bind, binary_float64;
    [|apply orb_true_r|now apply float_convertible|reflexivity].
  cbn [snd ret]. eexists. split; [reflexivity|]. split; [reflexivity|exact Hr].
Qed.

Lemma full_velocity_python (ar : scalar) :
  is_float force = true -> is_float N = true ->
  is_float (FullModel.tau self) = true ->
  zero (FullModel.tau self) = false ->
  is_float64 (FullModel.k_p self) = false ->
  convertible (FullModel.k_p self) = true ->
  zero (FullModel.k_p self) = false ->
  snd (FullModel.area self force) = Binary64.Ok ar ->
  zero ar = false ->
  exists v, snd (FullModel.velocity self t force N) = Binary64.Ok (Float v).
Proof.
  intros Hf HN Ht Htz Hk Hkc Hkz Ea Haz.
  destruct (is_float_kind _ Hf) as [Hf1 Hf2].
  destruct (is_float_kind _ HN) as [HN1 HN2].
  destruct (is_float_kind _ Ht) as [Ht1 Ht2].
  destruct (full_area_python ar Hf1 Hk Ea) as [Ha Hi].
  destruct (full_force_rate_python ar Hf1 Hf2 HN1 HN2 Ht1 Ht2 Htz Ha Hi Haz)
    as (r & Er).
  unfold FullModel.velocity. rewrite snd_bind, Ea, snd_bind, Er.
  rewrite binary_python; [|reflexivity|exact Hk|reflexivity|reflexivity|exact Hkc].
  rewrite Hkz. eexists. reflexivity.
Qed.

Lemma full_rhs_python (ar : scalar) (n_h : Z) (more : list scalar) :
  is_float force = true -> is_float N = true ->
  is_float (FullModel.tau self) = true ->
  zero (FullModel.tau self) = false ->
  is_float64 (FullModel.k_p self) = false ->
  snd (FullModel.area self force) = Binary64.Ok ar ->
  zero ar = false ->
  FullModel.Nh self = Int n_h -> (1 <= n_h)%Z -> fits n_h = true ->
  convertible (FullModel.Nmax self) = true ->
  exists force_prime N_prime,
    snd (FullModel.rhs exp self t (force :: N :: more))
    = Binary64.Ok [Float force_prime; Float64 N_prime].
Proof.
  intros Hf HN Ht Htz Hk Ea Haz HNh Hn Hfit HNmax.
  destruct (is_float_kind _ Hf) as [Hf1 Hf2].
  destruct (is_float_kind _ HN) as [HN1 HN2].
  destruct (is_float_kind _ Ht) as [Ht1 Ht2].
  destruct (full_area_python ar Hf1 Hk Ea) as [Ha Hi].
  destruct (full_force_rate_python ar Hf1 Hf2 HN1 HN2 Ht1 Ht2 Htz Ha Hi Haz)
    as (r & Er).
  destruct (k_off_fil_returns exp self n_h force Hfit
              (fun NB => float_load_per_head force n_h NB Hf2 Hfit) Hn HNh)
    as (kf & Ek).
  unfold FullModel.rhs.
  change (Binary64.getitem (force :: N :: more) 0) with (ret force).
  change (Binary64.getitem (force :: N :: more) 1) with (ret N).
  rewrite snd_bind. cbn [snd ret]. rewrite snd_bind. cbn [snd ret].
  rewrite snd_bind, Ea, snd_bind, Er.
  destruct (binary_with_float Sub (FullModel.Nmax self) N)
    as (n1 & E1 & I1);
    [now rewrite HN2, andb_false_r|exact HNmax|now apply float_convertible
    |left; discriminate|].
  rewrite snd_bind, E1.
  destruct (binary_with_float Mul (Float (FullModel.k_on_fil self)) n1)
    as (n2 & E2 & I2);
    [reflexivity|reflexivity|now apply float_convertible|left; discriminate|].
  rewrite snd_bind, E2, snd_bind, Ek.
  rewrite snd_bind, binary_float64;
    [|reflexivity|reflexivity|now apply float_convertible].
  cbn [snd].
  rewrite snd_bind, binary_float64;
    [|apply orb_true_r|now apply float_convertible|reflexivity].
  cbn [snd ret]. eexists. eexists. reflexivity.
Qed.

End FullArea.

Section DensityArea.

Import Binary64.

Variable self : DensityModel.t.
Variables t force : scalar.

Lemma density_area_python (ar : scalar) :
  is_float64 force = false -> is_float64 (DensityModel.k_p self) = false ->
  snd (DensityModel.area self force) = Binary64.Ok ar ->
  is_float64 ar = false /\ is_int ar = false.
Proof.
  intros Hf Hk E. unfold DensityModel.area in E.
  apply snd_bind_Ok_inv in E. destruct E as (d & Ed & E).
  apply snd_bind_Ok_inv in E. destruct E as (r & Er & E).
  apply snd_bind_Ok_inv in E. destruct E as (sq & Es & E).
  destruct (binary_python_kind _ _ _ _ Hf Hk Ed) as [Hd _].
  destruct (binary_python_kind Sub (Float (DensityModel.R0 self)) d r eq_refl
              Hd Er) as [Hr _].
  destruct (square_python_kind _ _ Hr Es) as [Hs _].
  destruct (binary_python_kind Mul (Float pi) sq ar eq_refl Hs E)
    as [Ha Hi].
  split; [exact Ha|]. apply Hi. right. reflexivity.
Qed.

Lemma density_area_float64 (f : binary64) :
  force = Float64 f ->
  convertible (DensityModel.k_p self) = true ->
  exists z, snd (DensityModel.area self force) = Binary64.Ok (Float64 z).
Proof.
  intros -> Hk. unfold DensityModel.area.
  rewrite snd_bind, binary_float64 by (try reflexivity; exact Hk).
  cbn [snd]. rewrite snd_bind, binary_float64 by reflexivity.
  cbn [snd square]. rewrite snd_bind. cbn [snd].
  rewrite binary_float64 by reflexivity. eexists. reflexivity.
Qed.

Hypothesis HA : is_float (DensityModel.A0 self) = true.

Lemma density_A0_kind :
  is_float64 (DensityModel.A0 self) = false
  /\ is_int (DensityModel.A0 self) = false.
Proof. destruct (DensityModel.A0 self); try discriminate. split; reflexivity. Qed.

Lemma density_force_rate_zero_area (ar : scalar) :
  is_float64 ar = false -> is_int ar = false -> zero ar = true ->
  snd (DensityModel.force_rate self force ar)
  = Binary64.Raise Binary64.ZeroDivisionError.
Proof.
  intros Ha Hi Hz. unfold DensityModel.force_rate.
  destruct density_A0_kind as [HA0 HA0'].
  rewrite snd_bind, binary_python;
    [|now rewrite is_float64_neg|exact Ha
     |now rewrite is_int_neg, HA0'
     |rewrite convertible_neg; now apply float_convertible
     |now apply float_convertible].
  rewrite Hz. reflexivity.
Qed.

Lemma density_force_rate_float64 (f z : binary64) :
  force = Float64 f ->
  convertible (DensityModel.tau self) = true ->
  exists r,
    snd (DensityModel.force_rate self force (Float64 z))
    = Binary64.Ok (Float64 r)
    /\ (is_zero z = true -> is_finite r = false).
Proof.
  intros -> Ht. unfold DensityModel.force_rate.
  destruct density_A0_kind as [HA0 HA0'].
  assert (CA : convertible (DensityModel.A0 self) = true)
    by now apply float_convertible.
  rewrite snd_bind, binary_float64;
    [|apply orb_true_r|now rewrite convertible_neg|reflexivity].
  cbn [snd].
  rewrite snd_bind, binary_float64; [|apply orb_true_r|exact CA|reflexivity].
  cbn [snd].
  rewrite snd_bind, binary_float64 by reflexivity. cbn [snd].
  rewrite snd_bind, binary_float64 by reflexivity. cbn [snd neg].
  rewrite snd_bind, binary_float64; [|reflexivity|reflexivity|exact Ht].
  cbn [snd].
  rewrite snd_bind, binary_float64 by reflexivity. cbn [snd].
  rewrite snd_bind, binary_float64; [|reflexivity|reflexivity|exact Ht].
  cbn [snd].
  rewrite binary_float64 by reflexivity.
  eexists. split; [reflexivity|].
  intros Hz. cbn [value].
  apply add_not_finite_r, div_not_finite, mul_not_finite_r,
    mul_not_finite_l, div_by_zero, Hz.
Qed.

Lemma density_force_rate_python (ar : scalar) :
  is_float64 force = false -> is_int force = false ->
  is_float64 (DensityModel.tau self) = false ->
  is_int (DensityModel.tau self) = false ->
  zero (DensityModel.tau self) = false ->
  is_float64 ar = false -> is_int ar = false -> zero ar = false ->
  exists r,
    snd (DensityModel.force_rate self force ar) = Binary64.Ok (Float r).
Proof.
  intros Hf Hf' Ht Ht' Htz Ha Ha' Haz. unfold DensityModel.force_rate.
  destruct density_A0_kind as [HA0 HA0'].
  rewrite snd_bind, binary_python;
    [|now rewrite is_float64_neg|exact Ha
     |now rewrite is_int_neg, HA0'
     |rewrite convertible_neg; now apply float_convertible
     |now apply float_convertible].
  rewrite Haz. cbn [snd ret].
  rewrite snd_bind, binary_python;
    [|exact HA0|exact Ha|now rewrite HA0'
     |now apply float_convertible|now apply float_convertible].
  rewrite Haz. cbn [snd ret].
  rewrite snd_bind, binary_python by reflexivity. cbn [snd ret].
  rewrite snd_bind, binary_python by reflexivity. cbn [snd ret].
  rewrite snd_bind, binary_python;
    [|now rewrite is_float64_neg|exact Ht
     |now rewrite is_int_neg, Hf'
     |rewrite convertible_neg; now apply float_convertible
     |now apply float_convertible].
  rewrite Htz. cbn [snd ret].
  rewrite snd_bind, binary_python by reflexivity. cbn [snd ret].
  rewrite snd_bind, binary_python;
    [|reflexivity|exact Ht|reflexivity|reflexivity
     |now apply float_convertible].
  rewrite Htz. cbn [snd ret].
  rewrite binary_python by reflexivity. eexists. reflexivity.
Qed.

(** ** [DensityModel.velocity] and [DensityModel.rhs] *)

Lemma density_velocity_zero_area (ar : scalar) :
  is_float64 force = false -> is_float64 (DensityModel.k_p self) = false ->
  snd (DensityModel.area self force) = Binary64.Ok ar ->
  zero ar = true ->
  snd (DensityModel.velocity self t force)
  = Binary64.Raise Binary64.ZeroDivisionError.
Proof.
  intros Hf Hk Ea Hz. unfold DensityModel.velocity.
  destruct (density_area_python ar Hf Hk Ea) as [Ha Hi].
  rewrite snd_bind, Ea, snd_bind, density_force_rate_zero_area by assumption.
  reflexivity.
Qed.

Lemma density_rhs_zero_area (ar : scalar) (more : list scalar) :
  is_float64 force = false -> is_float64 (DensityModel.k_p self) = false ->
  snd (DensityModel.area self force) = Binary64.Ok ar ->
  zero ar = true ->
  snd (DensityModel.rhs self t (force :: more))
  = Binary64.Raise Binary64.ZeroDivisionError.
Proof.
  intros Hf Hk Ea Hz. unfold DensityModel.rhs.
  change (Binary64.getitem (force :: more) 0) with (ret force).
  destruct (density_area_python ar Hf Hk Ea) as [Ha Hi].
  rewrite snd_bind. cbn [snd ret].
  rewrite snd_bind, Ea, snd_bind, density_force_rate_zero_area by assumption.
  reflexivity.
Qed.

Lemma density_velocity_float64 (f : binary64) :
  force = Float64 f ->
  convertible (DensityModel.k_p self) = true ->
  convertible (DensityModel.tau self) = true ->
  exists z v,
    snd (DensityModel.area self force) = Binary64.Ok (Float64 z)
    /\ snd (DensityModel.velocity self t force) = Binary64.Ok (Float64 v)
    /\ (is_zero z = true -> is_finite v = false).
Proof.
  intros Hf Hk Ht.
  destruct (density_area_float64 f Hf Hk) as (z & Ez).
  destruct (density_force_rate_float64 f z Hf Ht) as (r & Er & Hr).
  exists z. unfold DensityModel.velocity.
  rewrite snd_bind, Ez, snd_bind, Er.
  rewrite binary_float64; [|reflexivity|reflexivity|exact Hk].
  eexists. split; [reflexivity|]. split; [reflexivity|].
  intros Hz. cbn [value]. apply div_not_finite, Hr, Hz.
Qed.

Lemma density_rhs_float64 (f : binary64) (more : list scalar) :
  force = Float64 f ->
  convertible (DensityModel.k_p self) = true ->
  convertible (DensityModel.tau self) = true ->
  exists z force_prime,
    snd (DensityModel.area self force) = Binary64.Ok (Float64 z)
    /\ snd (DensityModel.rhs self t (force :: more))
       = Binary64.Ok [Float64 force_prime]
    /\ (is_zero z = true -> is_finite force_prime = false).
Proof.
  intros Hf Hk Ht.
  destruct (density_area_float64 f Hf Hk) as (z & Ez).
  destruct (density_force_rate_float64 f z Hf Ht) as (r & Er & Hr).
  exists z, r. unfold DensityModel.rhs.
  change (Binary64.getitem (force :: more) 0) with (ret force).
  rewrite snd_bind. cbn [snd ret].
  rewrite snd_bind, Ez, snd_bind, Er. cbn [snd ret].
  split; [reflexivity|]. split; [reflexivity|exact Hr].
Qed.

Lemma density_velocity_python (ar : scalar) :
  is_float force = true ->
  is_float (DensityModel.tau self) = true ->
  zero (DensityModel.tau self) = false ->
  is_float64 (DensityModel.k_p self) = false ->
  convertible (DensityModel.k_p self) = true ->
  zero (DensityModel.k_p self) = false ->
  snd (DensityModel.area self force) = Binary64.Ok ar ->
  zero ar = false ->
  exists v, snd (DensityModel.velocity self t force) = Binary64.Ok (Float v).
Proof.
  intros Hf Ht Htz Hk Hkc Hkz Ea Haz.
  destruct (is_float_kind _ Hf) as [Hf1 Hf2].
  destruct (is_float_kind _ Ht) as [Ht1 Ht2].
  destruct (density_area_python ar Hf1 Hk Ea) as [Ha Hi].
  destruct (density_force_rate_python ar Hf1 Hf2 Ht1 Ht2 Htz Ha Hi Haz)
    as (r & Er).
  unfold DensityModel.velocity. rewrite snd_bind, Ea, snd_bind, Er.
  rewrite binary_python; [|reflexivity|exact Hk|reflexivity|reflexivity|exact Hkc].
  rewrite Hkz. eexists. reflexivity.
Qed.

Lemma density_rhs_python (ar : scalar) (more : list scalar) :
  is_float force = true ->
  is_float (DensityModel.tau self) = true ->
  zero (DensityModel.tau self) = false ->
  is_float64 (DensityModel.k_p self) = false ->
  snd (DensityModel.area self force) = Binary64.Ok ar ->
  zero ar = false ->
  exists force_prime,
    snd (DensityModel.rhs self t (force :: more))
    = Binary64.Ok [Float force_prime].
Proof.
  intros Hf Ht Htz Hk Ea Haz.
  destruct (is_float_kind _ Hf) as [Hf1 Hf2].
  destruct (is_float_kind _ Ht) as [Ht1 Ht2].
  destruct (density_area_python ar Hf1 Hk Ea) as [Ha Hi].
  destruct (density_force_rate_python ar Hf1 Hf2 Ht1 Ht2 Htz Ha Hi Haz)
    as (r & Er).
  unfold DensityModel.rhs.
  change (Binary64.getitem (force :: more) 0) with (ret force).
  rewrite snd_bind. cbn [snd ret].
  rewrite snd_bind, Ea, snd_bind, Er. cbn [snd ret]. eexists. reflexivity.
Qed.

End DensityArea.

(* ================================================================== *)
(** * Binary64: velos_numerical on a grid without spacing *)

Section ZeroSpacing.

Import Binary64.

Lemma sub_self (x : binary64) :
  is_finite x = true -> is_zero (arith Sub x x) = true.
Proof.
  destruct x as [s| s | |s m e]; try discriminate; intros _.
  - destruct s; reflexivity.
  - cbn [arith SFsub]. rewrite Z.sub_diag. reflexivity.
Qed.

Lemma mul_zero_l (z : binary64) (n : Z) :
  is_zero z = true -> is_finite (of_Z n) = true ->
  is_zero (arith Mul z (of_Z n)) = true.
Proof.
  destruct z; try discriminate. intros _. destruct (of_Z n); try discriminate;
    reflexivity.
Qed.

Lemma mul_zero_r (z : binary64) (n : Z) :
  is_zero z = true -> is_finite (of_Z n) = true ->
  is_zero (arith Mul (of_Z n) z) = true.
Proof.
  destruct z; try discriminate. intros _. destruct (of_Z n); try discriminate;
    reflexivity.
Qed.

Lemma getitem64_nth {A : Type} (l : list A) (j : Z) (d : A) :
  (0 <= j < Z.of_nat (List.length l))%Z ->
  Binary64.getitem l j = ret (nth (Z.to_nat j) l d).
Proof.
  intros H. unfold Binary64.getitem. now rewrite (getitem_nth l j d H).
Qed.

Lemma getitem64_from_end {A : Type} (l : list A) (k : Z) (d : A) :
  (0 < k <= Z.of_nat (List.length l))%Z ->
  Binary64.getitem l (- k) = ret (nth (List.length l - Z.to_nat k) l d).
Proof.
  intros H. unfold Binary64.getitem. now rewrite (getitem_from_end l k d H).
Qed.

Variables times displacements : list scalar.

Hypothesis Hlength : (2 <= List.length displacements)%nat.

Lemma setitem64_middle {A : Type} (l1 l2 : list A) (a v : A) (j : Z) :
  j = Z.of_nat (List.length l1) ->
  Binary64.setitem (l1 ++ a :: l2) j v = ret (l1 ++ v :: l2).
Proof.
  intros H. unfold Binary64.setitem. now rewrite (setitem_middle l1 l2 a v j H).
Qed.

Lemma setitem64_last {A : Type} (l1 : list A) (a v : A) :
  Binary64.setitem (l1 ++ [a]) (-1) v = ret (l1 ++ [v]).
Proof. unfold Binary64.setitem. now rewrite setitem_last. Qed.

(** On Python floats the first velocity is a quotient by zero. *)
Lemma velos_python_zero_spacing (x a b : binary64) :
  is_finite x = true ->
  nth_error times 0 = Some (Float x) ->
  nth_error times 1 = Some (Float x) ->
  nth_error displacements 0 = Some (Float a) ->
  nth_error displacements 1 = Some (Float b) ->
  snd (velos_numerical times displacements)
  = Binary64.Raise Binary64.ZeroDivisionError.
Proof.
  intros Hx H0 H1 Ha Hb.
  assert (Hn : (2 <= List.length times)%nat).
  { assert (H : nth_error times 1 <> None) by congruence.
    apply nth_error_Some in H. lia. }
  unfold velos_numerical.
  rewrite (getitem64_nth times 1 (Int 0)) by lia.
  rewrite (getitem64_nth times 0 (Int 0)) by lia.
  rewrite (getitem64_nth displacements 1 (Int 0)) by lia.
  rewrite (getitem64_nth displacements 0 (Int 0)) by lia.
  change (Z.to_nat 1) with 1%nat. change (Z.to_nat 0) with 0%nat.
  rewrite (nth_error_nth times 1 (Int 0) H1), (nth_error_nth times 0 (Int 0) H0).
  rewrite (nth_error_nth displacements 1 (Int 0) Hb),
    (nth_error_nth displacements 0 (Int 0) Ha).
  rewrite snd_bind. cbn [snd ret]. rewrite snd_bind. cbn [snd ret].
  rewrite snd_bind, binary_python by reflexivity. cbn [snd ret].
  rewrite snd_bind, binary_python by reflexivity. cbn [snd ret].
  rewrite snd_bind. cbn [snd ret]. rewrite snd_bind. cbn [snd ret].
  rewrite snd_bind, binary_python by reflexivity. cbn [snd ret].
  rewrite snd_bind, binary_python by reflexivity.
  cbn [zero value].
  rewrite mul_zero_l; [reflexivity|now apply sub_self|reflexivity].
Qed.

(** On numpy floats every velocity is a quotient by zero, and none is
    refused. *)
Lemma velos_float64_zero_spacing (x : binary64) :
  is_finite x = true ->
  nth_error times 0 = Some (Float64 x) ->
  nth_error times 1 = Some (Float64 x) ->
  Forall (fun d => is_int d = false) displacements ->
  (List.length times <= List.length displacements)%nat ->
  exists velos,
    snd (velos_numerical times displacements) = Binary64.Ok velos
    /\ List.length velos = List.length times
    /\ Forall (fun o => exists v, o = Some (Float64 v)
                                  /\ is_finite v = false) velos.
Proof.
  intros Hx H0 H1 Hd Hl.
  assert (Hn : (2 <= List.length times)%nat).
  { assert (H : nth_error times 1 <> None) by congruence.
    apply nth_error_Some in H. lia. }
  assert (Hget : forall j, (j < List.length displacements)%nat ->
                           is_int (nth j displacements (Int 0)) = false).
  { intros j Hj. rewrite Forall_forall in Hd. apply Hd. now apply nth_In. }
  set (z := arith Mul (arith Sub x x) (of_Z 60)).
  assert (Hz : is_zero z = true)
    by (apply mul_zero_l; [now apply sub_self|reflexivity]).
  assert (Hquot : forall a b,
             is_int a = false -> is_int b = false ->
             forall y, is_zero y = true ->
             exists v, snd (bind (binary Sub a b)
                                 (fun dd => binary Div dd (Float64 y)))
                       = Binary64.Ok (Float64 v)
                       /\ is_finite v = false).
  { intros a b Ia Ib y Hy.
    destruct (binary_with_float Sub a b) as (c & Ec & Ic);
      [now rewrite Ia|now apply float_convertible|now apply float_convertible
      |left; discriminate|].
    rewrite snd_bind, Ec.
    rewrite binary_float64;
      [|apply orb_true_r|now apply float_convertible|reflexivity].
    eexists. split; [reflexivity|]. now apply div_by_zero. }
  unfold velos_numerical.
  rewrite (getitem64_nth times 1 (Int 0)) by lia.
  rewrite (getitem64_nth times 0 (Int 0)) by lia.
  rewrite (getitem64_nth displacements 1 (Int 0)) by lia.
  rewrite (getitem64_nth displacements 0 (Int 0)) by lia.
  change (Z.to_nat 1) with 1%nat. change (Z.to_nat 0) with 0%nat.
  rewrite (nth_error_nth times 1 (Int 0) H1), (nth_error_nth times 0 (Int 0) H0).
  rewrite snd_bind. cbn [snd ret]. rewrite snd_bind. cbn [snd ret].
  rewrite snd_bind, binary_float64 by reflexivity. cbn [snd].
  rewrite snd_bind, binary_float64 by reflexivity. cbn [snd value]. fold z.
  rewrite snd_bind. cbn [snd ret]. rewrite snd_bind. cbn [snd ret].
  destruct (Hquot (nth 1 displacements (Int 0)) (nth 0 displacements (Int 0))
              ltac:(apply Hget; lia) ltac:(apply Hget; lia) z Hz)
    as (v0 & E0 & F0).
  rewrite snd_bind in E0.
  destruct (snd (binary Sub (nth 1 displacements (Int 0))
                        (nth 0 displacements (Int 0)))) as [dd|e] eqn:Edd;
    [|discriminate].
  rewrite snd_bind, Edd, snd_bind, E0.
  destruct (List.length times) as [|n] eqn:En; [lia|].
  cbn [repeat].
  match goal with
  | |- context [Binary64.setitem (None :: ?r) 0 ?v] =>
      change (Binary64.setitem (None :: r) 0 v)
        with (Binary64.setitem ([] ++ None :: r) 0 v)
  end.
  rewrite setitem64_middle by reflexivity.
  rewrite snd_bind. cbn [snd ret app].
  match goal with
  | |- context [Binary64.foldM ?f (range 1 ?hi) ?s] =>
      destruct (foldM_range_returns f
                  (fun i velos =>
                     exists done,
                       velos = done ++ repeat None (Z.to_nat (Z.of_nat (S n) - i))
                       /\ Z.of_nat (List.length done) = i
                       /\ Forall (fun o => exists v, o = Some (Float64 v)
                                                     /\ is_finite v = false)
                                 done)
                  1 hi s) as (velos & Ev & done & -> & Hdone & Hall)
  end.
  - lia.
  - exists [Some (Float64 v0)]. split; [|split].
    + cbn [app]. do 2 f_equal. lia.
    + reflexivity.
    + constructor; [eauto|constructor].
  - intros i velos Hi (done & -> & Hdone & Hall).
    rewrite (getitem64_nth displacements (i + 1) (Int 0)) by lia.
    rewrite (getitem64_nth displacements (i - 1) (Int 0)) by lia.
    rewrite snd_bind. cbn [snd ret]. rewrite snd_bind. cbn [snd ret].
    destruct (binary_with_float Sub
                (nth (Z.to_nat (i + 1)) displacements (Int 0))
                (nth (Z.to_nat (i - 1)) displacements (Int 0)))
      as (c & Ec & Ic);
      [rewrite Hget by lia; reflexivity
      |apply float_convertible, Hget; lia
      |apply float_convertible, Hget; lia|left; discriminate|].
    rewrite snd_bind, Ec.
    rewrite snd_bind, binary_float64 by reflexivity. cbn [snd value].
    rewrite snd_bind, binary_float64;
      [|apply orb_true_r|now apply float_convertible|reflexivity].
    cbn [snd value].
    replace (Z.to_nat (Z.of_nat (S n) - i))
      with (S (Z.to_nat (Z.of_nat (S n) - (i + 1)))) by lia.
    cbn [repeat].
    rewrite setitem64_middle by lia.
    eexists. split; [reflexivity|].
    eexists (done ++ [Some (Float64 _)]). split; [|split].
    + rewrite <- app_assoc. reflexivity.
    + rewrite length_app. cbn [List.length]. lia.
    + apply Forall_app. split; [exact Hall|].
      constructor; [|constructor].
      eexists. split; [reflexivity|].
      apply div_by_zero, mul_zero_r; [exact Hz|reflexivity].
  - rewrite snd_bind, Ev.
    change (Binary64.getitem displacements (-1))
      with (Binary64.getitem displacements (- (1))%Z).
    change (Binary64.getitem displacements (-2))
      with (Binary64.getitem displacements (- (2))%Z).
    rewrite (getitem64_from_end displacements 1 (Int 0)) by lia.
    rewrite (getitem64_from_end displacements 2 (Int 0)) by lia.
    rewrite snd_bind. cbn [snd ret]. rewrite snd_bind. cbn [snd ret].
    destruct (Hquot (nth (List.length displacements - Z.to_nat 1)
                         displacements (Int 0))
                    (nth (List.length displacements - Z.to_nat 2)
                         displacements (Int 0))
                ltac:(apply Hget; lia) ltac:(apply Hget; lia) z Hz)
      as (vl & El & Fl).
    rewrite snd_bind in El.
    match type of El with
    | context [snd (binary Sub ?a ?b)] =>
        destruct (snd (binary Sub a b)) as [dl|e] eqn:Edl; [|discriminate]
    end.
    rewrite snd_bind, Edl, snd_bind, El.
    replace (Z.to_nat (Z.of_nat (S n) - (Z.of_nat (S n) - 1))) with 1%nat
      by lia.
    cbn [repeat]. rewrite setitem64_last. cbn [snd ret].
    eexists. split; [reflexivity|]. split.
    + rewrite length_app. cbn [List.length]. lia.
    + apply Forall_app. split; [exact Hall|].
      constructor; [eauto|constructor].
Qed.

End ZeroSpacing.

(* ================================================================== *)
(** * Binary64: the sign of the filament off-rate *)

Section Signs.

Import Binary64.

Lemma round_sign (m e : Z) (l : location) :
  sign (binary_round_aux prec emax false m e l) = false.
Proof.
  unfold binary_round_aux.
  destruct (shr_fexp prec emax m e l) as [mrs' e'].
  destruct (shr_fexp prec emax _ e' loc_Exact) as [mrs'' e''].
  destruct (shr_m mrs''); [reflexivity| |reflexivity].
  destruct (e'' <=? emax - prec)%Z; reflexivity.
Qed.

Lemma normalize_sign (m e : Z) :
  (0 <= m)%Z -> sign (binary_normalize prec emax m e false) = false.
Proof.
  destruct m as [|p|p]; [reflexivity| |lia]. intros _.
  unfold binary_normalize, binary_round.
  destruct (shl_align _ _ _) as [mz ez]. apply round_sign.
Qed.

Lemma of_Z_sign (n : Z) : (0 <= n)%Z -> sign (of_Z n) = false.
Proof. intros H. unfold of_Z. now apply normalize_sign. Qed.

Lemma mul_sign (x y : binary64) :
  sign x = false -> sign y = false -> sign (arith Mul x y) = false.
Proof.
  destruct x as [sx|sx| |sx mx ex], y as [sy|sy| |sy my ey];
    cbn [sign]; intros Hx Hy; subst; cbn [arith SFmul xorb]; try reflexivity.
  apply round_sign.
Qed.

Lemma div_sign (x y : binary64) :
  sign x = false -> sign y = false -> sign (arith Div x y) = false.
Proof.
  destruct x as [sx|sx| |sx mx ex], y as [sy|sy| |sy my ey];
    cbn [sign]; intros Hx Hy; subst; cbn [arith SFdiv xorb]; try reflexivity.
  destruct (SFdiv_core_binary prec emax _ _ _ _) as [[mz ez] lz].
  apply round_sign.
Qed.

Lemma add_sign (x y : binary64) :
  sign x = false -> sign y = false -> sign (arith Add x y) = false.
Proof.
  destruct x as [sx|sx| |sx mx ex], y as [sy|sy| |sy my ey];
    cbn [sign]; intros Hx Hy; subst; cbn [arith SFadd xorb]; try reflexivity.
  apply normalize_sign. cbn [cond_Zopp]. lia.
Qed.

Lemma arith_sign (op : binop) (x y : binary64) :
  op <> Sub -> sign x = false -> sign y = false ->
  sign (arith op x y) = false.
Proof.
  destruct op; intros Hop; [apply add_sign|congruence|apply mul_sign
                            |apply div_sign].
Qed.

(** [0. <= c] leaves a clear sign bit or a zero, [-0.] included; [0. < c]
    a clear sign bit. *)
Lemma leb_zero_cases (c : binary64) :
  SFleb (S754_zero false) c = true -> sign c = false \/ is_zero c = true.
Proof.
  destruct c as [s|s| |s m e]; cbn; try discriminate; try (right; reflexivity);
    destruct s; try discriminate; left; reflexivity.
Qed.

Lemma ltb_zero_sign (c : binary64) :
  SFltb (S754_zero false) c = true -> sign c = false.
Proof.
  destruct c as [s|s| |s m e]; cbn; try discriminate;
    destruct s; try discriminate; reflexivity.
Qed.

Lemma mul_zero_cases (z y : binary64) :
  is_zero z = true ->
  is_zero (arith Mul z y) = true \/ arith Mul z y = S754_nan.
Proof.
  destruct z as [s| | |]; try discriminate. intros _.
  destruct y; cbn; auto.
Qed.

Lemma add_zero_l (z y : binary64) :
  is_zero z = true -> sign y = false -> sign (arith Add z y) = false.
Proof.
  destruct z as [s| | |]; try discriminate. intros _.
  destruct y as [sy|sy| |sy my ey]; cbn [sign]; intros Hy; subst;
    try reflexivity.
  destruct s; reflexivity.
Qed.

Lemma add_zero_r (x z : binary64) :
  is_zero z = true -> sign x = false -> sign (arith Add x z) = false.
Proof.
  destruct z as [s| | |]; try discriminate. intros _.
  destruct x as [sx|sx| |sx mx ex]; cbn [sign]; intros Hx; subst;
    try reflexivity.
  destruct s; reflexivity.
Qed.

(** The head off-rate [k_off0_catch * e1 + k_off0_slip * e2]: with base
    rates [>= 0.] that are not both zero and exponentials that are not
    negative, its sign bit is clear. *)
Lemma rate_sign (c s e1 e2 : binary64) :
  SFleb (S754_zero false) c = true ->
  SFleb (S754_zero false) s = true ->
  is_zero c && is_zero s = false ->
  sign e1 = false -> sign e2 = false ->
  sign (arith Add (arith Mul c e1) (arith Mul s e2)) = false.
Proof.
  intros Hc Hs Hnz H1 H2.
  destruct (leb_zero_cases c Hc) as [Sc|Zc];
    destruct (leb_zero_cases s Hs) as [Ss|Zs].
  - apply add_sign; now apply mul_sign.
  - destruct (mul_zero_cases s e2 Zs) as [Z|N].
    + apply add_zero_r; [exact Z|now apply mul_sign].
    + rewrite N. destruct (arith Mul c e1); reflexivity.
  - destruct (mul_zero_cases c e1 Zc) as [Z|N].
    + apply add_zero_l; [exact Z|now apply mul_sign].
    + rewrite N. reflexivity.
  - rewrite Zc, Zs in Hnz. discriminate.
Qed.

Lemma unrounded_sign (n : Z) : (0 <= n)%Z -> sign (unrounded n) = false.
Proof. destruct n; [reflexivity|reflexivity|lia]. Qed.

Lemma float_of_unsigned (a : scalar) (x : binary64) :
  unsigned a = true -> snd (float_of a) = Binary64.Ok x -> sign x = false.
Proof.
  destruct a as [n|y|y]; cbn [unsigned float_of].
  - intros Hn. destruct (fits n); cbn; intros E; inversion E.
    apply of_Z_sign. now apply Z.leb_le.
  - intros Hy E. inversion E. subst. now destruct (sign x).
  - intros Hy E. inversion E. subst. now destruct (sign x).
Qed.

(** Sums, products and quotients of numbers that are not negative are not
    negative. *)
Lemma binary_unsigned (op : binop) (a b c : scalar) :
  op <> Sub ->
  unsigned a = true -> unsigned b = true ->
  snd (binary op a b) = Binary64.Ok c -> unsigned c = true.
Proof.
  intros Hop Ha Hb.
  assert (G : forall x y,
             snd (float_of a) = Binary64.Ok x ->
             snd (float_of b) = Binary64.Ok y ->
             sign (arith op x y) = false).
  { intros x y Ex Ey. apply arith_sign; [exact Hop| |].
    - exact (float_of_unsigned a x Ha Ex).
    - exact (float_of_unsigned b y Hb Ey). }
  assert (F : snd (bind (float_of a) (fun x =>
                   bind (float_of b) (fun y =>
                   if is_float64 a || is_float64 b
                   then (flags op x y,
                         Binary64.Ok (Float64 (arith op x y)))
                   else match op with
                        | Div => if zero b
                                 then raise Binary64.ZeroDivisionError
                                 else ret (Float (arith Div x y))
                        | _ => ret (Float (arith op x y))
                        end))) = Binary64.Ok c ->
              unsigned c = true).
  { rewrite snd_bind. destruct (snd (float_of a)) as [x|] eqn:Ex;
      [|discriminate].
    rewrite snd_bind. destruct (snd (float_of b)) as [y|] eqn:Ey;
      [|discriminate].
    specialize (G x y eq_refl eq_refl).
    destruct (is_float64 a || is_float64 b).
    - cbn [snd]. intros E. injection E as <-.
      apply negb_true_iff. exact G.
    - destruct op; try congruence;
        try (cbn [snd ret]; intros E; injection E as <-;
             apply negb_true_iff; exact G).
      destruct (zero b); cbn [snd ret raise]; intros E; [discriminate|].
      injection E as <-. apply negb_true_iff. exact G. }
  destruct a as [m|x|x], b as [n|y|y]; try exact F.
  clear F G. cbn [unsigned] in Ha, Hb.
  apply Z.leb_le in Ha. apply Z.leb_le in Hb.
  unfold binary, int_op. destruct op; try congruence.
  - cbn. intros E. inversion E. cbn [unsigned]. apply Z.leb_le. lia.
  - cbn. intros E. inversion E. cbn [unsigned]. apply Z.leb_le. nia.
  - destruct (n =? 0)%Z; [discriminate|].
    cbv zeta.
    destruct (is_inf _) eqn:Ei; cbn; intros E; inversion E.
    apply negb_true_iff.
    apply (div_sign (unrounded m) (unrounded n)); now apply unrounded_sign.
Qed.

Lemma np_exp_value (exp : binary64 -> binary64) (a e : scalar) :
  snd (np_exp exp a) = Binary64.Ok e -> exists x, e = Float64 (exp x).
Proof.
  unfold np_exp. rewrite snd_bind.
  destruct (snd (float_of a)) as [x|]; [|discriminate].
  cbn. intros E. inversion E. eauto.
Qed.

(** The loop rule for a property of the state that every pass keeps. *)
Lemma foldM_invariant {St A : Type} (f : St -> A -> comp St)
      (P : St -> Prop) (l : list A) (s r : St) :
  P s ->
  (forall x a x', In a l -> P x -> snd (f x a) = Binary64.Ok x' -> P x') ->
  snd (Binary64.foldM f l s) = Binary64.Ok r -> P r.
Proof.
  revert s. induction l as [|a l IH]; intros s Hs Hstep.
  - cbn. intros E. injection E as <-. exact Hs.
  - cbn [Binary64.foldM]. rewrite snd_bind.
    destruct (snd (f s a)) as [x'|] eqn:E; [|discriminate].
    apply IH.
    + apply (Hstep s a x'); [now left|exact Hs|exact E].
    + intros x b y Hb. apply Hstep. now right.
Qed.

Lemma foldM_unsigned {A : Type} (f : scalar -> A -> comp scalar)
      (l : list A) (s r : scalar) :
  unsigned s = true ->
  (forall x a x', In a l -> unsigned x = true ->
                  snd (f x a) = Binary64.Ok x' -> unsigned x' = true) ->
  snd (Binary64.foldM f l s) = Binary64.Ok r -> unsigned r = true.
Proof. exact (foldM_invariant f (fun a => unsigned a = true) l s r). Qed.

Lemma getitem_In {A : Type} (l : list A) (j : Z) (a : A) :
  snd (Binary64.getitem l j) = Binary64.Ok a -> In a l.
Proof.
  unfold Binary64.getitem.
  destruct (Py.getitem l j) as [x|e] eqn:E; cbn; [|discriminate].
  intros H. injection H as <-.
  unfold Py.getitem in E. cbv zeta in E.
  match type of E with
  | (if ?c then _ else _) = _ => destruct c; [discriminate|]
  end.
  destruct (nth_error l _) eqn:En; [|discriminate].
  injection E as <-. now apply nth_error_In in En.
Qed.

Variable exp : binary64 -> binary64.
Variable self : FullModel.t.

Hypothesis Hexp : forall x, sign (exp x) = false.
Hypothesis Hon : SFltb (S754_zero false) (FullModel.k_on self) = true.
Hypothesis Hcatch :
  SFleb (S754_zero false) (FullModel.k_off0_catch self) = true.
Hypothesis Hslip :
  SFleb (S754_zero false) (FullModel.k_off0_slip self) = true.
Hypothesis Hrates :
  is_zero (FullModel.k_off0_catch self)
  && is_zero (FullModel.k_off0_slip self) = false.

Lemma k_off_unsigned (force k : scalar) :
  snd (FullModel.k_off exp self force) = Binary64.Ok k -> unsigned k = true.
Proof.
  unfold FullModel.k_off. intros E.
  apply snd_bind_Ok_inv in E. destruct E as (c1 & _ & E).
  apply snd_bind_Ok_inv in E. destruct E as (c2 & _ & E).
  apply snd_bind_Ok_inv in E. destruct E as (e1 & E1 & E).
  apply np_exp_value in E1. destruct E1 as (x1 & ->).
  rewrite snd_bind, binary_float64 in E by reflexivity. cbn [snd value] in E.
  apply snd_bind_Ok_inv in E. destruct E as (s1 & _ & E).
  apply snd_bind_Ok_inv in E. destruct E as (s2 & _ & E).
  apply snd_bind_Ok_inv in E. destruct E as (e2 & E2 & E).
  apply np_exp_value in E2. destruct E2 as (x2 & ->).
  rewrite snd_bind, binary_float64 in E by reflexivity. cbn [snd value] in E.
  rewrite binary_float64 in E by reflexivity. cbn [snd value] in E.
  injection E as <-. apply negb_true_iff.
  apply (rate_sign (FullModel.k_off0_catch self) (FullModel.k_off0_slip self)
           (exp x1) (exp x2)); auto.
Qed.

Variable n_h : Z.
Variable total_force : scalar.

Lemma k_on_unsigned : unsigned (Float (FullModel.k_on self)) = true.
Proof. cbn [unsigned]. now rewrite (ltb_zero_sign _ Hon). Qed.

Lemma prod_step_unsigned (acc r : scalar) (i : Z) :
  (0 <= i < n_h)%Z ->
  unsigned acc = true ->
  snd (FullModel.prod_step exp self n_h total_force acc i) = Binary64.Ok r ->
  unsigned r = true.
Proof.
  intros Hi Hacc E. unfold FullModel.prod_step in E.
  apply snd_bind_Ok_inv in E. destruct E as (a & Ea & E).
  apply snd_bind_Ok_inv in E. destruct E as (num & Enum & E).
  apply snd_bind_Ok_inv in E. destruct E as (f & _ & E).
  apply snd_bind_Ok_inv in E. destruct E as (k & Ek & E).
  apply snd_bind_Ok_inv in E. destruct E as (den & Eden & E).
  assert (Ha : unsigned a = true).
  { apply (binary_unsigned Mul (Int (n_h - i)) (Float (FullModel.k_on self)));
      [discriminate| |exact k_on_unsigned|exact Ea].
    apply Z.leb_le. lia. }
  assert (Hnum : unsigned num = true).
  { now apply (binary_unsigned Mul acc a). }
  assert (Hk : unsigned k = true) by exact (k_off_unsigned f k Ek).
  assert (Hden : unsigned den = true).
  { apply (binary_unsigned Mul (Int (i + 1)) k);
      [discriminate| |exact Hk|exact Eden].
    apply Z.leb_le. lia. }
  now apply (binary_unsigned Div num den).
Qed.

Lemma prod_loop_unsigned (n : Z) (r : scalar) :
  (n <= n_h)%Z ->
  snd (Binary64.foldM (FullModel.prod_step exp self n_h total_force)
                      (range 0 n) (Int 1)) = Binary64.Ok r ->
  unsigned r = true.
Proof.
  intros Hn. apply foldM_unsigned; [reflexivity|].
  intros x i x' Hi Hx. apply in_range in Hi.
  apply prod_step_unsigned; [lia|exact Hx].
Qed.

Hypothesis HNh : FullModel.Nh self = Int n_h.

Lemma calc_prob_dist_unsigned (pns : list scalar) :
  snd (FullModel.calc_prob_dist exp self total_force) = Binary64.Ok pns ->
  Forall (fun p => unsigned p = true) pns.
Proof.
  unfold FullModel.calc_prob_dist. rewrite HNh. cbn [index].
  rewrite snd_bind. cbn [snd ret].
  apply (foldM_invariant _ (Forall (fun p => unsigned p = true)));
    [constructor|].
  intros x n x' Hn Hx E. apply in_range in Hn.
  apply snd_bind_Ok_inv in E. destruct E as (nom & Enom & E).
  apply snd_bind_Ok_inv in E. destruct E as (denom & Edenom & E).
  apply snd_bind_Ok_inv in E. destruct E as (p & Ep & E).
  cbn in E. injection E as <-.
  apply Forall_app. split; [exact Hx|]. constructor; [|constructor].
  apply (binary_unsigned Div nom denom); [discriminate| | |exact Ep].
  - apply (prod_loop_unsigned n); [lia|exact Enom].
  - revert Edenom. apply foldM_unsigned; [reflexivity|].
    intros d k d' Hk Hd Ed. apply in_range in Hk.
    apply snd_bind_Ok_inv in Ed. destruct Ed as (prod & Eprod & Ed).
    apply (binary_unsigned Add d prod); [discriminate|exact Hd| |exact Ed].
    apply (prod_loop_unsigned k); [lia|exact Eprod].
Qed.

(** The filament off-rate, when [k_off_fil] returns one, is not negative:
    nan, or a number with a clear sign bit. *)
Lemma k_off_fil_unsigned (r : scalar) :
  snd (FullModel.k_off_fil exp self total_force) = Binary64.Ok r ->
  unsigned r = true.
Proof.
  unfold FullModel.k_off_fil. intros E.
  apply snd_bind_Ok_inv in E. destruct E as (pns & Epns & E).
  pose proof (calc_prob_dist_unsigned pns Epns) as Hpns.
  rewrite Forall_forall in Hpns.
  rewrite HNh in E. cbn [index] in E.
  rewrite snd_bind in E. cbn [snd ret] in E.
  apply snd_bind_Ok_inv in E. destruct E as (T_off_av & ET & E).
  apply (binary_unsigned Div (Int 1) T_off_av);
    [discriminate|reflexivity| |exact E].
  revert ET. apply foldM_unsigned; [reflexivity|].
  intros Tav NB_init Tav' _ HTav Estep.
  apply snd_bind_Ok_inv in Estep. destruct Estep as (T_off & ETo & Estep).
  apply snd_bind_Ok_inv in Estep. destruct Estep as (pinit & Epi & Estep).
  apply snd_bind_Ok_inv in Estep. destruct Estep as (w & Ew & Estep).
  apply (binary_unsigned Add Tav w); [discriminate|exact HTav| |exact Estep].
  apply (binary_unsigned Mul pinit T_off); [discriminate| | |exact Ew].
  - apply Hpns. exact (getitem_In pns NB_init pinit Epi).
  - revert ETo. apply foldM_unsigned; [reflexivity|].
    intros T NB T' HNB HT ENB. apply in_range in HNB.
    apply snd_bind_Ok_inv in ENB. destruct ENB as (s & Es & ENB).
    apply snd_bind_Ok_inv in ENB. destruct ENB as (f & _ & ENB).
    apply snd_bind_Ok_inv in ENB. destruct ENB as (k & Ek & ENB).
    apply snd_bind_Ok_inv in ENB. destruct ENB as (d1 & Ed1 & ENB).
    apply snd_bind_Ok_inv in ENB. destruct ENB as (pNB & EpNB & ENB).
    apply snd_bind_Ok_inv in ENB. destruct ENB as (d2 & Ed2 & ENB).
    apply snd_bind_Ok_inv in ENB. destruct ENB as (q & Eq & ENB).
    apply snd_bind_Ok_inv in ENB. destruct ENB as (qs & Eqs & ENB).
    assert (Hs : unsigned s = true).
    { revert Es. apply foldM_unsigned; [reflexivity|].
      intros s0 j s1 _ Hs0 Ej.
      apply snd_bind_Ok_inv in Ej. destruct Ej as (pj & Epj & Ej).
      apply (binary_unsigned Add s0 pj); [discriminate|exact Hs0| |exact Ej].
      apply Hpns. exact (getitem_In pns j pj Epj). }
    assert (Hk : unsigned k = true) by exact (k_off_unsigned f k Ek).
    assert (Hd1 : unsigned d1 = true).
    { apply (binary_unsigned Mul (Int NB) k);
        [discriminate| |exact Hk|exact Ed1].
      apply Z.leb_le. lia. }
    assert (Hd2 : unsigned d2 = true).
    { apply (binary_unsigned Mul d1 pNB); [discriminate|exact Hd1| |exact Ed2].
      apply Hpns. exact (getitem_In pns NB pNB EpNB). }
    assert (Hq : unsigned q = true).
    { now apply (binary_unsigned Div (Int 1) d2). }
    assert (Hqs : unsigned qs = true).
    { now apply (binary_unsigned Mul q s). }
    now apply (binary_unsigned Add T qs).
Qed.

End Signs.

(* ================================================================== *)
(** * Binary64: a denominator of the filament off-rate that is zero *)

Section ZeroDenominator.

Import Binary64.

(** The value of an operation that is not one of two ints. *)
Lemma binary_value (op : binop) (a b c : scalar) :
  is_int a && is_int b = false ->
  snd (binary op a b) = Binary64.Ok c ->
  value c = arith op (value a) (value b) /\ is_int c = false.
Proof.
  destruct a as [m|x|x], b as [n|y|y]; cbn [is_int andb]; try discriminate;
    intros _; unfold binary; cbn [float_of is_float64 orb value];
    repeat match goal with
           | |- context [if fits ?n then _ else _] => destruct (fits n)
           end;
    cbn [bind ret raise snd];
    try discriminate;
    try (intros E; injection E as <-; split; reflexivity);
    destruct op; cbn [snd ret raise];
    repeat match goal with
           | |- context [if ?c then _ else _] => destruct c
           end;
    cbn [snd ret raise]; try discriminate;
    intros E; injection E as <-; split; reflexivity.
Qed.

(** The loop rule for a property of the state that depends on the index. *)
Lemma foldM_range_partial {St : Type} (f : St -> Z -> comp St)
      (Inv : Z -> St -> Prop) (lo hi : Z) (s r : St) :
  (lo <= hi)%Z ->
  Inv lo s ->
  (forall i x x', (lo <= i < hi)%Z -> Inv i x ->
                  snd (f x i) = Binary64.Ok x' -> Inv (i + 1)%Z x') ->
  snd (Binary64.foldM f (range lo hi) s) = Binary64.Ok r ->
  Inv hi r.
Proof.
  intros Hle H0 Hstep.
  assert (G : forall n r', (lo + Z.of_nat n <= hi)%Z ->
            snd (Binary64.foldM f (range lo (lo + Z.of_nat n)) s)
            = Binary64.Ok r' ->
            Inv (lo + Z.of_nat n)%Z r').
  { induction n as [|n IH]; intros r' Hn.
    - replace (lo + Z.of_nat 0)%Z with lo by lia.
      rewrite range_empty by lia. cbn. intros E. injection E as <-. exact H0.
    - replace (lo + Z.of_nat (S n))%Z with (lo + Z.of_nat n + 1)%Z by lia.
      rewrite range_snoc by lia. rewrite snd_foldM_app.
      destruct (snd (Binary64.foldM f (range lo (lo + Z.of_nat n)) s))
        as [s1|] eqn:E1; [|discriminate].
      cbn [Binary64.foldM]. rewrite snd_bind.
      destruct (snd (f s1 (lo + Z.of_nat n)%Z)) as [s2|] eqn:E2;
        [|discriminate].
      cbn. intros E. injection E as <-.
      apply (Hstep (lo + Z.of_nat n)%Z s1 s2); [lia| |exact E2].
      apply IH; [lia|reflexivity]. }
  intros E. specialize (G (Z.to_nat (hi - lo)) r).
  replace (lo + Z.of_nat (Z.to_nat (hi - lo)))%Z with hi in G by lia.
  apply G; [lia|exact E].
Qed.

Lemma add_not_finite_l (x y : binary64) :
  is_finite x = false -> is_finite (arith Add x y) = false.
Proof.
  destruct x as [| s | |]; try discriminate; intros _;
    destruct y as [| s' | |]; try reflexivity.
  destruct s, s'; reflexivity.
Qed.

(** The reciprocal of an infinity is a zero, that of nan is nan. *)
Lemma reciprocal_not_finite (x y : binary64) :
  is_finite x = true -> is_finite y = false ->
  is_nan (arith Div x y) || is_zero (arith Div x y) = true.
Proof.
  destruct y as [| s | |]; try discriminate; intros Hx _;
    destruct x; try discriminate; reflexivity.
Qed.

Lemma mul_by_zero (x z : binary64) :
  is_zero z = true ->
  is_zero (arith Mul x z) = true \/ is_nan (arith Mul x z) = true.
Proof.
  destruct z as [s| | |]; try discriminate. intros _.
  destruct x; cbn; auto.
Qed.

Lemma zero_by_mul (z y : binary64) :
  is_zero z = true ->
  is_zero (arith Mul z y) = true \/ is_nan (arith Mul z y) = true.
Proof.
  destruct z as [s| | |]; try discriminate. intros _.
  destruct y; cbn; auto.
Qed.

Lemma nan_by_mul (x y : binary64) :
  is_nan x = true -> is_nan (arith Mul x y) = true.
Proof. destruct x; try discriminate. reflexivity. Qed.

(** A quotient by a zero or by nan is not finite. *)
Lemma div_by_zero_or_nan (x z : binary64) :
  is_zero z = true \/ is_nan z = true -> is_finite (arith Div x z) = false.
Proof.
  intros [H|H]; [now apply div_by_zero|].
  destruct z; try discriminate. now rewrite arith_nan_r.
Qed.

Lemma zero_value (a : scalar) : zero a = true -> is_zero (value a) = true.
Proof.
  destruct a as [n|x|x]; cbn [zero value]; try tauto.
  intros H. apply Z.eqb_eq in H. subst. reflexivity.
Qed.

Variable exp : binary64 -> binary64.
Variable self : FullModel.t.
Variable n_h : Z.
Variable total_force : scalar.

Hypothesis HNh : FullModel.Nh self = Int n_h.

Variable NB : Z.
Variables f k p : scalar.
Variable pns : list scalar.

Hypothesis HNB : (1 <= NB <= n_h)%Z.
Hypothesis Hf : snd (binary Div total_force (Int NB)) = Binary64.Ok f.
Hypothesis Hk : snd (FullModel.k_off exp self f) = Binary64.Ok k.
Hypothesis Hpns :
  snd (FullModel.calc_prob_dist exp self total_force) = Binary64.Ok pns.
Hypothesis Hp : snd (Binary64.getitem pns NB) = Binary64.Ok p.
Hypothesis Hzero : zero k = true \/ zero p = true.

(** The denominator [NB * k_off(total_force / NB) * pns[NB]] is zero or
    nan, and its reciprocal is not finite. *)
Lemma zero_denominator (d1 d2 q : scalar) :
  snd (binary Mul (Int NB) k) = Binary64.Ok d1 ->
  snd (binary Mul d1 p) = Binary64.Ok d2 ->
  snd (binary Div (Int 1) d2) = Binary64.Ok q ->
  is_int q = false /\ is_finite (value q) = false.
Proof.
  intros E1 E2 Eq.
  assert (Ik : is_int k = false).
  { destruct (k_off_returns exp self f) as (k' & Ek').
    - exact (float_convertible f (quotient_not_int _ _ _ Hf)).
    - rewrite Hk in Ek'. injection Ek' as ->. reflexivity. }
  destruct (binary_value Mul (Int NB) k d1) as [V1 I1];
    [now rewrite Ik|exact E1|].
  destruct (binary_value Mul d1 p d2) as [V2 I2];
    [now rewrite I1|exact E2|].
  destruct (binary_value Div (Int 1) d2 q) as [Vq Iq];
    [now rewrite I2, andb_false_r|exact Eq|].
  split; [exact Iq|].
  rewrite Vq. apply div_by_zero_or_nan. rewrite V2.
  destruct Hzero as [Z|Z].
  - destruct (mul_by_zero (value (Int NB)) (value k) (zero_value k Z))
      as [Z1|N1]; rewrite V1.
    + now apply zero_by_mul.
    + right. now apply nan_by_mul.
  - apply mul_by_zero. now apply zero_value.
Qed.

(** Every mean detachment time that counts the term [NB] is not finite. *)
Lemma zero_denominator_time (NB_init : Z) (T_off : scalar) :
  (NB <= NB_init)%Z ->
  snd (Binary64.foldM
         (fun T_off NB =>
            bind (Binary64.foldM
                    (fun s j => bind (Binary64.getitem pns j)
                                     (fun pj => binary Add s pj))
                    (range NB (n_h + 1)) (Int 0))
              (fun s =>
            bind (binary Div total_force (Int NB)) (fun f =>
            bind (FullModel.k_off exp self f) (fun k =>
            bind (binary Mul (Int NB) k) (fun d1 =>
            bind (Binary64.getitem pns NB) (fun pNB =>
            bind (binary Mul d1 pNB) (fun d2 =>
            bind (binary Div (Int 1) d2) (fun q =>
            bind (binary Mul q s) (fun qs =>
            binary Add T_off qs)))))))))
         (range 1 (NB_init + 1)) (Int 0)) = Binary64.Ok T_off ->
  is_int T_off = false /\ is_finite (value T_off) = false.
Proof.
  intros Hinit E.
  match type of E with
  | snd (Binary64.foldM ?g _ _) = _ =>
      apply (foldM_range_partial g
               (fun j T => (NB < j)%Z ->
                           is_int T = false /\ is_finite (value T) = false)
               1 (NB_init + 1) (Int 0) T_off);
        [lia|lia| |exact E|lia]
  end.
  clear E T_off. intros j T T' Hj HT E HNBj.
  apply snd_bind_Ok_inv in E. destruct E as (s & _ & E).
  apply snd_bind_Ok_inv in E. destruct E as (f' & Ef & E).
  apply snd_bind_Ok_inv in E. destruct E as (k' & Ek & E).
  apply snd_bind_Ok_inv in E. destruct E as (d1 & Ed1 & E).
  apply snd_bind_Ok_inv in E. destruct E as (p' & Ep & E).
  apply snd_bind_Ok_inv in E. destruct E as (d2 & Ed2 & E).
  apply snd_bind_Ok_inv in E. destruct E as (q & Eq & E).
  apply snd_bind_Ok_inv in E. destruct E as (qs & Eqs & E).
  destruct (Z.eq_dec j NB) as [->|Hne].
  - rewrite Hf in Ef. injection Ef as <-.
    rewrite Hk in Ek. injection Ek as <-.
    rewrite Hp in Ep. injection Ep as <-.
    destruct (zero_denominator d1 d2 q Ed1 Ed2 Eq) as [Iq Fq].
    destruct (binary_value Mul q s qs) as [Vqs Iqs];
      [now rewrite Iq|exact Eqs|].
    destruct (binary_value Add T qs T') as [VT IT];
      [now rewrite Iqs, andb_false_r|exact E|].
    split; [exact IT|]. rewrite VT. apply add_not_finite_r.
    rewrite Vqs. now apply mul_not_finite_l.
  - destruct HT as [IT FT]; [lia|].
    destruct (binary_value Add T qs T') as [VT IT'];
      [now rewrite IT|exact E|].
    split; [exact IT'|]. rewrite VT. now apply add_not_finite_l.
Qed.

(** When the head off-rate or the bound-head probability in a denominator
    of [k_off_fil] is zero, the rate returned is nan or zero. *)
Lemma zero_denominator_rate (r : scalar) :
  snd (FullModel.k_off_fil exp self total_force) = Binary64.Ok r ->
  is_nan (value r) || is_zero (value r) = true.
Proof.
  unfold FullModel.k_off_fil. intros E.
  apply snd_bind_Ok_inv in E. destruct E as (pns' & Epns & E).
  rewrite Hpns in Epns. injection Epns as <-.
  rewrite HNh in E. cbn [index] in E.
  rewrite snd_bind in E. cbn [snd ret] in E.
  apply snd_bind_Ok_inv in E. destruct E as (T_off_av & ET & E).
  assert (HT : is_int T_off_av = false
               /\ is_finite (value T_off_av) = false).
  { match type of ET with
    | snd (Binary64.foldM ?g _ _) = _ =>
        apply (foldM_range_partial g
                 (fun i T => (NB < i)%Z ->
                             is_int T = false
                             /\ is_finite (value T) = false)
                 1 (n_h + 1) (Int 0) T_off_av);
          [lia|lia| |exact ET|lia]
    end.
    intros i T T' Hi _ Estep HNBi.
    apply snd_bind_Ok_inv in Estep. destruct Estep as (T_off & ETo & Estep).
    apply snd_bind_Ok_inv in Estep. destruct Estep as (pinit & _ & Estep).
    apply snd_bind_Ok_inv in Estep. destruct Estep as (w & Ew & Estep).
    destruct (zero_denominator_time i T_off) as [ITo FTo]; [lia|exact ETo|].
    destruct (binary_value Mul pinit T_off w) as [Vw Iw];
      [now rewrite ITo, andb_false_r|exact Ew|].
    destruct (binary_value Add T w T') as [VT IT];
      [now rewrite Iw, andb_false_r|exact Estep|].
    split; [exact IT|]. rewrite VT. apply add_not_finite_r.
    rewrite Vw. now apply mul_not_finite_r. }
  destruct HT as [IT FT].
  destruct (binary_value Div (Int 1) T_off_av r) as [Vr _];
    [now rewrite IT, andb_false_r|exact E|].
  rewrite Vr. now apply reciprocal_not_finite.
Qed.

End ZeroDenominator.

(* ================================================================== *)
(** * Binary64: the claims on the filament off-rate and on divisions by zero *)

Lemma sample_full_built (k_on k_off0_catch k_off0_slip : Binary64.binary64)
      (n_h : Z) :
  Binary64.FullModel.init
    (Binary64.of_Z 1) (Binary64.of_Z 1) k_off0_catch k_off0_slip k_on
    (Binary64.of_Z 1) (Binary64.of_Z 1) (Binary64.Int n_h) (Binary64.Int 10)
    (Binary64.of_Z 1) (Binary64.of_Z 1) (Binary64.of_Z 2) (Binary64.of_Z 10)
    (Binary64.Float (Binary64.of_Z 35))
  = ([], Binary64.Ok (Binary64.sample_full k_on k_off0_catch k_off0_slip n_h)).
Proof. reflexivity. Qed.

Lemma sample_density_built (h_eta : Binary64.binary64) :
  Binary64.DensityModel.init
    h_eta (Binary64.of_Z 1) (Binary64.of_Z 2) (Binary64.of_Z 10)
    (Binary64.Float (Binary64.of_Z 35))
  = ([], Binary64.Ok (Binary64.sample_density h_eta)).
Proof. reflexivity. Qed.

Lemma sample_exp_sign (x : Binary64.binary64) :
  Binary64.sign (Binary64.sample_exp x) = false.
Proof.
  unfold Binary64.sample_exp.
  destruct (Binary64.is_zero x); [reflexivity|].
  destruct (SFeqb x (Binary64.of_Z 7)); [reflexivity|].
  destruct (SFeqb x (Binary64.of_Z (-7))); reflexivity.
Qed.

(** A number with a clear sign bit is [> 0.] unless it is nan or zero. *)
Lemma sign_positive (r : Binary64.binary64) :
  Binary64.sign r = false ->
  Binary64.is_nan r = false -> Binary64.is_zero r = false ->
  SFltb (S754_zero false) r = true.
Proof.
  destruct r as [s|s| |s m e]; cbn; try discriminate; intros ->; reflexivity.
Qed.

(** The loads per head exist for every float force, and for an int force
    when its quotients do not overflow. *)
Lemma loads_per_head (total_force : Binary64.scalar) (n_h : Z) :
  Binary64.fits n_h = true ->
  Binary64.is_int total_force = false
  \/ (forall NB, (1 <= NB <= n_h)%Z ->
                 exists f, snd (Binary64.binary Binary64.Div total_force
                                                (Binary64.Int NB))
                           = Binary64.Ok f) ->
  forall NB, (1 <= NB <= n_h)%Z ->
             exists f, snd (Binary64.binary Binary64.Div total_force
                                            (Binary64.Int NB))
                       = Binary64.Ok f.
Proof.
  intros Hfit [Hforce|Hload]; [|exact Hload].
  intros NB. now apply float_load_per_head.
Qed.




(** C6, as the code has it.  [k_off_fil] has no guard of its own.  For a
    number of heads [Nh >= 1] and a force whose loads per head
    [total_force / NB] exist (every float force does, and so does the int
    7 of [calculate_contraction_dynamics]), every division of
    [__calc_prob_dist] and [k_off_fil] by a head off-rate or a bound-head
    probability is a division of numpy scalars: it is carried out whatever
    the denominator, nothing is raised and no value is put in its place,
    and [k_off_fil] returns the [numpy.float64] that results.  Whenever,
    for some [NB] in [1 .. Nh], the head off-rate [k_off(total_force / NB)]
    or the bound-head probability [pns[NB]] of the denominator
    [NB * k_off(total_force / NB) * pns[NB]] is exactly zero, that value is
    nan or zero; with a single head whose off-rate is zero it is nan. *)
Theorem k_off_fil_division_unguarded
        (exp : Binary64.binary64 -> Binary64.binary64)
        (self : Binary64.FullModel.t) (n_h : Z)
        (total_force : Binary64.scalar) :
  Binary64.FullModel.Nh self = Binary64.Int n_h ->
  (1 <= n_h)%Z ->
  Binary64.fits n_h = true ->
  Binary64.is_int total_force = false
  \/ (forall NB, (1 <= NB <= n_h)%Z ->
                 exists f, snd (Binary64.binary Binary64.Div total_force
                                                (Binary64.Int NB))
                           = Binary64.Ok f) ->
  (exists r,
      snd (Binary64.FullModel.k_off_fil exp self total_force)
      = Binary64.Ok (Binary64.Float64 r))
  /\ (forall NB f k pns p,
         (1 <= NB <= n_h)%Z ->
         snd (Binary64.binary Binary64.Div total_force (Binary64.Int NB))
         = Binary64.Ok f ->
         snd (Binary64.FullModel.k_off exp self f) = Binary64.Ok k ->
         snd (Binary64.FullModel.calc_prob_dist exp self total_force)
         = Binary64.Ok pns ->
         snd (Binary64.getitem pns NB) = Binary64.Ok p ->
         Binary64.zero k = true \/ Binary64.zero p = true ->
         exists r,
           snd (Binary64.FullModel.k_off_fil exp self total_force)
           = Binary64.Ok (Binary64.Float64 r)
           /\ Binary64.is_nan r || Binary64.is_zero r = true)
  /\ (n_h = 1%Z ->
      forall f k,
        snd (Binary64.binary Binary64.Div total_force (Binary64.Int 1))
        = Binary64.Ok f ->
        snd (Binary64.FullModel.k_off exp self f)
        = Binary64.Ok (Binary64.Float64 k) ->
        Binary64.is_zero k = true ->
        snd (Binary64.FullModel.k_off_fil exp self total_force)
        = Binary64.Ok (Binary64.Float64 S754_nan)).
Proof.
  intros HNh Hn Hfit Hforce.
  pose proof (k_off_fil_returns exp self n_h total_force Hfit
                (loads_per_head total_force n_h Hfit Hforce) Hn HNh)
    as Hreturns.
  split; [exact Hreturns|]. split.
  - intros NB f k pns p HNB Ef Ek Epns Ep Hzero.
    destruct Hreturns as (r & Er). exists r. split; [exact Er|].
    exact (zero_denominator_rate exp self n_h total_force HNh NB f k p pns
             HNB Ef Ek Epns Ep Hzero (Binary64.Float64 r) Er).
  - intros -> f k Ef Ek Hz.
    exact (single_head_rate exp self total_force f k HNh Ef Ek Hz).
Qed.

Lemma k_off_fil_division_unguarded_witness :
  (exists r,
      snd (Binary64.FullModel.k_off_fil
             Binary64.sample_exp
             (Binary64.sample_full (Binary64.of_Z 1) (Binary64.of_Z 0)
                                   (Binary64.of_Z 0) 1)
             (Binary64.Int 7))
      = Binary64.Ok (Binary64.Float64 r))
  /\ (exists r,
         snd (Binary64.FullModel.k_off_fil
                Binary64.sample_exp
                (Binary64.sample_full (Binary64.of_Z 1) (Binary64.of_Z 0)
                                      (Binary64.of_Z 0) 1)
                (Binary64.Int 7))
         = Binary64.Ok (Binary64.Float64 r)
         /\ Binary64.is_nan r || Binary64.is_zero r = true)
  /\ snd (Binary64.FullModel.k_off_fil
            Binary64.sample_exp
            (Binary64.sample_full (Binary64.of_Z 1) (Binary64.of_Z 0)
                                  (Binary64.of_Z 0) 1)
            (Binary64.Int 7))
     = Binary64.Ok (Binary64.Float64 S754_nan)
  /\ (exists r,
         snd (Binary64.FullModel.k_off_fil
                Binary64.sample_exp
                (Binary64.sample_full (Binary64.decimal 1 (-200))
                                      (Binary64.of_Z 1) (Binary64.of_Z 1) 2)
                (Binary64.Float (Binary64.of_Z 0)))
         = Binary64.Ok (Binary64.Float64 r)
         /\ Binary64.is_nan r || Binary64.is_zero r = true).
Proof.
  assert (Hload : Binary64.is_int (Binary64.Int 7) = false
                  \/ (forall NB, (1 <= NB <= 1)%Z ->
                        exists f,
                          snd (Binary64.binary Binary64.Div (Binary64.Int 7)
                                               (Binary64.Int NB))
                          = Binary64.Ok f)).
  { right. intros NB HNB. assert (NB = 1%Z) as -> by lia.
    eexists. reflexivity. }
  destruct (k_off_fil_division_unguarded
              Binary64.sample_exp
              (Binary64.sample_full (Binary64.of_Z 1) (Binary64.of_Z 0)
                                    (Binary64.of_Z 0) 1)
              1 (Binary64.Int 7)
              eq_refl ltac:(lia) eq_refl Hload) as [H1 [H2 H3]].
  split; [exact H1|]. split.
  - apply (H2 1%Z (Binary64.Float (Binary64.of_Z 7))
              (Binary64.Float64 (Binary64.of_Z 0))
              [Binary64.Float64 (Binary64.of_Z 0); Binary64.Float64 S754_nan]
              (Binary64.Float64 S754_nan));
      [lia|reflexivity|reflexivity|reflexivity|reflexivity|].
    left. reflexivity.
  - split.
    + apply (H3 eq_refl (Binary64.Float (Binary64.of_Z 7))
                (Binary64.of_Z 0));
        reflexivity.
    + destruct (k_off_fil_division_unguarded
                  Binary64.sample_exp
                  (Binary64.sample_full (Binary64.decimal 1 (-200))
                                        (Binary64.of_Z 1) (Binary64.of_Z 1) 2)
                  2 (Binary64.Float (Binary64.of_Z 0))
                  eq_refl ltac:(lia) eq_refl (or_introl eq_refl))
        as [_ [H4 _]].
      apply (H4 2%Z (Binary64.Float (Binary64.of_Z 0))
                (Binary64.Float64 (Binary64.of_Z 2))
                [Binary64.Float64 (Binary64.of_Z 1);
                 Binary64.Float64 (Binary64.decimal 1 (-200));
                 Binary64.Float64 (Binary64.of_Z 0)]
                (Binary64.Float64 (Binary64.of_Z 0)));
        [lia|reflexivity|reflexivity|reflexivity|reflexivity|].
      right. reflexivity.
Defined.

(** C6 as stated fails, for a single head.  With a base off-rate of
    [1e-300] and no load, a denominator near zero, [k_off_fil] divides as it
    always does: no warning is issued, nothing is put in place of the
    denominator, and the quotients make up the rate [1e-300].  With both
    base off-rates zero the denominator is zero, at rest and under the load
    7 with which [calculate_contraction_dynamics] calls: the divisions are
    carried out all the same, the distribution is [[0., nan]] and nan is
    returned as the rate; the warnings of numpy's arithmetic are the only
    trace. *)
Lemma k_off_fil_guard_counterexample :
  Binary64.FullModel.k_off
    Binary64.sample_exp
    (Binary64.sample_full (Binary64.of_Z 1) (Binary64.decimal 1 (-300))
                          (Binary64.of_Z 0) 1)
    (Binary64.Float (Binary64.of_Z 0))
  = ([], Binary64.Ok (Binary64.Float64 (Binary64.decimal 1 (-300))))
  /\ Binary64.FullModel.k_off_fil
       Binary64.sample_exp
       (Binary64.sample_full (Binary64.of_Z 1) (Binary64.decimal 1 (-300))
                             (Binary64.of_Z 0) 1)
       (Binary64.Float (Binary64.of_Z 0))
     = ([], Binary64.Ok (Binary64.Float64 (Binary64.decimal 1 (-300))))
  /\ Binary64.FullModel.k_off
       Binary64.sample_exp
       (Binary64.sample_full (Binary64.of_Z 1) (Binary64.of_Z 0)
                             (Binary64.of_Z 0) 1)
       (Binary64.Float (Binary64.of_Z 0))
     = ([], Binary64.Ok (Binary64.Float64 (Binary64.of_Z 0)))
  /\ Binary64.FullModel.calc_prob_dist
       Binary64.sample_exp
       (Binary64.sample_full (Binary64.of_Z 1) (Binary64.of_Z 0)
                             (Binary64.of_Z 0) 1)
       (Binary64.Float (Binary64.of_Z 0))
     = ([Binary64.divide_by_zero; Binary64.divide_by_zero;
         Binary64.divide_by_zero; Binary64.invalid_value],
        Binary64.Ok [Binary64.Float64 (Binary64.of_Z 0);
                     Binary64.Float64 S754_nan])
  /\ Binary64.FullModel.k_off_fil
       Binary64.sample_exp
       (Binary64.sample_full (Binary64.of_Z 1) (Binary64.of_Z 0)
                             (Binary64.of_Z 0) 1)
       (Binary64.Float (Binary64.of_Z 0))
     = ([Binary64.divide_by_zero; Binary64.divide_by_zero;
         Binary64.divide_by_zero; Binary64.invalid_value],
        Binary64.Ok (Binary64.Float64 S754_nan))
  /\ Binary64.FullModel.calc_prob_dist
       Binary64.sample_exp
       (Binary64.sample_full (Binary64.of_Z 1) (Binary64.of_Z 0)
                             (Binary64.of_Z 0) 1)
       (Binary64.Int 7)
     = ([Binary64.divide_by_zero; Binary64.divide_by_zero;
         Binary64.divide_by_zero; Binary64.invalid_value],
        Binary64.Ok [Binary64.Float64 (Binary64.of_Z 0);
                     Binary64.Float64 S754_nan])
  /\ Binary64.FullModel.k_off_fil
       Binary64.sample_exp
       (Binary64.sample_full (Binary64.of_Z 1) (Binary64.of_Z 0)
                             (Binary64.of_Z 0) 1)
       (Binary64.Int 7)
     = ([Binary64.divide_by_zero; Binary64.divide_by_zero;
         Binary64.divide_by_zero; Binary64.invalid_value],
        Binary64.Ok (Binary64.Float64 S754_nan)).
Proof. repeat split; vm_compute; reflexivity. Qed.

(** Python's quotient of a float by a number that is no [numpy.float64]
    exists only when the divisor converts to a double and is not zero. *)
Lemma python_quotient_inv (a b d : Binary64.scalar) :
  Binary64.is_float a = true ->
  Binary64.is_float64 b = false ->
  snd (Binary64.binary Binary64.Div a b) = Binary64.Ok d ->
  Binary64.convertible b = true /\ Binary64.zero b = false.
Proof.
  destruct a as [m|x|x]; try discriminate. intros _.
  destruct b as [n|y|y]; try discriminate; intros _;
    unfold Binary64.binary; cbn [Binary64.float_of Binary64.convertible].
  - destruct (Binary64.fits n); cbn; [|discriminate].
    destruct (n =? 0)%Z; cbn; [discriminate|]. intros _. split; reflexivity.
  - cbn. destruct (Binary64.is_zero y); cbn; [discriminate|].
    intros _. split; reflexivity.
Qed.

Lemma full_area_divisor (self : Binary64.FullModel.t)
      (force ar : Binary64.scalar) :
  Binary64.is_float force = true ->
  Binary64.is_float64 (Binary64.FullModel.k_p self) = false ->
  snd (Binary64.FullModel.area self force) = Binary64.Ok ar ->
  Binary64.convertible (Binary64.FullModel.k_p self) = true
  /\ Binary64.zero (Binary64.FullModel.k_p self) = false.
Proof.
  intros Hf Hk E. unfold Binary64.FullModel.area in E.
  apply snd_bind_Ok_inv in E. destruct E as (d & Ed & _).
  exact (python_quotient_inv _ _ _ Hf Hk Ed).
Qed.

Lemma density_area_divisor (self : Binary64.DensityModel.t)
      (force ar : Binary64.scalar) :
  Binary64.is_float force = true ->
  Binary64.is_float64 (Binary64.DensityModel.k_p self) = false ->
  snd (Binary64.DensityModel.area self force) = Binary64.Ok ar ->
  Binary64.convertible (Binary64.DensityModel.k_p self) = true
  /\ Binary64.zero (Binary64.DensityModel.k_p self) = false.
Proof.
  intros Hf Hk E. unfold Binary64.DensityModel.area in E.
  apply snd_bind_Ok_inv in E. destruct E as (d & Ed & _).
  exact (python_quotient_inv _ _ _ Hf Hk Ed).
Qed.

(** C8, as the code has it.  [rhs] and [velocity] of both classes divide
    by the ring area [pi * (R0 - force / k_p) ** 2] with no guard, and what
    an area of zero does depends on the operands.  For models whose [A0] is
    the Python float [__init__] computes:

    - on Python numbers ([force] and [k_p] no [numpy.float64]), when the
      area evaluates to zero the four calls end in [ZeroDivisionError];
    - on a [numpy.float64] force, which is what the entries of the state
      array are that [solve_ivp] passes to [rhs], nothing is raised: the
      calls return [numpy.float64] values, and when the area is zero the
      velocity and the force rate returned are not finite ([inf] or nan);
    - on Python floats, when the area is not zero and [tau] is a Python
      float that is not zero, the calls return a value.

    [FullModel.rhs] goes on to [k_off_fil], which returns for a number of
    heads [Nh >= 1]. *)
Theorem area_division_unguarded
        (exp : Binary64.binary64 -> Binary64.binary64)
        (full : Binary64.FullModel.t) (density : Binary64.DensityModel.t)
        (t : Binary64.scalar) :
  Binary64.is_float (Binary64.FullModel.A0 full) = true ->
  Binary64.is_float (Binary64.DensityModel.A0 density) = true ->
  (forall force N more ar,
      Binary64.is_float64 force = false ->
      (Binary64.is_float64 (Binary64.FullModel.k_p full) = false ->
       snd (Binary64.FullModel.area full force) = Binary64.Ok ar ->
       Binary64.zero ar = true ->
       snd (Binary64.FullModel.velocity full t force N)
       = Binary64.Raise Binary64.ZeroDivisionError
       /\ snd (Binary64.FullModel.rhs exp full t (force :: N :: more))
          = Binary64.Raise Binary64.ZeroDivisionError)
      /\ (Binary64.is_float64 (Binary64.DensityModel.k_p density) = false ->
          snd (Binary64.DensityModel.area density force) = Binary64.Ok ar ->
          Binary64.zero ar = true ->
          snd (Binary64.DensityModel.velocity density t force)
          = Binary64.Raise Binary64.ZeroDivisionError
          /\ snd (Binary64.DensityModel.rhs density t (force :: more))
             = Binary64.Raise Binary64.ZeroDivisionError))
  /\ (forall f N more,
         Binary64.is_int N = false ->
         (Binary64.convertible (Binary64.FullModel.k_p full) = true ->
          Binary64.convertible (Binary64.FullModel.tau full) = true ->
          exists z v,
            snd (Binary64.FullModel.area full (Binary64.Float64 f))
            = Binary64.Ok (Binary64.Float64 z)
            /\ snd (Binary64.FullModel.velocity full t (Binary64.Float64 f) N)
               = Binary64.Ok (Binary64.Float64 v)
            /\ (Binary64.is_zero z = true -> Binary64.is_finite v = false)
            /\ forall n_h,
                Binary64.FullModel.Nh full = Binary64.Int n_h ->
                (1 <= n_h)%Z ->
                Binary64.fits n_h = true ->
                Binary64.convertible (Binary64.FullModel.Nmax full) = true ->
                exists force_prime N_prime,
                  snd (Binary64.FullModel.rhs
                         exp full t (Binary64.Float64 f :: N :: more))
                  = Binary64.Ok [Binary64.Float64 force_prime;
                                 Binary64.Float64 N_prime]
                  /\ (Binary64.is_zero z = true ->
                      Binary64.is_finite force_prime = false))
         /\ (Binary64.convertible (Binary64.DensityModel.k_p density) = true ->
             Binary64.convertible (Binary64.DensityModel.tau density) = true ->
             exists z v force_prime,
               snd (Binary64.DensityModel.area density (Binary64.Float64 f))
               = Binary64.Ok (Binary64.Float64 z)
               /\ snd (Binary64.DensityModel.velocity
                         density t (Binary64.Float64 f))
                  = Binary64.Ok (Binary64.Float64 v)
               /\ snd (Binary64.DensityModel.rhs
                         density t (Binary64.Float64 f :: more))
                  = Binary64.Ok [Binary64.Float64 force_prime]
               /\ (Binary64.is_zero z = true ->
                   Binary64.is_finite v = false
                   /\ Binary64.is_finite force_prime = false)))
  /\ (forall force N more ar,
         Binary64.is_float force = true ->
         Binary64.is_float N = true ->
         (Binary64.is_float (Binary64.FullModel.tau full) = true ->
          Binary64.zero (Binary64.FullModel.tau full) = false ->
          Binary64.is_float64 (Binary64.FullModel.k_p full) = false ->
          snd (Binary64.FullModel.area full force) = Binary64.Ok ar ->
          Binary64.zero ar = false ->
          (exists v,
              snd (Binary64.FullModel.velocity full t force N)
              = Binary64.Ok (Binary64.Float v))
          /\ forall n_h,
              Binary64.FullModel.Nh full = Binary64.Int n_h ->
              (1 <= n_h)%Z ->
              Binary64.fits n_h = true ->
              Binary64.convertible (Binary64.FullModel.Nmax full) = true ->
              exists force_prime N_prime,
                snd (Binary64.FullModel.rhs exp full t (force :: N :: more))
                = Binary64.Ok [Binary64.Float force_prime;
                               Binary64.Float64 N_prime])
         /\ (Binary64.is_float (Binary64.DensityModel.tau density) = true ->
             Binary64.zero (Binary64.DensityModel.tau density) = false ->
             Binary64.is_float64 (Binary64.DensityModel.k_p density) = false ->
             snd (Binary64.DensityModel.area density force) = Binary64.Ok ar ->
             Binary64.zero ar = false ->
             (exists v,
                 snd (Binary64.DensityModel.velocity density t force)
                 = Binary64.Ok (Binary64.Float v))
             /\ exists force_prime,
                 snd (Binary64.DensityModel.rhs density t (force :: more))
                 = Binary64.Ok [Binary64.Float force_prime])).
Proof.
  intros HAf HAd. split; [|split].
  - intros force N more ar Hf. split.
    + intros Hk Ea Hz. split.
      * exact (full_velocity_zero_area full t force N HAf ar Hf Hk Ea Hz).
      * exact (full_rhs_zero_area exp full t force N HAf ar more Hf Hk Ea Hz).
    + intros Hk Ea Hz. split.
      * exact (density_velocity_zero_area density t force HAd ar Hf Hk Ea Hz).
      * exact (density_rhs_zero_area density t force HAd ar more Hf Hk Ea Hz).
  - intros f N more HN. split.
    + intros Hk Ht.
      destruct (full_velocity_float64 full t (Binary64.Float64 f) N HAf f
                  eq_refl Hk Ht HN) as (z & v & Ez & Ev & Hv).
      exists z, v. split; [exact Ez|]. split; [exact Ev|]. split; [exact Hv|].
      intros n_h HNh Hn Hfit HNmax.
      destruct (full_rhs_float64 exp full t (Binary64.Float64 f) N HAf f n_h
                  more eq_refl Hk Ht HN HNh Hn Hfit HNmax)
        as (z' & fp & np & Ez' & Er & Hfp).
      assert (z' = z) by congruence. subst z'.
      exists fp, np. split; [exact Er|exact Hfp].
    + intros Hk Ht.
      destruct (density_velocity_float64 density t (Binary64.Float64 f) HAd f
                  eq_refl Hk Ht) as (z & v & Ez & Ev & Hv).
      destruct (density_rhs_float64 density t (Binary64.Float64 f) HAd f more
                  eq_refl Hk Ht) as (z' & fp & Ez' & Er & Hfp).
      assert (z' = z) by congruence. subst z'.
      exists z, v, fp. split; [exact Ez|]. split; [exact Ev|].
      split; [exact Er|]. intros Hz. split; [now apply Hv|now apply Hfp].
  - intros force N more ar Hf HN. split.
    + intros Ht Htz Hk Ea Haz.
      destruct (full_area_divisor full force ar Hf Hk Ea) as [Hkc Hkz].
      split.
      * exact (full_velocity_python full t force N HAf ar Hf HN Ht Htz Hk
                 Hkc Hkz Ea Haz).
      * intros n_h HNh Hn Hfit HNmax.
        exact (full_rhs_python exp full t force N HAf ar n_h more Hf HN Ht
                 Htz Hk Ea Haz HNh Hn Hfit HNmax).
    + intros Ht Htz Hk Ea Haz.
      destruct (density_area_divisor density force ar Hf Hk Ea) as [Hkc Hkz].
      split.
      * exact (density_velocity_python density t force HAd ar Hf Ht Htz Hk
                 Hkc Hkz Ea Haz).
      * exact (density_rhs_python density t force HAd ar more Hf Ht Htz Hk
                 Ea Haz).
Qed.

Lemma area_division_unguarded_witness :
  ((snd (Binary64.FullModel.velocity
           (Binary64.sample_full (Binary64.of_Z 1) (Binary64.of_Z 1)
                                 (Binary64.of_Z 0) 1)
           (Binary64.Int 0) (Binary64.Float (Binary64.of_Z 350))
           (Binary64.Float (Binary64.of_Z 1)))
    = Binary64.Raise Binary64.ZeroDivisionError
    /\ snd (Binary64.FullModel.rhs
              Binary64.sample_exp
              (Binary64.sample_full (Binary64.of_Z 1) (Binary64.of_Z 1)
                                    (Binary64.of_Z 0) 1)
              (Binary64.Int 0)
              [Binary64.Float (Binary64.of_Z 350);
               Binary64.Float (Binary64.of_Z 1)])
       = Binary64.Raise Binary64.ZeroDivisionError)
   /\ (snd (Binary64.DensityModel.velocity
              (Binary64.sample_density (Binary64.of_Z 1))
              (Binary64.Int 0) (Binary64.Float (Binary64.of_Z 350)))
       = Binary64.Raise Binary64.ZeroDivisionError
       /\ snd (Binary64.DensityModel.rhs
                 (Binary64.sample_density (Binary64.of_Z 1))
                 (Binary64.Int 0) [Binary64.Float (Binary64.of_Z 350)])
          = Binary64.Raise Binary64.ZeroDivisionError))
  /\ (exists z v force_prime,
         snd (Binary64.DensityModel.area
                (Binary64.sample_density (Binary64.of_Z 1))
                (Binary64.Float64 (Binary64.of_Z 350)))
         = Binary64.Ok (Binary64.Float64 z)
         /\ snd (Binary64.DensityModel.velocity
                   (Binary64.sample_density (Binary64.of_Z 1))
                   (Binary64.Int 0) (Binary64.Float64 (Binary64.of_Z 350)))
            = Binary64.Ok (Binary64.Float64 v)
         /\ snd (Binary64.DensityModel.rhs
                   (Binary64.sample_density (Binary64.of_Z 1))
                   (Binary64.Int 0) [Binary64.Float64 (Binary64.of_Z 350)])
            = Binary64.Ok [Binary64.Float64 force_prime]
         /\ (Binary64.is_zero z = true ->
             Binary64.is_finite v = false
             /\ Binary64.is_finite force_prime = false))
  /\ (exists v,
         snd (Binary64.FullModel.velocity
                (Binary64.sample_full (Binary64.of_Z 1) (Binary64.of_Z 1)
                                      (Binary64.of_Z 0) 1)
                (Binary64.Int 0) (Binary64.Float (Binary64.of_Z 0))
                (Binary64.Float (Binary64.of_Z 1)))
         = Binary64.Ok (Binary64.Float v)).
Proof.
  destruct (area_division_unguarded
              Binary64.sample_exp
              (Binary64.sample_full (Binary64.of_Z 1) (Binary64.of_Z 1)
                                    (Binary64.of_Z 0) 1)
              (Binary64.sample_density (Binary64.of_Z 1))
              (Binary64.Int 0) eq_refl eq_refl) as [H1 [H2 H3]].
  split; [|split].
  - destruct (H1 (Binary64.Float (Binary64.of_Z 350))
                 (Binary64.Float (Binary64.of_Z 1)) []
                 (Binary64.Float (S754_zero false)) eq_refl)
      as [Hfull Hdensity].
    split; [apply Hfull|apply Hdensity]; reflexivity.
  - destruct (H2 (Binary64.of_Z 350) (Binary64.Float (Binary64.of_Z 1)) []
                 eq_refl) as [_ Hdensity].
    apply Hdensity; reflexivity.
  - destruct (H3 (Binary64.Float (Binary64.of_Z 0))
                 (Binary64.Float (Binary64.of_Z 1)) []
                 (Binary64.Float
                    (Binary64.arith Binary64.Mul Binary64.pi
                       (Binary64.arith Binary64.Mul (Binary64.of_Z 10)
                                       (Binary64.of_Z 10))))
                 eq_refl eq_refl) as [Hfull _].
    apply Hfull; reflexivity.
Defined.

(** C8 as stated fails, in both of its halves.  A density model loaded
    with [h_eta = 0] has [tau = 0.]: at the force [0.], where the area is
    [100 * pi], [rhs] and [velocity] return no value, they end in
    [ZeroDivisionError] at [-force / tau].  And at [force = k_p * R0 = 350],
    the area being zero, a call on a [numpy.float64] force does not fail:
    [velocity] and [rhs] of a density model with [h_eta = 1.] return
    [-inf], as does [velocity] of the full model. *)
Lemma area_division_counterexample :
  Binary64.DensityModel.area
    (Binary64.sample_density (Binary64.of_Z 0))
    (Binary64.Float (Binary64.of_Z 0))
  = ([], Binary64.Ok
           (Binary64.Float
              (Binary64.arith Binary64.Mul Binary64.pi (Binary64.of_Z 100))))
  /\ Binary64.DensityModel.rhs
       (Binary64.sample_density (Binary64.of_Z 0)) (Binary64.Int 0)
       [Binary64.Float (Binary64.of_Z 0)]
     = ([], Binary64.Raise Binary64.ZeroDivisionError)
  /\ Binary64.DensityModel.velocity
       (Binary64.sample_density (Binary64.of_Z 0)) (Binary64.Int 0)
       (Binary64.Float (Binary64.of_Z 0))
     = ([], Binary64.Raise Binary64.ZeroDivisionError)
  /\ Binary64.DensityModel.area
       (Binary64.sample_density (Binary64.of_Z 1))
       (Binary64.Float64 (Binary64.of_Z 350))
     = ([], Binary64.Ok (Binary64.Float64 (S754_zero false)))
  /\ Binary64.DensityModel.velocity
       (Binary64.sample_density (Binary64.of_Z 1)) (Binary64.Int 0)
       (Binary64.Float64 (Binary64.of_Z 350))
     = ([Binary64.divide_by_zero; Binary64.divide_by_zero],
        Binary64.Ok (Binary64.Float64 (S754_infinity true)))
  /\ Binary64.DensityModel.rhs
       (Binary64.sample_density (Binary64.of_Z 1)) (Binary64.Int 0)
       [Binary64.Float64 (Binary64.of_Z 350)]
     = ([Binary64.divide_by_zero; Binary64.divide_by_zero],
        Binary64.Ok [Binary64.Float64 (S754_infinity true)])
  /\ Binary64.FullModel.velocity
       (Binary64.sample_full (Binary64.of_Z 1) (Binary64.of_Z 1)
                             (Binary64.of_Z 0) 1)
       (Binary64.Int 0) (Binary64.Float64 (Binary64.of_Z 350))
       (Binary64.Float64 (Binary64.of_Z 1))
     = ([Binary64.divide_by_zero; Binary64.divide_by_zero],
        Binary64.Ok (Binary64.Float64 (S754_infinity true))).
Proof. repeat split; vm_compute; reflexivity. Qed.

(** X26.  When the first two time points are the same finite number the
    spacing [dt] is zero.  On Python floats [velos_numerical] then ends in
    [ZeroDivisionError], at the first velocity.  On [numpy.float64] time
    points, which is what the demos pass, nothing is raised: given no fewer
    displacements than time points, floats all of them, the function
    returns one velocity per time point and every one is a quotient by
    zero, [inf] or nan. *)
Theorem velos_numerical_zero_spacing
        (times displacements : list Binary64.scalar) (x : Binary64.binary64) :
  Binary64.is_finite x = true ->
  (forall a b,
      nth_error times 0 = Some (Binary64.Float x) ->
      nth_error times 1 = Some (Binary64.Float x) ->
      nth_error displacements 0 = Some (Binary64.Float a) ->
      nth_error displacements 1 = Some (Binary64.Float b) ->
      snd (Binary64.velos_numerical times displacements)
      = Binary64.Raise Binary64.ZeroDivisionError)
  /\ (nth_error times 0 = Some (Binary64.Float64 x) ->
      nth_error times 1 = Some (Binary64.Float64 x) ->
      Forall (fun d => Binary64.is_int d = false) displacements ->
      (List.length times <= List.length displacements)%nat ->
      exists velos,
        snd (Binary64.velos_numerical times displacements)
        = Binary64.Ok velos
        /\ List.length velos = List.length times
        /\ Forall (fun o => exists v,
                       o = Some (Binary64.Float64 v)
                       /\ Binary64.is_finite v = false) velos).
Proof.
  intros Hx. split.
  - intros a b H0 H1 Ha Hb.
    apply (velos_python_zero_spacing times displacements) with x a b;
      try assumption.
    assert (H : nth_error displacements 1 <> None) by congruence.
    apply nth_error_Some in H. lia.
  - intros H0 H1 Hd Hl.
    apply (velos_float64_zero_spacing times displacements) with x;
      try assumption.
    assert (H : nth_error times 1 <> None) by congruence.
    apply nth_error_Some in H. lia.
Qed.

Lemma velos_numerical_zero_spacing_witness :
  snd (Binary64.velos_numerical
         [Binary64.Float (Binary64.of_Z 3); Binary64.Float (Binary64.of_Z 3);
          Binary64.Float (Binary64.of_Z 4)]
         [Binary64.Float (Binary64.of_Z 5); Binary64.Float (Binary64.of_Z 6);
          Binary64.Float (Binary64.of_Z 7)])
  = Binary64.Raise Binary64.ZeroDivisionError
  /\ exists velos,
      snd (Binary64.velos_numerical
             [Binary64.Float64 (Binary64.of_Z 3);
              Binary64.Float64 (Binary64.of_Z 3);
              Binary64.Float64 (Binary64.of_Z 4)]
             [Binary64.Float64 (Binary64.of_Z 5);
              Binary64.Float64 (Binary64.of_Z 6);
              Binary64.Float64 (Binary64.of_Z 7)])
      = Binary64.Ok velos
      /\ List.length velos = 3%nat
      /\ Forall (fun o => exists v,
                     o = Some (Binary64.Float64 v)
                     /\ Binary64.is_finite v = false) velos.
Proof.
  split.
  - apply (proj1 (velos_numerical_zero_spacing
                    [Binary64.Float (Binary64.of_Z 3);
                     Binary64.Float (Binary64.of_Z 3);
                     Binary64.Float (Binary64.of_Z 4)]
                    [Binary64.Float (Binary64.of_Z 5);
                     Binary64.Float (Binary64.of_Z 6);
                     Binary64.Float (Binary64.of_Z 7)]
                    (Binary64.of_Z 3) eq_refl)
                 (Binary64.of_Z 5) (Binary64.of_Z 6));
      reflexivity.
  - apply (proj2 (velos_numerical_zero_spacing
                    [Binary64.Float64 (Binary64.of_Z 3);
                     Binary64.Float64 (Binary64.of_Z 3);
                     Binary64.Float64 (Binary64.of_Z 4)]
                    [Binary64.Float64 (Binary64.of_Z 5);
                     Binary64.Float64 (Binary64.of_Z 6);
                     Binary64.Float64 (Binary64.of_Z 7)]
                    (Binary64.of_Z 3) eq_refl)).
    + reflexivity.
    + reflexivity.
    + repeat constructor.
    + simpl. lia.
Defined.

(* ================================================================== *)
(** * The loader on a file that lacks a parameter of the full model *)

(** The first element of a list that fails a test. *)
Lemma forallb_first_failure {A : Type} (f : A -> bool) (l : list A) :
  forallb f l = false ->
  exists pre x post,
    l = pre ++ x :: post /\ (forall a, In a pre -> f a = true) /\ f x = false.
Proof.
  induction l as [|a l IH]; [discriminate|].
  cbn [forallb]. destruct (f a) eqn:Ea.
  - intros H. destruct (IH H) as (pre & x & post & -> & Hpre & Hx).
    exists (a :: pre), x, post. split; [reflexivity|]. split; [|exact Hx].
    intros b [<-|Hb]; [exact Ea|now apply Hpre].
  - intros _. exists [], a, l. split; [reflexivity|]. split; [|exact Ea].
    intros b [].
Qed.

(** A file with a line the loop cannot read ends the loader in
    [IndexError], at the first such line. *)
Lemma load_unreadable (float_of_string : string -> option R)
      (int_of_string : string -> option Z) (model_type : string)
      (names : list string) (parameter_file : list string) :
  schema model_type = Some names ->
  forallb (line_readable names) parameter_file = false ->
  exists out,
    parameter_loader.load_parameters float_of_string int_of_string
      model_type parameter_file = (out, Raise IndexError).
Proof.
  intros Hs Hf.
  destruct (forallb_first_failure _ _ Hf)
    as (pre & line & post & -> & Hpre & Hline).
  rewrite load_parameters_schema, Hs.
  rewrite LoaderLines.read_lines_app.
  match goal with
  | |- context [parameter_loader.read_lines ?a ?b ?c ?d ?s pre] =>
      destruct (LoaderLines.read_lines_readable a b c d pre s Hpre)
        as (st1 & ->)
  end.
  cbn [parameter_loader.read_lines].
  destruct (LoaderLines.read_line_unreadable float_of_string int_of_string
              names model_type st1 line Hline) as (st2 & ->).
  eauto.
Qed.



